(** * NVENC H.264 encoder element: property state, session configuration,
      reconfiguration check, output packaging, class data and registration

    A shallow embedding of [sys/nvcodec/gstnvh264encoder.cpp].  The encoder
    instance is a record whose fields are the members of
    [struct _GstNvH264Encoder]; functions that mutate [self] take the record
    and return the new one.  [gint] and [guint] are integers of [Z]; the
    conversions of C between them are written out with [to_guint] and
    friends.  [gdouble] is an IEEE 754 binary64 value ([spec_float]). *)

From Stdlib Require Import ZArith List Bool String Ascii Lia.
From Stdlib Require Import Strings.Byte.
From Stdlib Require Import SpecFloat.
From Stdlib Require Import MSets.MSetList Structures.OrdersEx.
From Stdlib Require Import DecimalString DecimalZ.
Import ListNotations.

Local Open Scope string_scope.
Local Open Scope list_scope.
Local Open Scope Z_scope.

(** ** Machine integers *)

Definition to_guint (z : Z) : Z := z mod 2 ^ 32.
Definition to_guint8 (z : Z) : Z := z mod 2 ^ 8.

(** Conversion to [gint]: the two's complement reading of the low 32 bits. *)
Definition to_gint (z : Z) : Z := (z + 2 ^ 31) mod 2 ^ 32 - 2 ^ 31.

(** ** glib doubles *)

Definition gdouble : Type := spec_float.

Definition prec : Z := 53.
Definition emax : Z := 1024.

(** [a == b] on doubles: false as soon as one side is a NaN. *)
Definition gdouble_eqb (a b : gdouble) : bool := SFeqb a b.

Definition gdouble_zero : gdouble := S754_zero false.

(** The literal [256.0]. *)
Definition gdouble_256 : gdouble := S754_finite false (2 ^ 52) (-44).

Definition gdouble_mul (a b : gdouble) : gdouble := SFmul prec emax a b.

(** The integer part of a finite double, rounding toward zero ([Z.shiftl]
    by a negative exponent shifts to the right). *)
Definition gdouble_trunc (d : gdouble) : Z :=
  match d with
  | S754_finite s m e =>
      let mag := Z.shiftl (Z.pos m) e in
      if s then - mag else mag
  | _ => 0
  end.

(** [(gint) d].  The conversion is defined in C when the integer part fits
    a [gint]; elsewhere, as for an infinity or a NaN, the value here is
    the one the x86 conversion instruction leaves. *)
Definition gdouble_to_gint (d : gdouble) : Z :=
  match d with
  | S754_zero _ => 0
  | S754_finite _ _ _ =>
      let t := gdouble_trunc d in
      if (- 2 ^ 31 <=? t) && (t <? 2 ^ 31) then t else - 2 ^ 31
  | S754_infinity _ | S754_nan => - 2 ^ 31
  end.

(** ** Enumerations of the encoder base class *)

(** Modelled from the spec: [GstNvEncoderPreset] is declared in
    [gstnvencoder.h], which is not among the sources.  Only the default
    preset is named by this file; the other presets are told apart by their
    number. *)
Inductive GstNvEncoderPreset : Type :=
| GST_NV_ENCODER_PRESET_DEFAULT
| GST_NV_ENCODER_PRESET_OTHER (n : nat).

(** Modelled from the spec: [GstNvEncoderRCMode] is declared in
    [gstnvencoder.h], which is not among the sources.  The spec names the
    device default and the constant-QP mode; VBR is the default of the
    property. *)
Inductive GstNvEncoderRCMode : Type :=
| GST_NV_ENCODER_RC_MODE_DEFAULT
| GST_NV_ENCODER_RC_MODE_CONSTQP
| GST_NV_ENCODER_RC_MODE_VBR
| GST_NV_ENCODER_RC_MODE_OTHER (n : nat).

Inductive GstNvEncoderReconfigure : Type :=
| GST_NV_ENCODER_RECONFIGURE_NONE
| GST_NV_ENCODER_RECONFIGURE_BITRATE
| GST_NV_ENCODER_RECONFIGURE_FULL.

Definition preset_eqb (a b : GstNvEncoderPreset) : bool :=
  match a, b with
  | GST_NV_ENCODER_PRESET_DEFAULT, GST_NV_ENCODER_PRESET_DEFAULT => true
  | GST_NV_ENCODER_PRESET_OTHER n, GST_NV_ENCODER_PRESET_OTHER m => Nat.eqb n m
  | _, _ => false
  end.

Definition rc_mode_eqb (a b : GstNvEncoderRCMode) : bool :=
  match a, b with
  | GST_NV_ENCODER_RC_MODE_DEFAULT, GST_NV_ENCODER_RC_MODE_DEFAULT => true
  | GST_NV_ENCODER_RC_MODE_CONSTQP, GST_NV_ENCODER_RC_MODE_CONSTQP => true
  | GST_NV_ENCODER_RC_MODE_VBR, GST_NV_ENCODER_RC_MODE_VBR => true
  | GST_NV_ENCODER_RC_MODE_OTHER n, GST_NV_ENCODER_RC_MODE_OTHER m => Nat.eqb n m
  | _, _ => false
  end.

(** ** Device capabilities and class data *)

(** The members of [GstNvH264EncoderDeviceCaps] that the functions below
    read. *)
Record GstNvH264EncoderDeviceCaps : Type := mkDevCaps {
  dev_max_bframes : Z;
  dev_field_encoding : Z;
  dev_dyn_bitrate_change : Z;
  dev_async_encoding_support : Z;
  dev_cabac : Z
}.

Record GstNvH264EncoderClass : Type := mkClass {
  dev_caps : GstNvH264EncoderDeviceCaps;
  cuda_device_id : Z;
  adapter_luid : Z;
  d3d11_mode : bool
}.

(** ** Properties *)

Inductive PropId : Type :=
| PROP_0
| PROP_ADAPTER_LUID
| PROP_CUDA_DEVICE_ID
| PROP_PRESET
| PROP_WEIGHTED_PRED
| PROP_GOP_SIZE
| PROP_B_FRAMES
| PROP_RC_MODE
| PROP_QP_CONST_I
| PROP_QP_CONST_P
| PROP_QP_CONST_B
| PROP_BITRATE
| PROP_MAX_BITRATE
| PROP_VBV_BUFFER_SIZE
| PROP_RC_LOOKAHEAD
| PROP_I_ADAPT
| PROP_B_ADAPT
| PROP_SPATIAL_AQ
| PROP_TEMPORAL_AQ
| PROP_ZERO_LATENCY
| PROP_NON_REF_P
| PROP_STRICT_GOP
| PROP_AQ_STRENGTH
| PROP_QP_MIN_I
| PROP_QP_MIN_P
| PROP_QP_MIN_B
| PROP_QP_MAX_I
| PROP_QP_MAX_P
| PROP_QP_MAX_B
| PROP_CONST_QUALITY
| PROP_AUD
| PROP_CABAC
| PROP_REPEAT_SEQUENCE_HEADER.

(** A [GValue] holding one of the types the properties use. *)
Inductive GValue : Type :=
| GBoolean (b : bool)
| GInt (i : Z)
| GUInt (u : Z)
| GInt64 (i : Z)
| GDouble (d : gdouble)
| GPreset (p : GstNvEncoderPreset)
| GRCMode (m : GstNvEncoderRCMode).

(** The getters of glib return the zero of the type when the value holds
    another type. *)
Definition g_value_get_boolean (v : GValue) : bool :=
  match v with GBoolean b => b | _ => false end.
Definition g_value_get_int (v : GValue) : Z :=
  match v with GInt i => i | _ => 0 end.
Definition g_value_get_uint (v : GValue) : Z :=
  match v with GUInt u => u | _ => 0 end.
Definition g_value_get_double (v : GValue) : gdouble :=
  match v with GDouble d => d | _ => gdouble_zero end.

(** [g_value_get_enum] followed by the cast to the enumeration. *)
Definition g_value_get_preset (v : GValue) : GstNvEncoderPreset :=
  match v with GPreset p => p | _ => GST_NV_ENCODER_PRESET_DEFAULT end.
Definition g_value_get_rc_mode (v : GValue) : GstNvEncoderRCMode :=
  match v with GRCMode m => m | _ => GST_NV_ENCODER_RC_MODE_DEFAULT end.

(** ** The encoder instance *)

Record GstNvH264Encoder : Type := mkEncoder {
  init_param_updated : bool;
  rc_param_updated : bool;
  bitrate_updated : bool;
  packetized : bool;
  preset : GstNvEncoderPreset;
  weighted_pred : bool;
  gop_size : Z;
  bframes : Z;
  rc_mode : GstNvEncoderRCMode;
  qp_const_i : Z;
  qp_const_p : Z;
  qp_const_b : Z;
  bitrate : Z;
  max_bitrate : Z;
  vbv_buffer_size : Z;
  rc_lookahead : Z;
  i_adapt : bool;
  b_adapt : bool;
  spatial_aq : bool;
  temporal_aq : bool;
  zero_latency : bool;
  non_ref_p : bool;
  strict_gop : bool;
  aq_strength : Z;
  qp_min_i : Z;
  qp_min_p : Z;
  qp_min_b : Z;
  qp_max_i : Z;
  qp_max_p : Z;
  qp_max_b : Z;
  const_quality : gdouble;
  aud : bool;
  cabac : bool;
  repeat_sequence_header : bool
}.

(** Field assignments [self->f = v]. *)
Definition set_init_param_updated (v : bool) (self : GstNvH264Encoder) : GstNvH264Encoder :=
  mkEncoder v (rc_param_updated self) (bitrate_updated self) (packetized
    self) (preset self) (weighted_pred self) (gop_size self) (bframes self)
    (rc_mode self) (qp_const_i self) (qp_const_p self) (qp_const_b self)
    (bitrate self) (max_bitrate self) (vbv_buffer_size self) (rc_lookahead
    self) (i_adapt self) (b_adapt self) (spatial_aq self) (temporal_aq self)
    (zero_latency self) (non_ref_p self) (strict_gop self) (aq_strength self)
    (qp_min_i self) (qp_min_p self) (qp_min_b self) (qp_max_i self) (qp_max_p
    self) (qp_max_b self) (const_quality self) (aud self) (cabac self)
    (repeat_sequence_header self).
Definition set_rc_param_updated (v : bool) (self : GstNvH264Encoder) : GstNvH264Encoder :=
  mkEncoder (init_param_updated self) v (bitrate_updated self) (packetized
    self) (preset self) (weighted_pred self) (gop_size self) (bframes self)
    (rc_mode self) (qp_const_i self) (qp_const_p self) (qp_const_b self)
    (bitrate self) (max_bitrate self) (vbv_buffer_size self) (rc_lookahead
    self) (i_adapt self) (b_adapt self) (spatial_aq self) (temporal_aq self)
    (zero_latency self) (non_ref_p self) (strict_gop self) (aq_strength self)
    (qp_min_i self) (qp_min_p self) (qp_min_b self) (qp_max_i self) (qp_max_p
    self) (qp_max_b self) (const_quality self) (aud self) (cabac self)
    (repeat_sequence_header self).
Definition set_bitrate_updated (v : bool) (self : GstNvH264Encoder) : GstNvH264Encoder :=
  mkEncoder (init_param_updated self) (rc_param_updated self) v (packetized
    self) (preset self) (weighted_pred self) (gop_size self) (bframes self)
    (rc_mode self) (qp_const_i self) (qp_const_p self) (qp_const_b self)
    (bitrate self) (max_bitrate self) (vbv_buffer_size self) (rc_lookahead
    self) (i_adapt self) (b_adapt self) (spatial_aq self) (temporal_aq self)
    (zero_latency self) (non_ref_p self) (strict_gop self) (aq_strength self)
    (qp_min_i self) (qp_min_p self) (qp_min_b self) (qp_max_i self) (qp_max_p
    self) (qp_max_b self) (const_quality self) (aud self) (cabac self)
    (repeat_sequence_header self).
Definition set_packetized (v : bool) (self : GstNvH264Encoder) : GstNvH264Encoder :=
  mkEncoder (init_param_updated self) (rc_param_updated self)
    (bitrate_updated self) v (preset self) (weighted_pred self) (gop_size
    self) (bframes self) (rc_mode self) (qp_const_i self) (qp_const_p self)
    (qp_const_b self) (bitrate self) (max_bitrate self) (vbv_buffer_size
    self) (rc_lookahead self) (i_adapt self) (b_adapt self) (spatial_aq self)
    (temporal_aq self) (zero_latency self) (non_ref_p self) (strict_gop self)
    (aq_strength self) (qp_min_i self) (qp_min_p self) (qp_min_b self)
    (qp_max_i self) (qp_max_p self) (qp_max_b self) (const_quality self) (aud
    self) (cabac self) (repeat_sequence_header self).
Definition set_preset (v : GstNvEncoderPreset) (self : GstNvH264Encoder) : GstNvH264Encoder :=
  mkEncoder (init_param_updated self) (rc_param_updated self)
    (bitrate_updated self) (packetized self) v (weighted_pred self) (gop_size
    self) (bframes self) (rc_mode self) (qp_const_i self) (qp_const_p self)
    (qp_const_b self) (bitrate self) (max_bitrate self) (vbv_buffer_size
    self) (rc_lookahead self) (i_adapt self) (b_adapt self) (spatial_aq self)
    (temporal_aq self) (zero_latency self) (non_ref_p self) (strict_gop self)
    (aq_strength self) (qp_min_i self) (qp_min_p self) (qp_min_b self)
    (qp_max_i self) (qp_max_p self) (qp_max_b self) (const_quality self) (aud
    self) (cabac self) (repeat_sequence_header self).
Definition set_weighted_pred (v : bool) (self : GstNvH264Encoder) : GstNvH264Encoder :=
  mkEncoder (init_param_updated self) (rc_param_updated self)
    (bitrate_updated self) (packetized self) (preset self) v (gop_size self)
    (bframes self) (rc_mode self) (qp_const_i self) (qp_const_p self)
    (qp_const_b self) (bitrate self) (max_bitrate self) (vbv_buffer_size
    self) (rc_lookahead self) (i_adapt self) (b_adapt self) (spatial_aq self)
    (temporal_aq self) (zero_latency self) (non_ref_p self) (strict_gop self)
    (aq_strength self) (qp_min_i self) (qp_min_p self) (qp_min_b self)
    (qp_max_i self) (qp_max_p self) (qp_max_b self) (const_quality self) (aud
    self) (cabac self) (repeat_sequence_header self).
Definition set_gop_size (v : Z) (self : GstNvH264Encoder) : GstNvH264Encoder :=
  mkEncoder (init_param_updated self) (rc_param_updated self)
    (bitrate_updated self) (packetized self) (preset self) (weighted_pred
    self) v (bframes self) (rc_mode self) (qp_const_i self) (qp_const_p self)
    (qp_const_b self) (bitrate self) (max_bitrate self) (vbv_buffer_size
    self) (rc_lookahead self) (i_adapt self) (b_adapt self) (spatial_aq self)
    (temporal_aq self) (zero_latency self) (non_ref_p self) (strict_gop self)
    (aq_strength self) (qp_min_i self) (qp_min_p self) (qp_min_b self)
    (qp_max_i self) (qp_max_p self) (qp_max_b self) (const_quality self) (aud
    self) (cabac self) (repeat_sequence_header self).
Definition set_bframes (v : Z) (self : GstNvH264Encoder) : GstNvH264Encoder :=
  mkEncoder (init_param_updated self) (rc_param_updated self)
    (bitrate_updated self) (packetized self) (preset self) (weighted_pred
    self) (gop_size self) v (rc_mode self) (qp_const_i self) (qp_const_p
    self) (qp_const_b self) (bitrate self) (max_bitrate self)
    (vbv_buffer_size self) (rc_lookahead self) (i_adapt self) (b_adapt self)
    (spatial_aq self) (temporal_aq self) (zero_latency self) (non_ref_p self)
    (strict_gop self) (aq_strength self) (qp_min_i self) (qp_min_p self)
    (qp_min_b self) (qp_max_i self) (qp_max_p self) (qp_max_b self)
    (const_quality self) (aud self) (cabac self) (repeat_sequence_header
    self).
Definition set_rc_mode (v : GstNvEncoderRCMode) (self : GstNvH264Encoder) : GstNvH264Encoder :=
  mkEncoder (init_param_updated self) (rc_param_updated self)
    (bitrate_updated self) (packetized self) (preset self) (weighted_pred
    self) (gop_size self) (bframes self) v (qp_const_i self) (qp_const_p
    self) (qp_const_b self) (bitrate self) (max_bitrate self)
    (vbv_buffer_size self) (rc_lookahead self) (i_adapt self) (b_adapt self)
    (spatial_aq self) (temporal_aq self) (zero_latency self) (non_ref_p self)
    (strict_gop self) (aq_strength self) (qp_min_i self) (qp_min_p self)
    (qp_min_b self) (qp_max_i self) (qp_max_p self) (qp_max_b self)
    (const_quality self) (aud self) (cabac self) (repeat_sequence_header
    self).
Definition set_qp_const_i (v : Z) (self : GstNvH264Encoder) : GstNvH264Encoder :=
  mkEncoder (init_param_updated self) (rc_param_updated self)
    (bitrate_updated self) (packetized self) (preset self) (weighted_pred
    self) (gop_size self) (bframes self) (rc_mode self) v (qp_const_p self)
    (qp_const_b self) (bitrate self) (max_bitrate self) (vbv_buffer_size
    self) (rc_lookahead self) (i_adapt self) (b_adapt self) (spatial_aq self)
    (temporal_aq self) (zero_latency self) (non_ref_p self) (strict_gop self)
    (aq_strength self) (qp_min_i self) (qp_min_p self) (qp_min_b self)
    (qp_max_i self) (qp_max_p self) (qp_max_b self) (const_quality self) (aud
    self) (cabac self) (repeat_sequence_header self).
Definition set_qp_const_p (v : Z) (self : GstNvH264Encoder) : GstNvH264Encoder :=
  mkEncoder (init_param_updated self) (rc_param_updated self)
    (bitrate_updated self) (packetized self) (preset self) (weighted_pred
    self) (gop_size self) (bframes self) (rc_mode self) (qp_const_i self) v
    (qp_const_b self) (bitrate self) (max_bitrate self) (vbv_buffer_size
    self) (rc_lookahead self) (i_adapt self) (b_adapt self) (spatial_aq self)
    (temporal_aq self) (zero_latency self) (non_ref_p self) (strict_gop self)
    (aq_strength self) (qp_min_i self) (qp_min_p self) (qp_min_b self)
    (qp_max_i self) (qp_max_p self) (qp_max_b self) (const_quality self) (aud
    self) (cabac self) (repeat_sequence_header self).
Definition set_qp_const_b (v : Z) (self : GstNvH264Encoder) : GstNvH264Encoder :=
  mkEncoder (init_param_updated self) (rc_param_updated self)
    (bitrate_updated self) (packetized self) (preset self) (weighted_pred
    self) (gop_size self) (bframes self) (rc_mode self) (qp_const_i self)
    (qp_const_p self) v (bitrate self) (max_bitrate self) (vbv_buffer_size
    self) (rc_lookahead self) (i_adapt self) (b_adapt self) (spatial_aq self)
    (temporal_aq self) (zero_latency self) (non_ref_p self) (strict_gop self)
    (aq_strength self) (qp_min_i self) (qp_min_p self) (qp_min_b self)
    (qp_max_i self) (qp_max_p self) (qp_max_b self) (const_quality self) (aud
    self) (cabac self) (repeat_sequence_header self).
Definition set_bitrate (v : Z) (self : GstNvH264Encoder) : GstNvH264Encoder :=
  mkEncoder (init_param_updated self) (rc_param_updated self)
    (bitrate_updated self) (packetized self) (preset self) (weighted_pred
    self) (gop_size self) (bframes self) (rc_mode self) (qp_const_i self)
    (qp_const_p self) (qp_const_b self) v (max_bitrate self) (vbv_buffer_size
    self) (rc_lookahead self) (i_adapt self) (b_adapt self) (spatial_aq self)
    (temporal_aq self) (zero_latency self) (non_ref_p self) (strict_gop self)
    (aq_strength self) (qp_min_i self) (qp_min_p self) (qp_min_b self)
    (qp_max_i self) (qp_max_p self) (qp_max_b self) (const_quality self) (aud
    self) (cabac self) (repeat_sequence_header self).
Definition set_max_bitrate (v : Z) (self : GstNvH264Encoder) : GstNvH264Encoder :=
  mkEncoder (init_param_updated self) (rc_param_updated self)
    (bitrate_updated self) (packetized self) (preset self) (weighted_pred
    self) (gop_size self) (bframes self) (rc_mode self) (qp_const_i self)
    (qp_const_p self) (qp_const_b self) (bitrate self) v (vbv_buffer_size
    self) (rc_lookahead self) (i_adapt self) (b_adapt self) (spatial_aq self)
    (temporal_aq self) (zero_latency self) (non_ref_p self) (strict_gop self)
    (aq_strength self) (qp_min_i self) (qp_min_p self) (qp_min_b self)
    (qp_max_i self) (qp_max_p self) (qp_max_b self) (const_quality self) (aud
    self) (cabac self) (repeat_sequence_header self).
Definition set_vbv_buffer_size (v : Z) (self : GstNvH264Encoder) : GstNvH264Encoder :=
  mkEncoder (init_param_updated self) (rc_param_updated self)
    (bitrate_updated self) (packetized self) (preset self) (weighted_pred
    self) (gop_size self) (bframes self) (rc_mode self) (qp_const_i self)
    (qp_const_p self) (qp_const_b self) (bitrate self) (max_bitrate self) v
    (rc_lookahead self) (i_adapt self) (b_adapt self) (spatial_aq self)
    (temporal_aq self) (zero_latency self) (non_ref_p self) (strict_gop self)
    (aq_strength self) (qp_min_i self) (qp_min_p self) (qp_min_b self)
    (qp_max_i self) (qp_max_p self) (qp_max_b self) (const_quality self) (aud
    self) (cabac self) (repeat_sequence_header self).
Definition set_rc_lookahead (v : Z) (self : GstNvH264Encoder) : GstNvH264Encoder :=
  mkEncoder (init_param_updated self) (rc_param_updated self)
    (bitrate_updated self) (packetized self) (preset self) (weighted_pred
    self) (gop_size self) (bframes self) (rc_mode self) (qp_const_i self)
    (qp_const_p self) (qp_const_b self) (bitrate self) (max_bitrate self)
    (vbv_buffer_size self) v (i_adapt self) (b_adapt self) (spatial_aq self)
    (temporal_aq self) (zero_latency self) (non_ref_p self) (strict_gop self)
    (aq_strength self) (qp_min_i self) (qp_min_p self) (qp_min_b self)
    (qp_max_i self) (qp_max_p self) (qp_max_b self) (const_quality self) (aud
    self) (cabac self) (repeat_sequence_header self).
Definition set_i_adapt (v : bool) (self : GstNvH264Encoder) : GstNvH264Encoder :=
  mkEncoder (init_param_updated self) (rc_param_updated self)
    (bitrate_updated self) (packetized self) (preset self) (weighted_pred
    self) (gop_size self) (bframes self) (rc_mode self) (qp_const_i self)
    (qp_const_p self) (qp_const_b self) (bitrate self) (max_bitrate self)
    (vbv_buffer_size self) (rc_lookahead self) v (b_adapt self) (spatial_aq
    self) (temporal_aq self) (zero_latency self) (non_ref_p self) (strict_gop
    self) (aq_strength self) (qp_min_i self) (qp_min_p self) (qp_min_b self)
    (qp_max_i self) (qp_max_p self) (qp_max_b self) (const_quality self) (aud
    self) (cabac self) (repeat_sequence_header self).
Definition set_b_adapt (v : bool) (self : GstNvH264Encoder) : GstNvH264Encoder :=
  mkEncoder (init_param_updated self) (rc_param_updated self)
    (bitrate_updated self) (packetized self) (preset self) (weighted_pred
    self) (gop_size self) (bframes self) (rc_mode self) (qp_const_i self)
    (qp_const_p self) (qp_const_b self) (bitrate self) (max_bitrate self)
    (vbv_buffer_size self) (rc_lookahead self) (i_adapt self) v (spatial_aq
    self) (temporal_aq self) (zero_latency self) (non_ref_p self) (strict_gop
    self) (aq_strength self) (qp_min_i self) (qp_min_p self) (qp_min_b self)
    (qp_max_i self) (qp_max_p self) (qp_max_b self) (const_quality self) (aud
    self) (cabac self) (repeat_sequence_header self).
Definition set_spatial_aq (v : bool) (self : GstNvH264Encoder) : GstNvH264Encoder :=
  mkEncoder (init_param_updated self) (rc_param_updated self)
    (bitrate_updated self) (packetized self) (preset self) (weighted_pred
    self) (gop_size self) (bframes self) (rc_mode self) (qp_const_i self)
    (qp_const_p self) (qp_const_b self) (bitrate self) (max_bitrate self)
    (vbv_buffer_size self) (rc_lookahead self) (i_adapt self) (b_adapt self)
    v (temporal_aq self) (zero_latency self) (non_ref_p self) (strict_gop
    self) (aq_strength self) (qp_min_i self) (qp_min_p self) (qp_min_b self)
    (qp_max_i self) (qp_max_p self) (qp_max_b self) (const_quality self) (aud
    self) (cabac self) (repeat_sequence_header self).
Definition set_temporal_aq (v : bool) (self : GstNvH264Encoder) : GstNvH264Encoder :=
  mkEncoder (init_param_updated self) (rc_param_updated self)
    (bitrate_updated self) (packetized self) (preset self) (weighted_pred
    self) (gop_size self) (bframes self) (rc_mode self) (qp_const_i self)
    (qp_const_p self) (qp_const_b self) (bitrate self) (max_bitrate self)
    (vbv_buffer_size self) (rc_lookahead self) (i_adapt self) (b_adapt self)
    (spatial_aq self) v (zero_latency self) (non_ref_p self) (strict_gop
    self) (aq_strength self) (qp_min_i self) (qp_min_p self) (qp_min_b self)
    (qp_max_i self) (qp_max_p self) (qp_max_b self) (const_quality self) (aud
    self) (cabac self) (repeat_sequence_header self).
Definition set_zero_latency (v : bool) (self : GstNvH264Encoder) : GstNvH264Encoder :=
  mkEncoder (init_param_updated self) (rc_param_updated self)
    (bitrate_updated self) (packetized self) (preset self) (weighted_pred
    self) (gop_size self) (bframes self) (rc_mode self) (qp_const_i self)
    (qp_const_p self) (qp_const_b self) (bitrate self) (max_bitrate self)
    (vbv_buffer_size self) (rc_lookahead self) (i_adapt self) (b_adapt self)
    (spatial_aq self) (temporal_aq self) v (non_ref_p self) (strict_gop self)
    (aq_strength self) (qp_min_i self) (qp_min_p self) (qp_min_b self)
    (qp_max_i self) (qp_max_p self) (qp_max_b self) (const_quality self) (aud
    self) (cabac self) (repeat_sequence_header self).
Definition set_non_ref_p (v : bool) (self : GstNvH264Encoder) : GstNvH264Encoder :=
  mkEncoder (init_param_updated self) (rc_param_updated self)
    (bitrate_updated self) (packetized self) (preset self) (weighted_pred
    self) (gop_size self) (bframes self) (rc_mode self) (qp_const_i self)
    (qp_const_p self) (qp_const_b self) (bitrate self) (max_bitrate self)
    (vbv_buffer_size self) (rc_lookahead self) (i_adapt self) (b_adapt self)
    (spatial_aq self) (temporal_aq self) (zero_latency self) v (strict_gop
    self) (aq_strength self) (qp_min_i self) (qp_min_p self) (qp_min_b self)
    (qp_max_i self) (qp_max_p self) (qp_max_b self) (const_quality self) (aud
    self) (cabac self) (repeat_sequence_header self).
Definition set_strict_gop (v : bool) (self : GstNvH264Encoder) : GstNvH264Encoder :=
  mkEncoder (init_param_updated self) (rc_param_updated self)
    (bitrate_updated self) (packetized self) (preset self) (weighted_pred
    self) (gop_size self) (bframes self) (rc_mode self) (qp_const_i self)
    (qp_const_p self) (qp_const_b self) (bitrate self) (max_bitrate self)
    (vbv_buffer_size self) (rc_lookahead self) (i_adapt self) (b_adapt self)
    (spatial_aq self) (temporal_aq self) (zero_latency self) (non_ref_p self)
    v (aq_strength self) (qp_min_i self) (qp_min_p self) (qp_min_b self)
    (qp_max_i self) (qp_max_p self) (qp_max_b self) (const_quality self) (aud
    self) (cabac self) (repeat_sequence_header self).
Definition set_aq_strength (v : Z) (self : GstNvH264Encoder) : GstNvH264Encoder :=
  mkEncoder (init_param_updated self) (rc_param_updated self)
    (bitrate_updated self) (packetized self) (preset self) (weighted_pred
    self) (gop_size self) (bframes self) (rc_mode self) (qp_const_i self)
    (qp_const_p self) (qp_const_b self) (bitrate self) (max_bitrate self)
    (vbv_buffer_size self) (rc_lookahead self) (i_adapt self) (b_adapt self)
    (spatial_aq self) (temporal_aq self) (zero_latency self) (non_ref_p self)
    (strict_gop self) v (qp_min_i self) (qp_min_p self) (qp_min_b self)
    (qp_max_i self) (qp_max_p self) (qp_max_b self) (const_quality self) (aud
    self) (cabac self) (repeat_sequence_header self).
Definition set_qp_min_i (v : Z) (self : GstNvH264Encoder) : GstNvH264Encoder :=
  mkEncoder (init_param_updated self) (rc_param_updated self)
    (bitrate_updated self) (packetized self) (preset self) (weighted_pred
    self) (gop_size self) (bframes self) (rc_mode self) (qp_const_i self)
    (qp_const_p self) (qp_const_b self) (bitrate self) (max_bitrate self)
    (vbv_buffer_size self) (rc_lookahead self) (i_adapt self) (b_adapt self)
    (spatial_aq self) (temporal_aq self) (zero_latency self) (non_ref_p self)
    (strict_gop self) (aq_strength self) v (qp_min_p self) (qp_min_b self)
    (qp_max_i self) (qp_max_p self) (qp_max_b self) (const_quality self) (aud
    self) (cabac self) (repeat_sequence_header self).
Definition set_qp_min_p (v : Z) (self : GstNvH264Encoder) : GstNvH264Encoder :=
  mkEncoder (init_param_updated self) (rc_param_updated self)
    (bitrate_updated self) (packetized self) (preset self) (weighted_pred
    self) (gop_size self) (bframes self) (rc_mode self) (qp_const_i self)
    (qp_const_p self) (qp_const_b self) (bitrate self) (max_bitrate self)
    (vbv_buffer_size self) (rc_lookahead self) (i_adapt self) (b_adapt self)
    (spatial_aq self) (temporal_aq self) (zero_latency self) (non_ref_p self)
    (strict_gop self) (aq_strength self) (qp_min_i self) v (qp_min_b self)
    (qp_max_i self) (qp_max_p self) (qp_max_b self) (const_quality self) (aud
    self) (cabac self) (repeat_sequence_header self).
Definition set_qp_min_b (v : Z) (self : GstNvH264Encoder) : GstNvH264Encoder :=
  mkEncoder (init_param_updated self) (rc_param_updated self)
    (bitrate_updated self) (packetized self) (preset self) (weighted_pred
    self) (gop_size self) (bframes self) (rc_mode self) (qp_const_i self)
    (qp_const_p self) (qp_const_b self) (bitrate self) (max_bitrate self)
    (vbv_buffer_size self) (rc_lookahead self) (i_adapt self) (b_adapt self)
    (spatial_aq self) (temporal_aq self) (zero_latency self) (non_ref_p self)
    (strict_gop self) (aq_strength self) (qp_min_i self) (qp_min_p self) v
    (qp_max_i self) (qp_max_p self) (qp_max_b self) (const_quality self) (aud
    self) (cabac self) (repeat_sequence_header self).
Definition set_qp_max_i (v : Z) (self : GstNvH264Encoder) : GstNvH264Encoder :=
  mkEncoder (init_param_updated self) (rc_param_updated self)
    (bitrate_updated self) (packetized self) (preset self) (weighted_pred
    self) (gop_size self) (bframes self) (rc_mode self) (qp_const_i self)
    (qp_const_p self) (qp_const_b self) (bitrate self) (max_bitrate self)
    (vbv_buffer_size self) (rc_lookahead self) (i_adapt self) (b_adapt self)
    (spatial_aq self) (temporal_aq self) (zero_latency self) (non_ref_p self)
    (strict_gop self) (aq_strength self) (qp_min_i self) (qp_min_p self)
    (qp_min_b self) v (qp_max_p self) (qp_max_b self) (const_quality self)
    (aud self) (cabac self) (repeat_sequence_header self).
Definition set_qp_max_p (v : Z) (self : GstNvH264Encoder) : GstNvH264Encoder :=
  mkEncoder (init_param_updated self) (rc_param_updated self)
    (bitrate_updated self) (packetized self) (preset self) (weighted_pred
    self) (gop_size self) (bframes self) (rc_mode self) (qp_const_i self)
    (qp_const_p self) (qp_const_b self) (bitrate self) (max_bitrate self)
    (vbv_buffer_size self) (rc_lookahead self) (i_adapt self) (b_adapt self)
    (spatial_aq self) (temporal_aq self) (zero_latency self) (non_ref_p self)
    (strict_gop self) (aq_strength self) (qp_min_i self) (qp_min_p self)
    (qp_min_b self) (qp_max_i self) v (qp_max_b self) (const_quality self)
    (aud self) (cabac self) (repeat_sequence_header self).
Definition set_qp_max_b (v : Z) (self : GstNvH264Encoder) : GstNvH264Encoder :=
  mkEncoder (init_param_updated self) (rc_param_updated self)
    (bitrate_updated self) (packetized self) (preset self) (weighted_pred
    self) (gop_size self) (bframes self) (rc_mode self) (qp_const_i self)
    (qp_const_p self) (qp_const_b self) (bitrate self) (max_bitrate self)
    (vbv_buffer_size self) (rc_lookahead self) (i_adapt self) (b_adapt self)
    (spatial_aq self) (temporal_aq self) (zero_latency self) (non_ref_p self)
    (strict_gop self) (aq_strength self) (qp_min_i self) (qp_min_p self)
    (qp_min_b self) (qp_max_i self) (qp_max_p self) v (const_quality self)
    (aud self) (cabac self) (repeat_sequence_header self).
Definition set_const_quality (v : gdouble) (self : GstNvH264Encoder) : GstNvH264Encoder :=
  mkEncoder (init_param_updated self) (rc_param_updated self)
    (bitrate_updated self) (packetized self) (preset self) (weighted_pred
    self) (gop_size self) (bframes self) (rc_mode self) (qp_const_i self)
    (qp_const_p self) (qp_const_b self) (bitrate self) (max_bitrate self)
    (vbv_buffer_size self) (rc_lookahead self) (i_adapt self) (b_adapt self)
    (spatial_aq self) (temporal_aq self) (zero_latency self) (non_ref_p self)
    (strict_gop self) (aq_strength self) (qp_min_i self) (qp_min_p self)
    (qp_min_b self) (qp_max_i self) (qp_max_p self) (qp_max_b self) v (aud
    self) (cabac self) (repeat_sequence_header self).
Definition set_aud (v : bool) (self : GstNvH264Encoder) : GstNvH264Encoder :=
  mkEncoder (init_param_updated self) (rc_param_updated self)
    (bitrate_updated self) (packetized self) (preset self) (weighted_pred
    self) (gop_size self) (bframes self) (rc_mode self) (qp_const_i self)
    (qp_const_p self) (qp_const_b self) (bitrate self) (max_bitrate self)
    (vbv_buffer_size self) (rc_lookahead self) (i_adapt self) (b_adapt self)
    (spatial_aq self) (temporal_aq self) (zero_latency self) (non_ref_p self)
    (strict_gop self) (aq_strength self) (qp_min_i self) (qp_min_p self)
    (qp_min_b self) (qp_max_i self) (qp_max_p self) (qp_max_b self)
    (const_quality self) v (cabac self) (repeat_sequence_header self).
Definition set_cabac (v : bool) (self : GstNvH264Encoder) : GstNvH264Encoder :=
  mkEncoder (init_param_updated self) (rc_param_updated self)
    (bitrate_updated self) (packetized self) (preset self) (weighted_pred
    self) (gop_size self) (bframes self) (rc_mode self) (qp_const_i self)
    (qp_const_p self) (qp_const_b self) (bitrate self) (max_bitrate self)
    (vbv_buffer_size self) (rc_lookahead self) (i_adapt self) (b_adapt self)
    (spatial_aq self) (temporal_aq self) (zero_latency self) (non_ref_p self)
    (strict_gop self) (aq_strength self) (qp_min_i self) (qp_min_p self)
    (qp_min_b self) (qp_max_i self) (qp_max_p self) (qp_max_b self)
    (const_quality self) (aud self) v (repeat_sequence_header self).
Definition set_repeat_sequence_header (v : bool) (self : GstNvH264Encoder) : GstNvH264Encoder :=
  mkEncoder (init_param_updated self) (rc_param_updated self)
    (bitrate_updated self) (packetized self) (preset self) (weighted_pred
    self) (gop_size self) (bframes self) (rc_mode self) (qp_const_i self)
    (qp_const_p self) (qp_const_b self) (bitrate self) (max_bitrate self)
    (vbv_buffer_size self) (rc_lookahead self) (i_adapt self) (b_adapt self)
    (spatial_aq self) (temporal_aq self) (zero_latency self) (non_ref_p self)
    (strict_gop self) (aq_strength self) (qp_min_i self) (qp_min_p self)
    (qp_min_b self) (qp_max_i self) (qp_max_p self) (qp_max_b self)
    (const_quality self) (aud self) (cabac self) v.

(** [gst_nv_h264_encoder_init]: the defaults of the properties. *)
Definition DEFAULT_GOP_SIZE : Z := 75.
Definition DEFAULT_B_FRAMES : Z := 0.
Definition DEFAULT_QP : Z := -1.

Definition gst_nv_h264_encoder_init (klass : GstNvH264EncoderClass)
  : GstNvH264Encoder :=
  {| init_param_updated := false;
     rc_param_updated := false;
     bitrate_updated := false;
     packetized := false;
     preset := GST_NV_ENCODER_PRESET_DEFAULT;
     weighted_pred := false;
     gop_size := DEFAULT_GOP_SIZE;
     bframes := DEFAULT_B_FRAMES;
     rc_mode := GST_NV_ENCODER_RC_MODE_VBR;
     qp_const_i := DEFAULT_QP;
     qp_const_p := DEFAULT_QP;
     qp_const_b := DEFAULT_QP;
     bitrate := 0;
     max_bitrate := 0;
     vbv_buffer_size := 0;
     rc_lookahead := 0;
     i_adapt := false;
     b_adapt := false;
     spatial_aq := false;
     temporal_aq := false;
     zero_latency := false;
     non_ref_p := false;
     strict_gop := false;
     aq_strength := 0;
     qp_min_i := DEFAULT_QP;
     qp_min_p := DEFAULT_QP;
     qp_min_b := DEFAULT_QP;
     qp_max_i := DEFAULT_QP;
     qp_max_p := DEFAULT_QP;
     qp_max_b := DEFAULT_QP;
     const_quality := gdouble_zero;
     aud := true;
     cabac := negb (dev_cabac (dev_caps klass) =? 0);
     repeat_sequence_header := false |}.

(** ** Updating a property *)

Inductive PropUpdateLevel : Type :=
| UPDATE_INIT_PARAM
| UPDATE_RC_PARAM
| UPDATE_BITRATE.

(** The [switch (level)] that closes every [update_*] function. *)
Definition mark_updated (level : PropUpdateLevel) (self : GstNvH264Encoder)
  : GstNvH264Encoder :=
  match level with
  | UPDATE_INIT_PARAM => set_init_param_updated true self
  | UPDATE_RC_PARAM => set_rc_param_updated true self
  | UPDATE_BITRATE => set_bitrate_updated true self
  end.

(** The pointer [old_val] into [self] is the pair of the field's projection
    and its assignment. *)
Section Update.
Context {A : Type}.
Variable eqb : A -> A -> bool.
Variable get : GstNvH264Encoder -> A.
Variable set : A -> GstNvH264Encoder -> GstNvH264Encoder.

Definition update_field (val : A) (level : PropUpdateLevel)
    (self : GstNvH264Encoder) : GstNvH264Encoder :=
  if eqb (get self) val then self
  else mark_updated level (set val self).

End Update.

Definition update_boolean get set (new_val : GValue) :=
  update_field Bool.eqb get set (g_value_get_boolean new_val).
Definition update_int get set (new_val : GValue) :=
  update_field Z.eqb get set (g_value_get_int new_val).
Definition update_uint get set (new_val : GValue) :=
  update_field Z.eqb get set (g_value_get_uint new_val).
Definition update_double get set (new_val : GValue) :=
  update_field gdouble_eqb get set (g_value_get_double new_val).

Definition gst_nv_h264_encoder_set_property (prop_id : PropId)
    (value : GValue) (self : GstNvH264Encoder) : GstNvH264Encoder :=
  match prop_id with
  | PROP_PRESET =>
      let p := g_value_get_preset value in
      if negb (preset_eqb p (preset self))
      then set_init_param_updated true (set_preset p self)
      else self
  | PROP_WEIGHTED_PRED =>
      update_boolean weighted_pred set_weighted_pred value UPDATE_INIT_PARAM self
  | PROP_GOP_SIZE =>
      update_int gop_size set_gop_size value UPDATE_INIT_PARAM self
  | PROP_B_FRAMES =>
      update_uint bframes set_bframes value UPDATE_INIT_PARAM self
  | PROP_RC_MODE =>
      let mode := g_value_get_rc_mode value in
      if negb (rc_mode_eqb mode (rc_mode self))
      then set_rc_param_updated true (set_rc_mode mode self)
      else self
  | PROP_QP_CONST_I =>
      update_int qp_const_i set_qp_const_i value UPDATE_RC_PARAM self
  | PROP_QP_CONST_P =>
      update_int qp_const_p set_qp_const_p value UPDATE_RC_PARAM self
  | PROP_QP_CONST_B =>
      update_int qp_const_b set_qp_const_b value UPDATE_RC_PARAM self
  | PROP_BITRATE =>
      update_uint bitrate set_bitrate value UPDATE_BITRATE self
  | PROP_MAX_BITRATE =>
      update_uint max_bitrate set_max_bitrate value UPDATE_BITRATE self
  | PROP_VBV_BUFFER_SIZE =>
      update_uint vbv_buffer_size set_vbv_buffer_size value UPDATE_RC_PARAM self
  | PROP_RC_LOOKAHEAD =>
      update_uint rc_lookahead set_rc_lookahead value UPDATE_INIT_PARAM self
  | PROP_I_ADAPT =>
      update_boolean i_adapt set_i_adapt value UPDATE_RC_PARAM self
  | PROP_B_ADAPT =>
      update_boolean b_adapt set_b_adapt value UPDATE_RC_PARAM self
  | PROP_SPATIAL_AQ =>
      update_boolean spatial_aq set_spatial_aq value UPDATE_RC_PARAM self
  | PROP_TEMPORAL_AQ =>
      update_boolean temporal_aq set_temporal_aq value UPDATE_RC_PARAM self
  | PROP_ZERO_LATENCY =>
      update_boolean zero_latency set_zero_latency value UPDATE_RC_PARAM self
  | PROP_NON_REF_P =>
      update_boolean non_ref_p set_non_ref_p value UPDATE_RC_PARAM self
  | PROP_STRICT_GOP =>
      update_boolean strict_gop set_strict_gop value UPDATE_RC_PARAM self
  | PROP_AQ_STRENGTH =>
      update_uint aq_strength set_aq_strength value UPDATE_RC_PARAM self
  | PROP_QP_MIN_I =>
      update_int qp_min_i set_qp_min_i value UPDATE_RC_PARAM self
  | PROP_QP_MIN_P =>
      update_int qp_min_p set_qp_min_p value UPDATE_RC_PARAM self
  | PROP_QP_MIN_B =>
      update_int qp_min_b set_qp_min_b value UPDATE_RC_PARAM self
  | PROP_QP_MAX_I =>
      update_int qp_min_i set_qp_min_i value UPDATE_RC_PARAM self
  | PROP_QP_MAX_P =>
      update_int qp_min_p set_qp_min_p value UPDATE_RC_PARAM self
  | PROP_QP_MAX_B =>
      update_int qp_min_b set_qp_min_b value UPDATE_RC_PARAM self
  | PROP_CONST_QUALITY =>
      update_double const_quality set_const_quality value UPDATE_RC_PARAM self
  | PROP_AUD =>
      update_boolean aud set_aud value UPDATE_INIT_PARAM self
  | PROP_CABAC =>
      update_boolean cabac set_cabac value UPDATE_INIT_PARAM self
  | PROP_REPEAT_SEQUENCE_HEADER =>
      update_boolean repeat_sequence_header set_repeat_sequence_header value
        UPDATE_INIT_PARAM self
  | PROP_0 | PROP_ADAPTER_LUID | PROP_CUDA_DEVICE_ID =>
      (* G_OBJECT_WARN_INVALID_PROPERTY_ID *)
      self
  end.

(** [None] is the [default:] branch, which leaves [value] untouched. *)
Definition gst_nv_h264_encoder_get_property (klass : GstNvH264EncoderClass)
    (prop_id : PropId) (self : GstNvH264Encoder) : option GValue :=
  match prop_id with
  | PROP_ADAPTER_LUID => Some (GInt64 (adapter_luid klass))
  | PROP_CUDA_DEVICE_ID => Some (GUInt (cuda_device_id klass))
  | PROP_PRESET => Some (GPreset (preset self))
  | PROP_WEIGHTED_PRED => Some (GBoolean (weighted_pred self))
  | PROP_GOP_SIZE => Some (GInt (gop_size self))
  | PROP_B_FRAMES => Some (GUInt (bframes self))
  | PROP_RC_MODE => Some (GRCMode (rc_mode self))
  | PROP_QP_CONST_I => Some (GInt (qp_const_i self))
  | PROP_QP_CONST_P => Some (GInt (qp_const_p self))
  | PROP_QP_CONST_B => Some (GInt (qp_const_b self))
  | PROP_BITRATE => Some (GUInt (bitrate self))
  | PROP_MAX_BITRATE => Some (GUInt (max_bitrate self))
  | PROP_VBV_BUFFER_SIZE => Some (GUInt (vbv_buffer_size self))
  | PROP_RC_LOOKAHEAD => Some (GUInt (rc_lookahead self))
  | PROP_I_ADAPT => Some (GBoolean (i_adapt self))
  | PROP_B_ADAPT => Some (GBoolean (b_adapt self))
  | PROP_SPATIAL_AQ => Some (GBoolean (spatial_aq self))
  | PROP_TEMPORAL_AQ => Some (GBoolean (temporal_aq self))
  | PROP_ZERO_LATENCY => Some (GBoolean (zero_latency self))
  | PROP_NON_REF_P => Some (GBoolean (non_ref_p self))
  | PROP_STRICT_GOP => Some (GBoolean (strict_gop self))
  | PROP_AQ_STRENGTH => Some (GUInt (aq_strength self))
  | PROP_QP_MIN_I => Some (GInt (qp_min_i self))
  | PROP_QP_MIN_P => Some (GInt (qp_min_p self))
  | PROP_QP_MIN_B => Some (GInt (qp_min_b self))
  | PROP_QP_MAX_I => Some (GInt (qp_max_i self))
  | PROP_QP_MAX_P => Some (GInt (qp_max_p self))
  | PROP_QP_MAX_B => Some (GInt (qp_max_b self))
  | PROP_CONST_QUALITY => Some (GDouble (const_quality self))
  | PROP_AUD => Some (GBoolean (aud self))
  | PROP_CABAC => Some (GBoolean (cabac self))
  | PROP_REPEAT_SEQUENCE_HEADER => Some (GBoolean (repeat_sequence_header self))
  | PROP_0 => None
  end.

(** ** Downstream caps *)

(** [std::set < std::string >]: a set of strings kept in ascending
    byte-wise order; [begin ()] is [min_elt]. *)
Module StringSet := MSetList.Make String_as_OT.

(** The value of the "profile" field of a caps structure: a list of values
    or one value; an entry that is not a string, or a NULL string, is
    [None]. *)
Inductive ProfileValue : Type :=
| ProfileList (l : list (option string))
| ProfileSingle (p : option string).

(** What the encoder reads from a structure of the allowed caps.
    [stream_format] is the "stream-format" string of the structure once
    fixated. *)
Record GstStructure : Type := mkStructure {
  profile : option ProfileValue;
  stream_format : option string
}.

Inductive GstCaps : Type :=
| GstCapsAny
| GstCapsStructures (l : list GstStructure).

Definition insert_profile (p : option string) (s : StringSet.t) : StringSet.t :=
  match p with
  | Some name => StringSet.add name s
  | None => s
  end.

Definition insert_structure_profiles (st : GstStructure) (s : StringSet.t)
  : StringSet.t :=
  match profile st with
  | None => s
  | Some (ProfileList l) => fold_left (fun acc p => insert_profile p acc) l s
  | Some (ProfileSingle p) => insert_profile p s
  end.

(** [gst_nv_h264_encoder_get_downstream_profiles_and_format], called with a
    non-NULL [packetized]: the profiles are added to [downstream_profiles];
    the second component is [None] when the function returns before it
    writes [*packetized]. *)
Definition gst_nv_h264_encoder_get_downstream_profiles_and_format
    (allowed_caps : option GstCaps) (downstream_profiles : StringSet.t)
  : StringSet.t * option bool :=
  match allowed_caps with
  | None | Some GstCapsAny | Some (GstCapsStructures []) =>
      (downstream_profiles, None)
  | Some (GstCapsStructures ((first :: _) as l)) =>
      (fold_left (fun acc st => insert_structure_profiles st acc) l
         downstream_profiles,
       Some (match stream_format first with
             | Some f => String.eqb f "avc"
             | None => false
             end))
  end.

(** ** Video info *)

Inductive GstVideoFormat : Type :=
| GST_VIDEO_FORMAT_NV12
| GST_VIDEO_FORMAT_Y444
| GST_VIDEO_FORMAT_OTHER (n : nat).

Inductive GstVideoInterlaceMode : Type :=
| GST_VIDEO_INTERLACE_MODE_PROGRESSIVE
| GST_VIDEO_INTERLACE_MODE_INTERLEAVED
| GST_VIDEO_INTERLACE_MODE_MIXED
| GST_VIDEO_INTERLACE_MODE_FIELDS
| GST_VIDEO_INTERLACE_MODE_ALTERNATE.

Record GstVideoInfo : Type := mkVideoInfo {
  info_format : GstVideoFormat;
  info_interlace_mode : GstVideoInterlaceMode
}.

Definition GST_VIDEO_INFO_IS_INTERLACED (info : GstVideoInfo) : bool :=
  match info_interlace_mode info with
  | GST_VIDEO_INTERLACE_MODE_PROGRESSIVE => false
  | _ => true
  end.

Definition is_Y444 (f : GstVideoFormat) : bool :=
  match f with GST_VIDEO_FORMAT_Y444 => true | _ => false end.

(** ** The NVENC configuration *)

Inductive GUID : Type :=
| NV_ENC_CODEC_PROFILE_AUTOSELECT_GUID
| NV_ENC_H264_PROFILE_BASELINE_GUID
| NV_ENC_H264_PROFILE_MAIN_GUID
| NV_ENC_H264_PROFILE_HIGH_GUID
| NV_ENC_H264_PROFILE_HIGH_444_GUID
| NV_ENC_H264_PROFILE_PROGRESSIVE_HIGH_GUID
| NV_ENC_H264_PROFILE_CONSTRAINED_HIGH_GUID.

Definition GUID_eqb (a b : GUID) : bool :=
  match a, b with
  | NV_ENC_CODEC_PROFILE_AUTOSELECT_GUID, NV_ENC_CODEC_PROFILE_AUTOSELECT_GUID
  | NV_ENC_H264_PROFILE_BASELINE_GUID, NV_ENC_H264_PROFILE_BASELINE_GUID
  | NV_ENC_H264_PROFILE_MAIN_GUID, NV_ENC_H264_PROFILE_MAIN_GUID
  | NV_ENC_H264_PROFILE_HIGH_GUID, NV_ENC_H264_PROFILE_HIGH_GUID
  | NV_ENC_H264_PROFILE_HIGH_444_GUID, NV_ENC_H264_PROFILE_HIGH_444_GUID
  | NV_ENC_H264_PROFILE_PROGRESSIVE_HIGH_GUID,
    NV_ENC_H264_PROFILE_PROGRESSIVE_HIGH_GUID
  | NV_ENC_H264_PROFILE_CONSTRAINED_HIGH_GUID,
    NV_ENC_H264_PROFILE_CONSTRAINED_HIGH_GUID => true
  | _, _ => false
  end.

(** Modelled from the spec: the macro [NVENC_INFINITE_GOPLENGTH] of the
    NVENC header, which is not among the sources; the spec calls it the
    infinite GOP.  The header gives it the largest [uint32_t]. *)
Definition NVENC_INFINITE_GOPLENGTH : Z := 0xffffffff.

Inductive NV_ENC_H264_ENTROPY_CODING_MODE : Type :=
| NV_ENC_H264_ENTROPY_CODING_MODE_AUTOSELECT
| NV_ENC_H264_ENTROPY_CODING_MODE_CABAC
| NV_ENC_H264_ENTROPY_CODING_MODE_CAVLC.

Record NV_ENC_QP : Type := mkQP {
  qpInterP : Z;
  qpInterB : Z;
  qpIntra : Z
}.

(** The members of [NV_ENC_RC_PARAMS] that the encoder writes.
    [rateControlMode] holds the mode of the encoder, which
    [gst_nv_encoder_rc_mode_to_native] of the base class turns into the
    value of the device. *)
Record NV_ENC_RC_PARAMS : Type := mkRcParams {
  rateControlMode : GstNvEncoderRCMode;
  averageBitRate : Z;
  maxBitRate : Z;
  vbvBufferSize : Z;
  enableMinQP : bool;
  enableMaxQP : bool;
  minQP : NV_ENC_QP;
  maxQP : NV_ENC_QP;
  enableAQ : bool;
  aqStrength : Z;
  enableTemporalAQ : bool;
  enableLookahead : bool;
  lookaheadDepth : Z;
  disableIadapt : bool;
  disableBadapt : bool;
  strictGOPTarget : bool;
  enableNonRefP : bool;
  zeroReorderDelay : bool;
  targetQuality : Z;
  targetQualityLSB : Z
}.

(** The members of [NV_ENC_CONFIG_H264] that the encoder writes, the VUI
    parameters apart. *)
Record NV_ENC_CONFIG_H264 : Type := mkConfigH264 {
  chromaFormatIDC : Z;
  idrPeriod : Z;
  outputAUD : bool;
  disableSPSPPS : bool;
  repeatSPSPPS : bool;
  entropyCodingMode : NV_ENC_H264_ENTROPY_CODING_MODE
}.

Record NV_ENC_CONFIG : Type := mkConfig {
  profileGUID : GUID;
  gopLength : Z;
  frameIntervalP : Z;
  rcParams : NV_ENC_RC_PARAMS;
  h264Config : NV_ENC_CONFIG_H264
}.

(** [NvEncGetEncodePresetConfig] of the open session: the preset
    configuration of a preset, or [None] when the call does not return
    [NV_ENC_SUCCESS]. *)
Definition Session : Type := GstNvEncoderPreset -> option NV_ENC_CONFIG.

(** ** Building the session configuration: [gst_nv_h264_encoder_set_format] *)

(** The places where [set_format] returns [FALSE], named after the error
    each one logs. *)
Inductive SetFormatFailure : Type :=
| UnableToGetDownstreamProfile
| NoInterlacedDownstreamProfile
| DownstreamDoesNotSupport444
| FailedToGetPresetConfig.

(** The error classes of the spec. *)
Inductive ErrorClass : Type :=
| UnsupportedFormat
| SessionConfigFailure.

(** Modelled from the spec: the code only returns [FALSE]; the spec files a
    negotiation that finds nothing usable downstream under
    [UnsupportedFormat] and a failure of the device under
    [SessionConfigFailure]. *)
Definition error_class (f : SetFormatFailure) : ErrorClass :=
  match f with
  | UnableToGetDownstreamProfile
  | NoInterlacedDownstreamProfile
  | DownstreamDoesNotSupport444 => UnsupportedFormat
  | FailedToGetPresetConfig => SessionConfigFailure
  end.

(** The four [erase] calls of the interlaced case. *)
Definition erase_progressive_profiles (s : StringSet.t) : StringSet.t :=
  StringSet.remove "baseline"
    (StringSet.remove "constrained-baseline"
       (StringSet.remove "constrained-high"
          (StringSet.remove "progressive-high" s))).

Definition profile_supports_bframe (iter : string) : bool :=
  String.eqb iter "high" || String.eqb iter "main"
  || String.eqb iter "progressive-high".

(** The loop over [downstream_profiles] that raises
    [downstream_supports_bframe]. *)
Definition any_profile_supports_bframe (s : StringSet.t) : bool :=
  StringSet.fold
    (fun iter acc => if profile_supports_bframe iter then true else acc)
    s false.

(** The profile checks that precede the lock: the filtered profile set, the
    profile selected so far and [downstream_supports_bframe]. *)
Definition check_downstream_profiles (info : GstVideoInfo)
    (downstream_profiles : StringSet.t)
  : SetFormatFailure + (StringSet.t * GUID * bool) :=
  if StringSet.is_empty downstream_profiles
  then inl UnableToGetDownstreamProfile
  else
    let filtered :=
      if GST_VIDEO_INFO_IS_INTERLACED info
      then erase_progressive_profiles downstream_profiles
      else downstream_profiles in
    if GST_VIDEO_INFO_IS_INTERLACED info && StringSet.is_empty filtered
    then inl NoInterlacedDownstreamProfile
    else if is_Y444 (info_format info)
    then
      if negb (StringSet.mem "high-4:4:4" filtered)
      then inl DownstreamDoesNotSupport444
      else inr (filtered, NV_ENC_H264_PROFILE_HIGH_444_GUID, true)
    else inr (filtered, NV_ENC_CODEC_PROFILE_AUTOSELECT_GUID,
              any_profile_supports_bframe filtered).

(** The GOP structure: the encoder (whose [bframes] may be reset),
    [gopLength], [frameIntervalP] and [bframe_aborted]. *)
Definition gop_structure (downstream_supports_bframe : bool)
    (self : GstNvH264Encoder) : GstNvH264Encoder * Z * Z * bool :=
  if gop_size self <? 0
  then (self, NVENC_INFINITE_GOPLENGTH, 1, false)
  else if 0 <? gop_size self
  then
    let bframe_aborted :=
      (0 <? bframes self) && negb downstream_supports_bframe in
    let self' := if bframe_aborted then set_bframes 0 self else self in
    (self', to_guint (gop_size self),
     to_gint (to_guint (bframes self' + 1)), bframe_aborted)
  else (self, 1, 0, false).

(** [qpIntra = i], then [qpInterP] and [qpInterB] from [p] and [b] when
    they are set, else from the member written just before. *)
Definition qp_cascade (i p b : Z) : NV_ENC_QP :=
  let intra := to_guint i in
  let interP := if 0 <=? p then to_guint p else intra in
  let interB := if 0 <=? b then to_guint b else interP in
  {| qpInterP := interP; qpInterB := interB; qpIntra := intra |}.

(** [scaled] of the constant quality. *)
Definition const_quality_scaled (q : gdouble) : Z :=
  to_guint (gdouble_to_gint (gdouble_mul q gdouble_256)).

(** The rate-control parameters, written over the ones of the preset. *)
Definition build_rc_params (self : GstNvH264Encoder) (rc : NV_ENC_RC_PARAMS)
  : NV_ENC_RC_PARAMS :=
  let rc_mode0 := rc_mode self in
  let rc_mode1 :=
    match rc_mode0 with
    | GST_NV_ENCODER_RC_MODE_DEFAULT =>
        if 0 <=? qp_const_i self then GST_NV_ENCODER_RC_MODE_CONSTQP
        else rc_mode0
    | _ => rc_mode0
    end in
  let min_set := 0 <=? qp_min_i self in
  let max_set := 0 <=? qp_max_i self in
  let constqp :=
    rc_mode_eqb rc_mode1 GST_NV_ENCODER_RC_MODE_CONSTQP
    && (0 <=? qp_const_i self) in
  let maxQP1 :=
    if max_set
    then qp_cascade (qp_max_i self) (qp_max_p self) (qp_max_b self)
    else maxQP rc in
  let maxQP2 :=
    if constqp
    then qp_cascade (qp_max_i self) (qp_max_p self) (qp_max_b self)
    else maxQP1 in
  let nonzero_quality := negb (gdouble_eqb (const_quality self) gdouble_zero) in
  let scaled := const_quality_scaled (const_quality self) in
  {| rateControlMode := rc_mode1;
     averageBitRate :=
       if negb (bitrate self =? 0) then to_guint (bitrate self * 1024)
       else averageBitRate rc;
     maxBitRate :=
       if negb (max_bitrate self =? 0) then to_guint (max_bitrate self * 1024)
       else maxBitRate rc;
     vbvBufferSize :=
       if negb (vbv_buffer_size self =? 0)
       then to_guint (vbv_buffer_size self * 1024)
       else vbvBufferSize rc;
     enableMinQP := if min_set then true else enableMinQP rc;
     enableMaxQP := if max_set || constqp then true else enableMaxQP rc;
     minQP :=
       if min_set
       then qp_cascade (qp_min_i self) (qp_min_p self) (qp_min_b self)
       else minQP rc;
     maxQP := maxQP2;
     enableAQ := if spatial_aq self then true else enableAQ rc;
     aqStrength := if spatial_aq self then aq_strength self else aqStrength rc;
     enableTemporalAQ := temporal_aq self;
     enableLookahead :=
       if negb (rc_lookahead self =? 0) then true else enableLookahead rc;
     lookaheadDepth :=
       if negb (rc_lookahead self =? 0) then rc_lookahead self
       else lookaheadDepth rc;
     disableIadapt :=
       if negb (rc_lookahead self =? 0) then negb (i_adapt self)
       else disableIadapt rc;
     disableBadapt :=
       if negb (rc_lookahead self =? 0) then negb (b_adapt self)
       else disableBadapt rc;
     strictGOPTarget := strict_gop self;
     enableNonRefP := non_ref_p self;
     zeroReorderDelay := zero_latency self;
     targetQuality :=
       if nonzero_quality then to_guint8 (Z.shiftr scaled 8)
       else targetQuality rc;
     targetQualityLSB :=
       if nonzero_quality then to_guint8 (Z.land scaled 0xff)
       else targetQualityLSB rc |}.

(** The profile for the first name of the set. *)
Definition first_profile_guid (selected_profile : GUID) (first : string)
  : GUID :=
  if String.eqb first "baseline" || String.eqb first "constrained-baseline"
  then NV_ENC_H264_PROFILE_BASELINE_GUID
  else if String.eqb first "main" then NV_ENC_H264_PROFILE_MAIN_GUID
  else if String.eqb first "progressive-high"
  then NV_ENC_H264_PROFILE_PROGRESSIVE_HIGH_GUID
  else if String.eqb first "constrained-high"
  then NV_ENC_H264_PROFILE_CONSTRAINED_HIGH_GUID
  else selected_profile.

(** The selection of the profile once [frameIntervalP] is known. *)
Definition select_profile (selected_profile : GUID) (frameIntervalP : Z)
    (downstream_profiles : StringSet.t) : GUID :=
  let selected1 :=
    if GUID_eqb selected_profile NV_ENC_CODEC_PROFILE_AUTOSELECT_GUID
       && (1 <? frameIntervalP)
    then
      if StringSet.mem "main" downstream_profiles
      then NV_ENC_H264_PROFILE_MAIN_GUID
      else if StringSet.mem "high" downstream_profiles
      then NV_ENC_H264_PROFILE_HIGH_GUID
      else if StringSet.mem "progressive-high" downstream_profiles
      then NV_ENC_H264_PROFILE_PROGRESSIVE_HIGH_GUID
      else selected_profile
    else selected_profile in
  (* Pick the first profile *)
  if GUID_eqb selected1 NV_ENC_CODEC_PROFILE_AUTOSELECT_GUID
  then
    match StringSet.min_elt downstream_profiles with
    | Some first => first_profile_guid selected1 first
    | None => selected1
    end
  else selected1.

Definition build_h264_config (klass : GstNvH264EncoderClass)
    (self : GstNvH264Encoder) (selected_profile : GUID) (gopLength : Z)
    (h264 : NV_ENC_CONFIG_H264) : NV_ENC_CONFIG_H264 :=
  {| chromaFormatIDC :=
       if GUID_eqb selected_profile NV_ENC_H264_PROFILE_HIGH_444_GUID
       then 3 else 1;
     idrPeriod := gopLength;
     outputAUD := aud self;
     disableSPSPPS :=
       if repeat_sequence_header self then false else packetized self;
     repeatSPSPPS :=
       if repeat_sequence_header self then true else repeatSPSPPS h264;
     entropyCodingMode :=
       if negb (dev_cabac (dev_caps klass) =? 0)
          && negb (GUID_eqb selected_profile NV_ENC_H264_PROFILE_BASELINE_GUID)
       then
         if cabac self then NV_ENC_H264_ENTROPY_CODING_MODE_CABAC
         else NV_ENC_H264_ENTROPY_CODING_MODE_CAVLC
       else NV_ENC_H264_ENTROPY_CODING_MODE_AUTOSELECT |}.

(** What a successful [set_format] leaves: the configuration and the
    properties notified after the lock is released. *)
Record SessionConfig : Type := mkSessionConfig {
  config : NV_ENC_CONFIG;
  notified : list string
}.

(** [gst_nv_h264_encoder_set_format].  [allowed_caps] is what the source pad
    answers to [gst_pad_get_allowed_caps]; the initialisation parameters and
    the VUI parameters, which depend on the video info alone, are left
    out.  The encoder is returned in both cases: [packetized] is written
    before the first check. *)
Definition gst_nv_h264_encoder_set_format (klass : GstNvH264EncoderClass)
    (session : Session) (allowed_caps : option GstCaps) (info : GstVideoInfo)
    (self : GstNvH264Encoder)
  : GstNvH264Encoder * (SetFormatFailure + SessionConfig) :=
  let '(downstream_profiles, fmt) :=
    gst_nv_h264_encoder_get_downstream_profiles_and_format allowed_caps
      StringSet.empty in
  let self :=
    set_packetized (match fmt with Some p => p | None => false end) self in
  match check_downstream_profiles info downstream_profiles with
  | inl f => (self, inl f)
  | inr (downstream_profiles, selected_profile, downstream_supports_bframe) =>
      match session (preset self) with
      | None => (self, inl FailedToGetPresetConfig)
      | Some presetCfg =>
          let '(self, gopLength, frameIntervalP, bframe_aborted) :=
            gop_structure downstream_supports_bframe self in
          let rc_params := build_rc_params self (rcParams presetCfg) in
          let self :=
            set_rc_param_updated false
              (set_bitrate_updated false
                 (set_init_param_updated false self)) in
          let selected_profile :=
            select_profile selected_profile frameIntervalP
              downstream_profiles in
          let h264_config :=
            build_h264_config klass self selected_profile gopLength
              (h264Config presetCfg) in
          (self,
           inr {| config :=
                    {| profileGUID := selected_profile;
                       gopLength := gopLength;
                       frameIntervalP := frameIntervalP;
                       rcParams := rc_params;
                       h264Config := h264_config |};
                  notified := if bframe_aborted then ["bframes"] else [] |})
      end
  end.

(** ** Reconfiguration: [gst_nv_h264_encoder_check_reconfigure] *)

Definition set_averageBitRate (v : Z) (rc : NV_ENC_RC_PARAMS)
  : NV_ENC_RC_PARAMS :=
  mkRcParams (rateControlMode rc) v (maxBitRate rc) (vbvBufferSize rc)
    (enableMinQP rc) (enableMaxQP rc) (minQP rc) (maxQP rc) (enableAQ rc)
    (aqStrength rc) (enableTemporalAQ rc) (enableLookahead rc)
    (lookaheadDepth rc) (disableIadapt rc) (disableBadapt rc)
    (strictGOPTarget rc) (enableNonRefP rc) (zeroReorderDelay rc)
    (targetQuality rc) (targetQualityLSB rc).

Definition set_maxBitRate (v : Z) (rc : NV_ENC_RC_PARAMS)
  : NV_ENC_RC_PARAMS :=
  mkRcParams (rateControlMode rc) (averageBitRate rc) v (vbvBufferSize rc)
    (enableMinQP rc) (enableMaxQP rc) (minQP rc) (maxQP rc) (enableAQ rc)
    (aqStrength rc) (enableTemporalAQ rc) (enableLookahead rc)
    (lookaheadDepth rc) (disableIadapt rc) (disableBadapt rc)
    (strictGOPTarget rc) (enableNonRefP rc) (zeroReorderDelay rc)
    (targetQuality rc) (targetQualityLSB rc).

Definition set_rcParams (v : NV_ENC_RC_PARAMS) (c : NV_ENC_CONFIG)
  : NV_ENC_CONFIG :=
  mkConfig (profileGUID c) (gopLength c) (frameIntervalP c) v (h264Config c).

(** The three flags are cleared at [done:] on every path. *)
Definition clear_updated (self : GstNvH264Encoder) : GstNvH264Encoder :=
  set_bitrate_updated false
    (set_rc_param_updated false (set_init_param_updated false self)).

Definition gst_nv_h264_encoder_check_reconfigure
    (klass : GstNvH264EncoderClass) (self : GstNvH264Encoder)
    (config : NV_ENC_CONFIG)
  : GstNvH264Encoder * NV_ENC_CONFIG * GstNvEncoderReconfigure :=
  if init_param_updated self || rc_param_updated self
  then (clear_updated self, config, GST_NV_ENCODER_RECONFIGURE_FULL)
  else if bitrate_updated self
  then
    if 0 <? dev_dyn_bitrate_change (dev_caps klass)
    then
      let rc :=
        set_maxBitRate (to_guint (max_bitrate self * 1024))
          (set_averageBitRate (to_guint (bitrate self * 1024))
             (rcParams config)) in
      (clear_updated self, set_rcParams rc config,
       GST_NV_ENCODER_RECONFIGURE_BITRATE)
    else (clear_updated self, config, GST_NV_ENCODER_RECONFIGURE_FULL)
  else (clear_updated self, config, GST_NV_ENCODER_RECONFIGURE_NONE).

(** ** Packaging the output: [gst_nv_h264_encoder_create_output_buffer] *)

(** The results of the parser: the two that the encoder tests, and
    [GST_H264_PARSER_NO_NAL], on which the loop ends. *)
Inductive GstH264ParserResult : Type :=
| GST_H264_PARSER_OK
| GST_H264_PARSER_NO_NAL
| GST_H264_PARSER_NO_NAL_END.

(** The members of [GstH264NalUnit] that the encoder reads; [data] is the
    buffer given to the parser. *)
Record GstH264NalUnit : Type := mkNalUnit {
  offset : nat;
  size : nat
}.

Definition is_zero (b : byte) : bool := Byte.eqb b x00.

(** Modelled from the spec: part of the parser below.  Does the list begin
    with the start code prefix [00 00 01]? *)
Definition starts_with_start_code (l : list byte) : bool :=
  match l with
  | b0 :: b1 :: b2 :: _ => is_zero b0 && is_zero b1 && Byte.eqb b2 x01
  | _ => false
  end.

(** Modelled from the spec: part of the parser below.  The position of the
    first start code prefix. *)
Fixpoint scan_for_start_codes (l : list byte) : option nat :=
  match l with
  | [] => None
  | _ :: tl =>
      if starts_with_start_code l then Some O
      else option_map S (scan_for_start_codes tl)
  end.

(** Modelled from the spec: part of the parser below.  Step back over the
    zero bytes that precede position [base + off2]. *)
Fixpoint strip_trailing_zeros (data : list byte) (base off2 : nat) : nat :=
  match off2 with
  | O => O
  | S n =>
      match nth_error data (base + n) with
      | Some b => if is_zero b then strip_trailing_zeros data base n else off2
      | None => off2
      end
  end.

(** Modelled from the spec: [gst_h264_parser_identify_nalu] is part of the
    codec parser library of this repository, which is not among the
    sources.  The spec has the raw output made of start-code-delimited
    units found by the framing markers of the bitstream itself.  A unit
    begins after the first start code prefix [00 00 01] at or after
    [offset] and ends before the next one; the zero bytes in front of a
    prefix belong to the framing (the four-byte start code), not to the
    unit.  When no prefix follows, the unit runs to the end of the data and
    the result is [GST_H264_PARSER_NO_NAL_END]. *)
Definition gst_h264_parser_identify_nalu (data : list byte) (offset size : nat)
  : GstH264ParserResult * GstH264NalUnit :=
  let buf := firstn size data in
  match scan_for_start_codes (skipn offset buf) with
  | None => (GST_H264_PARSER_NO_NAL, mkNalUnit O O)
  | Some off1 =>
      let start := (offset + off1 + 3)%nat in
      match scan_for_start_codes (skipn start buf) with
      | None => (GST_H264_PARSER_NO_NAL_END, mkNalUnit start (size - start))
      | Some off2 =>
          (GST_H264_PARSER_OK,
           mkNalUnit start (strip_trailing_zeros buf start off2))
      end
  end.

Definition byte_of_Z (z : Z) : byte :=
  match Byte.of_N (Z.to_N z) with
  | Some b => b
  | None => x00
  end.

Definition GST_WRITE_UINT32_BE (num : Z) : list byte :=
  [ byte_of_Z (Z.land (Z.shiftr num 24) 0xff);
    byte_of_Z (Z.land (Z.shiftr num 16) 0xff);
    byte_of_Z (Z.land (Z.shiftr num 8) 0xff);
    byte_of_Z (Z.land num 0xff) ].

Definition GST_READ_UINT32_BE (data : list byte) : Z :=
  match data with
  | b0 :: b1 :: b2 :: b3 :: _ =>
      Z.lor (Z.shiftl (Z.of_N (Byte.to_N b0)) 24)
        (Z.lor (Z.shiftl (Z.of_N (Byte.to_N b1)) 16)
           (Z.lor (Z.shiftl (Z.of_N (Byte.to_N b2)) 8)
              (Z.of_N (Byte.to_N b3))))
  | _ => 0
  end.

(** A [GstBuffer] is the list of its memories. *)
Definition GstMemory : Type := list byte.
Definition GstBuffer : Type := list GstMemory.

(** The memory made for one unit: the length, then the bytes of the unit. *)
Definition nalu_memory (data : list byte) (nalu : GstH264NalUnit) : GstMemory :=
  GST_WRITE_UINT32_BE (to_guint (Z.of_nat (size nalu)))
  ++ firstn (size nalu) (skipn (offset nalu) data).

(** The [while (rst == GST_H264_PARSER_OK)] loop, [NO_NAL_END] being turned
    into [OK] before each test.  [None] when [fuel] iterations do not reach
    the end of the loop. *)
Fixpoint output_loop (fuel : nat) (data : list byte) (bitstreamSize : nat)
    (rst : GstH264ParserResult) (nalu : GstH264NalUnit) (buffer : GstBuffer)
  : option GstBuffer :=
  match fuel with
  | O => None
  | S fuel' =>
      match rst with
      | GST_H264_PARSER_OK | GST_H264_PARSER_NO_NAL_END =>
          let buffer := buffer ++ [nalu_memory data nalu] in
          let '(rst, nalu) :=
            gst_h264_parser_identify_nalu data (offset nalu + size nalu)
              bitstreamSize in
          output_loop fuel' data bitstreamSize rst nalu buffer
      | GST_H264_PARSER_NO_NAL => Some buffer
      end
  end.

(** [bitstream] holds the [bitstreamSizeInBytes] bytes at
    [bitstreamBufferPtr]. *)
Definition gst_nv_h264_encoder_create_output_buffer (self : GstNvH264Encoder)
    (bitstream : list byte) : option GstBuffer :=
  if negb (packetized self)
  then Some [bitstream]
  else
    let '(rst, nalu) :=
      gst_h264_parser_identify_nalu bitstream 0 (length bitstream) in
    output_loop (S (length bitstream)) bitstream (length bitstream) rst nalu [].

(** A start code: [zeros] zero bytes, then the prefix [00 00 01]. *)
Definition start_code (zeros : nat) : list byte :=
  repeat x00 zeros ++ [x00; x00; x01].

(** A byte stream: every unit behind its start code. *)
Definition byte_stream (units : list (nat * list byte)) : list byte :=
  concat (map (fun zu => start_code (fst zu) ++ snd zu) units).

(** The bytes of a unit hold no start code prefix. *)
Definition no_start_code (u : list byte) : Prop :=
  forall p q, u <> p ++ [x00; x00; x01] ++ q.

(** A unit of a byte stream holds no start code prefix and does not end in
    a zero byte (it ends in the stop bit of its payload); its length fits
    the 32 bits of the prefix. *)
Definition elementary_unit (u : list byte) : Prop :=
  no_start_code u
  /\ (exists u' b, u = u' ++ [b] /\ b <> x00)
  /\ Z.of_nat (length u) < 2 ^ 32.

(** The last byte of a unit, when there is one, is not zero. *)
Definition ends_nonzero (u : list byte) : Prop :=
  forall u' b, u = u' ++ [b] -> b <> x00.

(** The memory that packetized mode makes for a unit. *)
Definition length_prefixed (u : list byte) : GstMemory :=
  GST_WRITE_UINT32_BE (Z.of_nat (length u)) ++ u.

(** A stream of two units, the first behind a four-byte start code. *)
Definition two_units : list (nat * list byte) :=
  [ (1%nat, [x67; x42; xc0; x1f]); (0%nat, [x68; xce; x3c; x80]) ].

(** ** Auxiliary notions for the statements *)

(** The profile set that [set_format] computes from the allowed caps. *)
Definition downstream_profiles_of (allowed_caps : option GstCaps)
  : StringSet.t :=
  fst (gst_nv_h264_encoder_get_downstream_profiles_and_format allowed_caps
         StringSet.empty).

Definition G_MAXINT : Z := 2 ^ 31 - 1.

(** The range of the QP properties. *)
Definition qp_range (z : Z) : Prop := -1 <= z <= 51.

(** The range of the bitrate properties, in kbit/sec. *)
Definition bitrate_range (z : Z) : Prop := 0 <= z <= 2000 * 1024.

(** Caps with one structure that offers the given profiles. *)
Definition caps_with_profiles (l : list string) (fmt : string)
  : option GstCaps :=
  Some (GstCapsStructures
          [ {| profile := Some (ProfileList (map Some l));
               stream_format := Some fmt |} ]).

(** A device without optional features, in CUDA mode. *)
Definition plain_class : GstNvH264EncoderClass :=
  {| dev_caps := {| dev_max_bframes := 4;
                    dev_field_encoding := 0;
                    dev_dyn_bitrate_change := 1;
                    dev_async_encoding_support := 0;
                    dev_cabac := 1 |};
     cuda_device_id := 0;
     adapter_luid := 0;
     d3d11_mode := false |}.

Definition zero_qp : NV_ENC_QP := {| qpInterP := 0; qpInterB := 0; qpIntra := 0 |}.

(** A preset configuration with every member at zero. *)
Definition zero_config : NV_ENC_CONFIG :=
  {| profileGUID := NV_ENC_CODEC_PROFILE_AUTOSELECT_GUID;
     gopLength := 0;
     frameIntervalP := 0;
     rcParams :=
       {| rateControlMode := GST_NV_ENCODER_RC_MODE_DEFAULT;
          averageBitRate := 0; maxBitRate := 0; vbvBufferSize := 0;
          enableMinQP := false; enableMaxQP := false;
          minQP := zero_qp; maxQP := zero_qp;
          enableAQ := false; aqStrength := 0; enableTemporalAQ := false;
          enableLookahead := false; lookaheadDepth := 0;
          disableIadapt := false; disableBadapt := false;
          strictGOPTarget := false; enableNonRefP := false;
          zeroReorderDelay := false;
          targetQuality := 0; targetQualityLSB := 0 |};
     h264Config :=
       {| chromaFormatIDC := 0; idrPeriod := 0; outputAUD := false;
          disableSPSPPS := false; repeatSPSPPS := false;
          entropyCodingMode := NV_ENC_H264_ENTROPY_CODING_MODE_AUTOSELECT |} |}.

(** A session that answers every preset query with [zero_config]. *)
Definition plain_session : Session := fun _ => Some zero_config.

Definition nv12_progressive : GstVideoInfo :=
  {| info_format := GST_VIDEO_FORMAT_NV12;
     info_interlace_mode := GST_VIDEO_INTERLACE_MODE_PROGRESSIVE |}.

Definition y444_progressive : GstVideoInfo :=
  {| info_format := GST_VIDEO_FORMAT_Y444;
     info_interlace_mode := GST_VIDEO_INTERLACE_MODE_PROGRESSIVE |}.

(** The properties whose handler compares and writes the field that the
    property reads. *)
Definition reads_what_it_writes (prop_id : PropId) : bool :=
  match prop_id with
  | PROP_QP_MAX_I | PROP_QP_MAX_P | PROP_QP_MAX_B => false
  | _ => true
  end.

Definition is_nan (v : GValue) : bool :=
  match v with
  | GDouble S754_nan => true
  | _ => false
  end.

(** The encoder with [qp-min-p = 20] applied and the flags cleared by the
    reconfiguration check. *)
Definition encoder_with_qp_min_p_20 : GstNvH264Encoder :=
  fst (fst (gst_nv_h264_encoder_check_reconfigure plain_class
              (gst_nv_h264_encoder_set_property PROP_QP_MIN_P (GInt 20)
                 (gst_nv_h264_encoder_init plain_class))
              zero_config)).

(** An encoder whose I bounds alone are set: minimum 10, maximum 40. *)
Definition encoder_with_i_bounds : GstNvH264Encoder :=
  set_qp_max_i 40 (set_qp_min_i 10 (gst_nv_h264_encoder_init plain_class)).

(** The GUID under which the encoder knows a profile name. *)
Definition guid_of_profile_name (name : string) : GUID :=
  if String.eqb name "baseline" || String.eqb name "constrained-baseline"
  then NV_ENC_H264_PROFILE_BASELINE_GUID
  else if String.eqb name "main" then NV_ENC_H264_PROFILE_MAIN_GUID
  else if String.eqb name "high" then NV_ENC_H264_PROFILE_HIGH_GUID
  else if String.eqb name "progressive-high"
  then NV_ENC_H264_PROFILE_PROGRESSIVE_HIGH_GUID
  else if String.eqb name "constrained-high"
  then NV_ENC_H264_PROFILE_CONSTRAINED_HIGH_GUID
  else if String.eqb name "high-4:4:4" then NV_ENC_H264_PROFILE_HIGH_444_GUID
  else NV_ENC_CODEC_PROFILE_AUTOSELECT_GUID.

(** The priority order that the spec gives for the final profile. *)
Definition spec_priority_order : list string :=
  [ "main"; "high"; "progressive-high"; "constrained-high";
    "constrained-baseline"; "baseline"; "high-4:4:4" ].

(** The choice as the spec words it: the first profile of the priority
    order that the set holds. *)
Definition spec_priority_pick (downstream_profiles : StringSet.t)
  : option string :=
  find (fun name => StringSet.mem name downstream_profiles)
    spec_priority_order.

(** The double [32.5], that is [65 * 2 ^ -1] with a mantissa of 53 bits. *)
Definition gdouble_32_5 : gdouble := S754_finite false (65 * 2 ^ 46) (-47).

(** The type of value each writable property takes: the [g_value_get_*]
    that its handler in [set_property] calls. *)
Definition value_fits (prop_id : PropId) (value : GValue) : bool :=
  match prop_id, value with
  | PROP_PRESET, GPreset _
  | PROP_RC_MODE, GRCMode _
  | PROP_CONST_QUALITY, GDouble _ => true
  | (PROP_WEIGHTED_PRED | PROP_I_ADAPT | PROP_B_ADAPT | PROP_SPATIAL_AQ
     | PROP_TEMPORAL_AQ | PROP_ZERO_LATENCY | PROP_NON_REF_P | PROP_STRICT_GOP
     | PROP_AUD | PROP_CABAC | PROP_REPEAT_SEQUENCE_HEADER), GBoolean _ => true
  | (PROP_GOP_SIZE | PROP_QP_CONST_I | PROP_QP_CONST_P | PROP_QP_CONST_B
     | PROP_QP_MIN_I | PROP_QP_MIN_P | PROP_QP_MIN_B
     | PROP_QP_MAX_I | PROP_QP_MAX_P | PROP_QP_MAX_B), GInt _ => true
  | (PROP_B_FRAMES | PROP_BITRATE | PROP_MAX_BITRATE | PROP_VBV_BUFFER_SIZE
     | PROP_RC_LOOKAHEAD | PROP_AQ_STRENGTH), GUInt _ => true
  | _, _ => false
  end.

(** The property whose field the handler of [prop_id] writes. *)
Definition stored_in (prop_id : PropId) : PropId :=
  match prop_id with
  | PROP_QP_MAX_I => PROP_QP_MIN_I
  | PROP_QP_MAX_P => PROP_QP_MIN_P
  | PROP_QP_MAX_B => PROP_QP_MIN_B
  | _ => prop_id
  end.

(** The update level that the handler of each property passes on; [None]
    for the identifiers without a handler. *)
Definition level_of (prop_id : PropId) : option PropUpdateLevel :=
  match prop_id with
  | PROP_0 | PROP_ADAPTER_LUID | PROP_CUDA_DEVICE_ID => None
  | PROP_PRESET | PROP_WEIGHTED_PRED | PROP_GOP_SIZE | PROP_B_FRAMES
  | PROP_RC_LOOKAHEAD | PROP_AUD | PROP_CABAC
  | PROP_REPEAT_SEQUENCE_HEADER => Some UPDATE_INIT_PARAM
  | PROP_BITRATE | PROP_MAX_BITRATE => Some UPDATE_BITRATE
  | _ => Some UPDATE_RC_PARAM
  end.

(** The three dirty flags of an encoder. *)
Definition dirty_flags (self : GstNvH264Encoder) : bool * bool * bool :=
  (init_param_updated self, rc_param_updated self, bitrate_updated self).


(** A series of property writes, first to last. *)
Definition set_properties (writes : list (PropId * GValue))
    (self : GstNvH264Encoder) : GstNvH264Encoder :=
  fold_left (fun s w => gst_nv_h264_encoder_set_property (fst w) (snd w) s)
    writes self.

(** Does the structure name the profile? *)
Definition structure_offers (st : GstStructure) (name : string) : Prop :=
  match profile st with
  | Some (ProfileList l) => In (Some name) l
  | Some (ProfileSingle p) => p = Some name
  | None => False
  end.

(** What [set_format] stores in [packetized] for the allowed caps. *)
Definition downstream_packetized (allowed_caps : option GstCaps) : bool :=
  match snd (gst_nv_h264_encoder_get_downstream_profiles_and_format
               allowed_caps StringSet.empty) with
  | Some p => p
  | None => false
  end.

(** The profiles an encoder may be left with for interlaced input. *)
Definition interlaced_profile (guid : GUID) : bool :=
  match guid with
  | NV_ENC_CODEC_PROFILE_AUTOSELECT_GUID
  | NV_ENC_H264_PROFILE_MAIN_GUID
  | NV_ENC_H264_PROFILE_HIGH_GUID
  | NV_ENC_H264_PROFILE_HIGH_444_GUID => true
  | _ => false
  end.

Definition interlaced_444 : GstVideoInfo :=
  {| info_format := GST_VIDEO_FORMAT_Y444;
     info_interlace_mode := GST_VIDEO_INTERLACE_MODE_INTERLEAVED |}.

(** ** The sink caps query: [gst_nv_h264_encoder_getcaps] *)

(** What [getcaps] lays on the template caps of the sink pad before it
    proxies the query: nothing when downstream names no profile, else
    whether "interlace-mode" is forced to "progressive", and the list put
    in "format". *)
Inductive GetcapsRestriction : Type :=
| GetcapsProxy
| GetcapsRestricted (progressive_only : bool) (allowed_formats : StringSet.t).

(** The loop over [downstream_profiles]: [profile_support_interlaced] and
    [allowed_formats]. *)
Definition getcaps_scan (downstream_profiles : StringSet.t)
  : bool * StringSet.t :=
  StringSet.fold
    (fun iter acc =>
       let '(profile_support_interlaced, allowed_formats) := acc in
       let profile_support_interlaced :=
         if String.eqb iter "high" || String.eqb iter "main" then true
         else profile_support_interlaced in
       if String.eqb iter "high-4:4:4"
       then (true, StringSet.add "Y444" allowed_formats)
       else (profile_support_interlaced, StringSet.add "NV12" allowed_formats))
    downstream_profiles (false, StringSet.empty).

Definition gst_nv_h264_encoder_getcaps (klass : GstNvH264EncoderClass)
    (allowed_caps : option GstCaps) : GetcapsRestriction :=
  let downstream_profiles :=
    fst (gst_nv_h264_encoder_get_downstream_profiles_and_format allowed_caps
           StringSet.empty) in
  if Nat.eqb (StringSet.cardinal downstream_profiles) 0
  then GetcapsProxy
  else
    let '(profile_support_interlaced, allowed_formats) :=
      getcaps_scan downstream_profiles in
    GetcapsRestricted
      ((dev_field_encoding (dev_caps klass) =? 0)
       || negb profile_support_interlaced)
      allowed_formats.

(** The name of the raw formats the encoder takes. *)
Definition video_format_name (f : GstVideoFormat) : option string :=
  match f with
  | GST_VIDEO_FORMAT_NV12 => Some "NV12"
  | GST_VIDEO_FORMAT_Y444 => Some "Y444"
  | GST_VIDEO_FORMAT_OTHER _ => None
  end.

(** Does the restriction let the video info through, by its format and
    its interlace mode?  The proxy case lays no restriction of its own and
    is not counted: there downstream names no profile. *)
Definition getcaps_admits (r : GetcapsRestriction) (info : GstVideoInfo)
  : Prop :=
  match r with
  | GetcapsProxy => False
  | GetcapsRestricted progressive_only allowed_formats =>
      (exists name,
          video_format_name (info_format info) = Some name
          /\ StringSet.In name allowed_formats)
      /\ (GST_VIDEO_INFO_IS_INTERLACED info = true -> progressive_only = false)
  end.

Definition interlaced_nv12 : GstVideoInfo :=
  {| info_format := GST_VIDEO_FORMAT_NV12;
     info_interlace_mode := GST_VIDEO_INTERLACE_MODE_MIXED |}.

(** A device that encodes fields. *)
Definition field_class : GstNvH264EncoderClass :=
  {| dev_caps := {| dev_max_bframes := 4;
                    dev_field_encoding := 1;
                    dev_dyn_bitrate_change := 1;
                    dev_async_encoding_support := 0;
                    dev_cabac := 1 |};
     cuda_device_id := 0;
     adapter_luid := 0;
     d3d11_mode := false |}.

(** ** The output state: [gst_nv_h264_encoder_set_output_state] *)

(** [size] bytes of [data] from [offset] on; a byte read past the end of
    [data], which C leaves undefined, is zero here. *)
Definition bytes_at (data : list byte) (offset size : nat) : list byte :=
  map (fun i => nth i data x00) (seq offset size).

Definition GST_WRITE_UINT16_BE (num : Z) : list byte :=
  [ byte_of_Z (Z.land (Z.shiftr num 8) 0xff);
    byte_of_Z (Z.land num 0xff) ].

Definition GST_READ_UINT16_BE (data : list byte) : Z :=
  match data with
  | b0 :: b1 :: _ =>
      Z.lor (Z.shiftl (Z.of_N (Byte.to_N b0)) 8) (Z.of_N (Byte.to_N b1))
  | _ => 0
  end.

(** The "codec_data" buffer of packetized mode, from the sequence header
    [spspps], the two units found in it and the [header_bytes] of the
    first. *)
Definition make_codec_data (spspps : list byte) (sps_nalu : GstH264NalUnit)
    (header_bytes : nat) (pps_nalu : GstH264NalUnit) : list byte :=
  let nal_length_size := 4 in
  let num_sps := 1 in
  let num_pps := 1 in
  let data := (offset sps_nalu + header_bytes)%nat in
  let profile_idc := nth data spspps x00 in
  let profile_comp := nth (data + 1) spspps x00 in
  let level_idc := nth (data + 2) spspps x00 in
  [ byte_of_Z 1; profile_idc; profile_comp; level_idc;
    byte_of_Z (Z.lor 0xfc (nal_length_size - 1));
    byte_of_Z (Z.lor 0xe0 num_sps) ]
  ++ GST_WRITE_UINT16_BE (to_guint (Z.of_nat (size sps_nalu)))
  ++ bytes_at spspps (offset sps_nalu) (size sps_nalu)
  ++ [ byte_of_Z num_pps ]
  ++ GST_WRITE_UINT16_BE (to_guint (Z.of_nat (size pps_nalu)))
  ++ bytes_at spspps (offset pps_nalu) (size pps_nalu).

(** The profile written into the output caps, from the profile read in the
    sequence header and the profiles downstream names. *)
Definition output_caps_profile (profile_from_sps : option string)
    (downstream_profiles : StringSet.t) : option string :=
  match profile_from_sps with
  | None => None
  | Some p =>
      if negb (StringSet.is_empty downstream_profiles)
      then
        if StringSet.mem p downstream_profiles then Some p
        else if StringSet.mem "baseline" downstream_profiles
                && String.eqb p "constrained-baseline"
        then Some "baseline"
        else if StringSet.mem "constrained-baseline" downstream_profiles
                && String.eqb p "constrained-baseline"
        then Some "constrained-baseline"
        else None
      else Some p
  end.

Definition output_caps_string (profile : option string) (packetized : bool)
  : string :=
  ("video/x-h264, alignment = (string) au"
   ++ match profile with
      | Some p => ", profile = (string) " ++ p
      | None => ""
      end
   ++ (if packetized then ", stream-format = (string) avc"
       else ", stream-format = (string) byte-stream"))%string.

(** What a successful [set_output_state] hands to the base class: the
    output caps as text and the "codec_data" buffer set on them.  The
    encoder tag merged afterwards is the same on every path and is left
    out. *)
Record OutputState : Type := mkOutputState {
  caps_str : string;
  codec_data : option (list byte)
}.

Definition is_parser_ok (rst : GstH264ParserResult) : bool :=
  match rst with GST_H264_PARSER_OK => true | _ => false end.

(** The functions of other libraries that [set_output_state] calls: the
    two entry points of the H.264 parser, which return the result, the unit
    and its [header_bytes], and [gst_codec_utils_h264_get_profile]. *)
Section OutputState.

Variable identify_nalu :
  list byte -> nat -> nat -> GstH264ParserResult * GstH264NalUnit * nat.
Variable identify_nalu_unchecked :
  list byte -> nat -> nat -> GstH264ParserResult * GstH264NalUnit * nat.
Variable get_profile : list byte -> option string.

(** [gst_nv_h264_encoder_set_output_state].  [seq_params] is the sequence
    header that [NvEncGetSequenceParams] returns, [None] when the call
    fails; the result is [None] where the function returns [FALSE]. *)
Definition gst_nv_h264_encoder_set_output_state
    (seq_params : option (list byte)) (allowed_caps : option GstCaps)
    (self : GstNvH264Encoder) : option OutputState :=
  let downstream_profiles :=
    fst (gst_nv_h264_encoder_get_downstream_profiles_and_format allowed_caps
           StringSet.empty) in
  match seq_params with
  | None => None
  | Some spspps =>
      let seq_size := length spspps in
      let '(rst, sps_nalu, header_bytes) := identify_nalu spspps 0%nat seq_size in
      if negb (is_parser_ok rst) then None
      else if (size sps_nalu <? 4)%nat then None
      else
        let '(rst, pps_nalu, _) :=
          identify_nalu_unchecked spspps
            (offset sps_nalu + size sps_nalu)%nat seq_size in
        if negb (is_parser_ok rst) && packetized self then None
        else
          let codec_data :=
            if packetized self
            then Some (make_codec_data spspps sps_nalu header_bytes pps_nalu)
            else None in
          let profile_from_sps :=
            get_profile
              (bytes_at spspps (offset sps_nalu + header_bytes) 3) in
          Some {| caps_str :=
                    output_caps_string
                      (output_caps_profile profile_from_sps
                         downstream_profiles)
                      (packetized self);
                  codec_data := codec_data |}
  end.

End OutputState.

(** A sequence header: a parameter set of ten bytes and a second unit of
    four bytes, each behind a four-byte start code. *)
Definition example_spspps : list byte :=
  [ x00; x00; x00; x01; x67; x42; xc0; x1f; xda; x01; x40; x16; xe8; x40;
    x00; x00; x00; x01; x68; xce; x3c; x80 ].

(** ** Class data: [GstNvH264EncoderClassData] *)

(** [GstNvH264EncoderDeviceCaps] with all its members, as
    [gst_nv_h264_encoder_create_class_data] fills them; every member is a
    [gint]. *)
Module AllCaps.

Record GstNvH264EncoderDeviceCaps : Type := mk {
  max_bframes : Z;
  ratecontrol_modes : Z;
  field_encoding : Z;
  monochrome : Z;
  fmo : Z;
  qpelmv : Z;
  bdirect_mode : Z;
  cabac : Z;
  adaptive_transform : Z;
  stereo_mvc : Z;
  temoral_layers : Z;
  hierarchical_pframes : Z;
  hierarchical_bframes : Z;
  level_max : Z;
  level_min : Z;
  seperate_colour_plane : Z;
  width_max : Z;
  height_max : Z;
  temporal_svc : Z;
  dyn_res_change : Z;
  dyn_bitrate_change : Z;
  dyn_force_constqp : Z;
  dyn_rcmode_change : Z;
  subframe_readback : Z;
  constrained_encoding : Z;
  intra_refresh : Z;
  custom_vbv_buf_size : Z;
  dynamic_slice_mode : Z;
  ref_pic_invalidation : Z;
  preproc_support : Z;
  async_encoding_support : Z;
  mb_num_max : Z;
  mb_per_sec_max : Z;
  yuv444_encode : Z;
  lossless_encode : Z;
  meonly_mode : Z;
  lookahead : Z;
  temporal_aq : Z;
  supports_10bit_encode : Z;
  num_max_ltr_frames : Z;
  weighted_prediction : Z;
  bframe_ref_mode : Z;
  emphasis_level_map : Z;
  width_min : Z;
  height_min : Z;
  multiple_ref_frames : Z
}.

(** [= { 0, }] *)
Definition zero : GstNvH264EncoderDeviceCaps :=
  mk 0 0 0 0 0 0 0 0 0 0 0 0 0 0 0 0 0 0 0 0 0 0 0 0 0 0 0 0 0 0 0 0 0 0 0 0 0 0 0 0 0 0 0 0 0 0.

End AllCaps.

(** The capabilities that [NvEncGetEncodeCaps] is asked for. *)
Inductive NV_ENC_CAPS : Type :=
| NV_ENC_CAPS_NUM_MAX_BFRAMES
| NV_ENC_CAPS_SUPPORTED_RATECONTROL_MODES
| NV_ENC_CAPS_SUPPORT_FIELD_ENCODING
| NV_ENC_CAPS_SUPPORT_MONOCHROME
| NV_ENC_CAPS_SUPPORT_FMO
| NV_ENC_CAPS_SUPPORT_QPELMV
| NV_ENC_CAPS_SUPPORT_BDIRECT_MODE
| NV_ENC_CAPS_SUPPORT_CABAC
| NV_ENC_CAPS_SUPPORT_ADAPTIVE_TRANSFORM
| NV_ENC_CAPS_SUPPORT_STEREO_MVC
| NV_ENC_CAPS_NUM_MAX_TEMPORAL_LAYERS
| NV_ENC_CAPS_SUPPORT_HIERARCHICAL_PFRAMES
| NV_ENC_CAPS_SUPPORT_HIERARCHICAL_BFRAMES
| NV_ENC_CAPS_LEVEL_MAX
| NV_ENC_CAPS_LEVEL_MIN
| NV_ENC_CAPS_SEPARATE_COLOUR_PLANE
| NV_ENC_CAPS_WIDTH_MAX
| NV_ENC_CAPS_HEIGHT_MAX
| NV_ENC_CAPS_SUPPORT_TEMPORAL_SVC
| NV_ENC_CAPS_SUPPORT_DYN_RES_CHANGE
| NV_ENC_CAPS_SUPPORT_DYN_BITRATE_CHANGE
| NV_ENC_CAPS_SUPPORT_DYN_FORCE_CONSTQP
| NV_ENC_CAPS_SUPPORT_DYN_RCMODE_CHANGE
| NV_ENC_CAPS_SUPPORT_SUBFRAME_READBACK
| NV_ENC_CAPS_SUPPORT_CONSTRAINED_ENCODING
| NV_ENC_CAPS_SUPPORT_INTRA_REFRESH
| NV_ENC_CAPS_SUPPORT_CUSTOM_VBV_BUF_SIZE
| NV_ENC_CAPS_SUPPORT_DYNAMIC_SLICE_MODE
| NV_ENC_CAPS_SUPPORT_REF_PIC_INVALIDATION
| NV_ENC_CAPS_PREPROC_SUPPORT
| NV_ENC_CAPS_ASYNC_ENCODE_SUPPORT
| NV_ENC_CAPS_MB_NUM_MAX
| NV_ENC_CAPS_MB_PER_SEC_MAX
| NV_ENC_CAPS_SUPPORT_YUV444_ENCODE
| NV_ENC_CAPS_SUPPORT_LOSSLESS_ENCODE
| NV_ENC_CAPS_SUPPORT_MEONLY_MODE
| NV_ENC_CAPS_SUPPORT_LOOKAHEAD
| NV_ENC_CAPS_SUPPORT_TEMPORAL_AQ
| NV_ENC_CAPS_SUPPORT_10BIT_ENCODE
| NV_ENC_CAPS_NUM_MAX_LTR_FRAMES
| NV_ENC_CAPS_SUPPORT_WEIGHTED_PREDICTION
| NV_ENC_CAPS_SUPPORT_BFRAME_REF_MODE
| NV_ENC_CAPS_SUPPORT_EMPHASIS_LEVEL_MAP
| NV_ENC_CAPS_WIDTH_MIN
| NV_ENC_CAPS_HEIGHT_MIN
| NV_ENC_CAPS_SUPPORT_MULTIPLE_REF_FRAMES.

(** The memory a caps structure is about: system memory where no feature
    is set. *)
Inductive GstCapsFeature : Type :=
| GST_CAPS_FEATURE_MEMORY_SYSTEM_MEMORY
| GST_CAPS_FEATURE_MEMORY_CUDA_MEMORY
| GST_CAPS_FEATURE_MEMORY_D3D11_MEMORY.

(** The caps of the class data are kept as the text given to
    [gst_caps_from_string]; the sink caps are a list of structures, each
    with its memory feature. *)
Record GstNvH264EncoderClassData : Type := mkClassData {
  cdata_sink_caps : list (GstCapsFeature * string);
  cdata_src_caps : string;
  cdata_cuda_device_id : Z;
  cdata_adapter_luid : Z;
  cdata_d3d11_mode : bool;
  cdata_dev_caps : AllCaps.GstNvH264EncoderDeviceCaps
}.

(** ** Class initialisation: [gst_nv_h264_encoder_class_init] *)

Record GParamFlags : Type := mkParamFlags {
  G_PARAM_READABLE : bool;
  G_PARAM_WRITABLE : bool;
  GST_PARAM_CONDITIONALLY_AVAILABLE : bool;
  GST_PARAM_MUTABLE_PLAYING : bool;
  G_PARAM_STATIC_STRINGS : bool
}.

(** [G_PARAM_READWRITE | GST_PARAM_MUTABLE_PLAYING | G_PARAM_STATIC_STRINGS] *)
Definition param_flags : GParamFlags :=
  {| G_PARAM_READABLE := true; G_PARAM_WRITABLE := true;
     GST_PARAM_CONDITIONALLY_AVAILABLE := false;
     GST_PARAM_MUTABLE_PLAYING := true; G_PARAM_STATIC_STRINGS := true |}.

Definition conditonal_param_flags : GParamFlags :=
  {| G_PARAM_READABLE := true; G_PARAM_WRITABLE := true;
     GST_PARAM_CONDITIONALLY_AVAILABLE := true;
     GST_PARAM_MUTABLE_PLAYING := true; G_PARAM_STATIC_STRINGS := true |}.

(** [G_PARAM_READABLE | G_PARAM_STATIC_STRINGS] *)
Definition readable_param_flags : GParamFlags :=
  {| G_PARAM_READABLE := true; G_PARAM_WRITABLE := false;
     GST_PARAM_CONDITIONALLY_AVAILABLE := false;
     GST_PARAM_MUTABLE_PLAYING := false; G_PARAM_STATIC_STRINGS := true |}.

(** A parameter specification: its name, its bounds where the type has
    some, its default value and its flags.  The nick and the description
    are left out.  The two enumeration types of [g_param_spec_enum] have a
    constructor each. *)
Inductive GParamSpec : Type :=
| g_param_spec_int64 (name : string) (minimum maximum default_value : Z)
    (flags : GParamFlags)
| g_param_spec_uint (name : string) (minimum maximum default_value : Z)
    (flags : GParamFlags)
| g_param_spec_int (name : string) (minimum maximum default_value : Z)
    (flags : GParamFlags)
| g_param_spec_double (name : string) (minimum maximum default_value : gdouble)
    (flags : GParamFlags)
| g_param_spec_boolean (name : string) (default_value : bool)
    (flags : GParamFlags)
| g_param_spec_enum_preset (name : string) (default_value : GstNvEncoderPreset)
    (flags : GParamFlags)
| g_param_spec_enum_rc_mode (name : string)
    (default_value : GstNvEncoderRCMode) (flags : GParamFlags).

Definition G_MININT64 : Z := - 2 ^ 63.
Definition G_MAXINT64 : Z := 2 ^ 63 - 1.
Definition G_MAXUINT : Z := 2 ^ 32 - 1.

(** The literal [51] as a double. *)
Definition gdouble_51 : gdouble := S754_finite false (51 * 2 ^ 47) (-47).

(** [klass->dev_caps = cdata->dev_caps], on the members read later. *)
Definition class_dev_caps (c : AllCaps.GstNvH264EncoderDeviceCaps)
  : GstNvH264EncoderDeviceCaps :=
  {| dev_max_bframes := AllCaps.max_bframes c;
     dev_field_encoding := AllCaps.field_encoding c;
     dev_dyn_bitrate_change := AllCaps.dyn_bitrate_change c;
     dev_async_encoding_support := AllCaps.async_encoding_support c;
     dev_cabac := AllCaps.cabac c |}.

(** What [class_init] sets up: the properties installed, the element
    metadata, the caps of the two pad templates and the members of the
    class. *)
Record ClassInit : Type := mkClassInit {
  installed : list (PropId * GParamSpec);
  long_name : string;
  classification : string;
  description : string;
  author : string;
  sink_template : list (GstCapsFeature * string);
  src_template : string;
  class_of : GstNvH264EncoderClass
}.

(** [if (c) g_object_class_install_property (...)] *)
Definition install_if (c : bool) (props : list (PropId * GParamSpec))
  : list (PropId * GParamSpec) :=
  if c then props else [].

(** [gst_nv_h264_encoder_class_init]: the properties in the order of their
    installation, the element metadata, the pad templates and the members
    of the class. *)
Definition gst_nv_h264_encoder_class_init (cdata : GstNvH264EncoderClassData)
  : ClassInit :=
  let dev_caps := cdata_dev_caps cdata in
  let int_qp name := g_param_spec_int name (-1) 51 DEFAULT_QP param_flags in
  {| installed :=
       (if cdata_d3d11_mode cdata
        then [ (PROP_ADAPTER_LUID,
                g_param_spec_int64 "adapter-luid" G_MININT64 G_MAXINT64
                  (cdata_adapter_luid cdata) readable_param_flags) ]
        else [ (PROP_CUDA_DEVICE_ID,
                g_param_spec_uint "cuda-device-id" 0 G_MAXINT
                  (cdata_cuda_device_id cdata) readable_param_flags) ])
       ++ [ (PROP_PRESET,
             g_param_spec_enum_preset "preset" GST_NV_ENCODER_PRESET_DEFAULT
               param_flags) ]
       ++ install_if (negb (AllCaps.weighted_prediction dev_caps =? 0))
            [ (PROP_WEIGHTED_PRED,
               g_param_spec_boolean "weighted-pred" false
                 conditonal_param_flags) ]
       ++ [ (PROP_GOP_SIZE,
             g_param_spec_int "gop-size" (-1) G_MAXINT DEFAULT_GOP_SIZE
               param_flags) ]
       ++ install_if (0 <? AllCaps.max_bframes dev_caps)
            [ (PROP_B_FRAMES,
               g_param_spec_uint "bframes" 0
                 (to_guint (AllCaps.max_bframes dev_caps)) DEFAULT_B_FRAMES
                 conditonal_param_flags) ]
       ++ [ (PROP_RC_MODE,
             g_param_spec_enum_rc_mode "rc-mode" GST_NV_ENCODER_RC_MODE_VBR
               param_flags);
            (PROP_QP_CONST_I, int_qp "qp-const-i");
            (PROP_QP_CONST_P, int_qp "qp-const-p");
            (PROP_QP_CONST_B, int_qp "qp-const-b");
            (PROP_BITRATE,
             g_param_spec_uint "bitrate" 0 (2000 * 1024) 0 param_flags);
            (PROP_MAX_BITRATE,
             g_param_spec_uint "max-bitrate" 0 (2000 * 1024) 0 param_flags) ]
       ++ install_if (negb (AllCaps.custom_vbv_buf_size dev_caps =? 0))
            [ (PROP_VBV_BUFFER_SIZE,
               g_param_spec_uint "vbv-buffer-size" 0 G_MAXUINT 0
                 conditonal_param_flags) ]
       ++ install_if (negb (AllCaps.lookahead dev_caps =? 0))
            ([ (PROP_RC_LOOKAHEAD,
                g_param_spec_uint "rc-lookahead" 0 32 0
                  conditonal_param_flags);
               (PROP_I_ADAPT,
                g_param_spec_boolean "i-adapt" false conditonal_param_flags) ]
             ++ install_if (0 <? AllCaps.max_bframes dev_caps)
                  [ (PROP_B_ADAPT,
                     g_param_spec_boolean "b-adapt" false
                       conditonal_param_flags) ])
       ++ [ (PROP_SPATIAL_AQ,
             g_param_spec_boolean "spatial-aq" false param_flags) ]
       ++ install_if (negb (AllCaps.temporal_aq dev_caps =? 0))
            [ (PROP_TEMPORAL_AQ,
               g_param_spec_boolean "temporal-aq" false
                 conditonal_param_flags) ]
       ++ [ (PROP_ZERO_LATENCY,
             g_param_spec_boolean "zerolatency" false param_flags);
            (PROP_NON_REF_P,
             g_param_spec_boolean "nonref-p" false param_flags);
            (PROP_STRICT_GOP,
             g_param_spec_boolean "strict-gop" false param_flags);
            (PROP_AQ_STRENGTH,
             g_param_spec_uint "aq-strength" 0 15 0 param_flags);
            (PROP_QP_MIN_I, int_qp "qp-min-i");
            (PROP_QP_MIN_P, int_qp "qp-min-p");
            (PROP_QP_MIN_B, int_qp "qp-min-b");
            (PROP_QP_MAX_I, int_qp "qp-max-i");
            (PROP_QP_MAX_P, int_qp "qp-max-p");
            (PROP_QP_MAX_B, int_qp "qp-max-b");
            (PROP_CONST_QUALITY,
             g_param_spec_double "const-quality" gdouble_zero gdouble_51
               gdouble_zero param_flags);
            (PROP_AUD, g_param_spec_boolean "aud" true param_flags) ]
       ++ install_if (negb (AllCaps.cabac dev_caps =? 0))
            [ (PROP_CABAC,
               g_param_spec_boolean "cabac" true conditonal_param_flags) ]
       ++ [ (PROP_REPEAT_SEQUENCE_HEADER,
             g_param_spec_boolean "repeat-sequence-header" false
               param_flags) ];
     long_name :=
       if cdata_d3d11_mode cdata
       then "NVENC H.264 Video Encoder Direct3D11 Mode"
       else "NVENC H.264 Video Encoder CUDA Mode";
     classification := "Codec/Encoder/Video/Hardware";
     description :=
       if cdata_d3d11_mode cdata
       then "Encode H.264 video streams using NVCODEC API Direct3D11 Mode"
       else "Encode H.264 video streams using NVCODEC API CUDA Mode";
     author := "Seungha Yang <seungha@centricular.com>";
     sink_template := cdata_sink_caps cdata;
     src_template := cdata_src_caps cdata;
     class_of :=
       {| dev_caps := class_dev_caps dev_caps;
          cuda_device_id := cdata_cuda_device_id cdata;
          adapter_luid := cdata_adapter_luid cdata;
          d3d11_mode := cdata_d3d11_mode cdata |} |}.

(** *** Notions for the statements on parameter specifications *)

Definition spec_flags (spec : GParamSpec) : GParamFlags :=
  match spec with
  | g_param_spec_int64 _ _ _ _ f | g_param_spec_uint _ _ _ _ f
  | g_param_spec_int _ _ _ _ f | g_param_spec_double _ _ _ _ f
  | g_param_spec_boolean _ _ f | g_param_spec_enum_preset _ _ f
  | g_param_spec_enum_rc_mode _ _ f => f
  end.

Definition spec_name (spec : GParamSpec) : string :=
  match spec with
  | g_param_spec_int64 n _ _ _ _ | g_param_spec_uint n _ _ _ _
  | g_param_spec_int n _ _ _ _ | g_param_spec_double n _ _ _ _
  | g_param_spec_boolean n _ _ | g_param_spec_enum_preset n _ _
  | g_param_spec_enum_rc_mode n _ _ => n
  end.

(** The default of a specification as a [GValue]. *)
Definition spec_default (spec : GParamSpec) : GValue :=
  match spec with
  | g_param_spec_int64 _ _ _ d _ => GInt64 d
  | g_param_spec_uint _ _ _ d _ => GUInt d
  | g_param_spec_int _ _ _ d _ => GInt d
  | g_param_spec_double _ _ _ d _ => GDouble d
  | g_param_spec_boolean _ d _ => GBoolean d
  | g_param_spec_enum_preset _ d _ => GPreset d
  | g_param_spec_enum_rc_mode _ d _ => GRCMode d
  end.

(** The values that pass the validation of a specification: of its type
    and within its bounds. *)
Definition spec_admits (spec : GParamSpec) (value : GValue) : bool :=
  match spec, value with
  | g_param_spec_int64 _ lo hi _ _, GInt64 i
  | g_param_spec_uint _ lo hi _ _, GUInt i
  | g_param_spec_int _ lo hi _ _, GInt i => (lo <=? i) && (i <=? hi)
  | g_param_spec_double _ lo hi _ _, GDouble d => SFleb lo d && SFleb d hi
  | g_param_spec_boolean _ _ _, GBoolean _
  | g_param_spec_enum_preset _ _ _, GPreset _
  | g_param_spec_enum_rc_mode _ _ _, GRCMode _ => true
  | _, _ => false
  end.

(** A write that GObject lets through to [set_property]: to an installed,
    writable property, with a value its specification admits. *)
Definition write_admitted (props : list (PropId * GParamSpec))
    (w : PropId * GValue) : Prop :=
  exists spec,
    In (fst w, spec) props
    /\ G_PARAM_WRITABLE (spec_flags spec) = true
    /\ spec_admits spec (snd w) = true.

(** Class data of a device on which every query of a capability failed
    or gave zero. *)
Definition bare_class_data (d3d11 : bool) : GstNvH264EncoderClassData :=
  {| cdata_sink_caps := []; cdata_src_caps := "";
     cdata_cuda_device_id := 0; cdata_adapter_luid := 0;
     cdata_d3d11_mode := d3d11; cdata_dev_caps := AllCaps.zero |}.

(** Class data of a device with every optional feature. *)
Definition featured_class_data (d3d11 : bool) : GstNvH264EncoderClassData :=
  {| cdata_sink_caps := []; cdata_src_caps := "";
     cdata_cuda_device_id := 0; cdata_adapter_luid := 0;
     cdata_d3d11_mode := d3d11;
     cdata_dev_caps :=
       {| AllCaps.max_bframes := 4;
          AllCaps.ratecontrol_modes := 63;
          AllCaps.field_encoding := 1;
          AllCaps.monochrome := 0;
          AllCaps.fmo := 0;
          AllCaps.qpelmv := 0;
          AllCaps.bdirect_mode := 0;
          AllCaps.cabac := 1;
          AllCaps.adaptive_transform := 0;
          AllCaps.stereo_mvc := 0;
          AllCaps.temoral_layers := 0;
          AllCaps.hierarchical_pframes := 0;
          AllCaps.hierarchical_bframes := 0;
          AllCaps.level_max := 51;
          AllCaps.level_min := 1;
          AllCaps.seperate_colour_plane := 0;
          AllCaps.width_max := 4096;
          AllCaps.height_max := 4096;
          AllCaps.temporal_svc := 0;
          AllCaps.dyn_res_change := 0;
          AllCaps.dyn_bitrate_change := 1;
          AllCaps.dyn_force_constqp := 0;
          AllCaps.dyn_rcmode_change := 0;
          AllCaps.subframe_readback := 0;
          AllCaps.constrained_encoding := 0;
          AllCaps.intra_refresh := 0;
          AllCaps.custom_vbv_buf_size := 1;
          AllCaps.dynamic_slice_mode := 0;
          AllCaps.ref_pic_invalidation := 0;
          AllCaps.preproc_support := 0;
          AllCaps.async_encoding_support := 0;
          AllCaps.mb_num_max := 0;
          AllCaps.mb_per_sec_max := 0;
          AllCaps.yuv444_encode := 1;
          AllCaps.lossless_encode := 0;
          AllCaps.meonly_mode := 0;
          AllCaps.lookahead := 1;
          AllCaps.temporal_aq := 1;
          AllCaps.supports_10bit_encode := 0;
          AllCaps.num_max_ltr_frames := 0;
          AllCaps.weighted_prediction := 1;
          AllCaps.bframe_ref_mode := 0;
          AllCaps.emphasis_level_map := 0;
          AllCaps.width_min := 145;
          AllCaps.height_min := 49;
          AllCaps.multiple_ref_frames := 0 |} |}.

(** The value of each identifier in the enumeration of the properties. *)
Definition prop_number (prop_id : PropId) : Z :=
  match prop_id with
  | PROP_0 => 0 | PROP_ADAPTER_LUID => 1 | PROP_CUDA_DEVICE_ID => 2
  | PROP_PRESET => 3 | PROP_WEIGHTED_PRED => 4 | PROP_GOP_SIZE => 5
  | PROP_B_FRAMES => 6 | PROP_RC_MODE => 7 | PROP_QP_CONST_I => 8
  | PROP_QP_CONST_P => 9 | PROP_QP_CONST_B => 10 | PROP_BITRATE => 11
  | PROP_MAX_BITRATE => 12 | PROP_VBV_BUFFER_SIZE => 13
  | PROP_RC_LOOKAHEAD => 14 | PROP_I_ADAPT => 15 | PROP_B_ADAPT => 16
  | PROP_SPATIAL_AQ => 17 | PROP_TEMPORAL_AQ => 18 | PROP_ZERO_LATENCY => 19
  | PROP_NON_REF_P => 20 | PROP_STRICT_GOP => 21 | PROP_AQ_STRENGTH => 22
  | PROP_QP_MIN_I => 23 | PROP_QP_MIN_P => 24 | PROP_QP_MIN_B => 25
  | PROP_QP_MAX_I => 26 | PROP_QP_MAX_P => 27 | PROP_QP_MAX_B => 28
  | PROP_CONST_QUALITY => 29 | PROP_AUD => 30 | PROP_CABAC => 31
  | PROP_REPEAT_SEQUENCE_HEADER => 32
  end.

(** Is the list of numbers strictly increasing? *)
Fixpoint increasing (l : list Z) : bool :=
  match l with
  | a :: (b :: _) as tl => (a <? b) && increasing tl
  | _ => true
  end.

(** Does no string occur twice? *)
Fixpoint distinct_names (l : list string) : bool :=
  match l with
  | [] => true
  | a :: tl => negb (existsb (String.eqb a) tl) && distinct_names tl
  end.

(** The members of the encoder within the bounds of their properties, on a
    device with the given B-frame capability. *)
Definition members_in_range (max_bframes : Z) (self : GstNvH264Encoder)
  : Prop :=
  (-1 <= gop_size self <= G_MAXINT)
  /\ ((0 <? max_bframes) = true
      -> 0 <= bframes self <= to_guint max_bframes)
  /\ (qp_range (qp_const_i self) /\ qp_range (qp_const_p self)
      /\ qp_range (qp_const_b self))
  /\ (qp_range (qp_min_i self) /\ qp_range (qp_min_p self)
      /\ qp_range (qp_min_b self))
  /\ (qp_range (qp_max_i self) /\ qp_range (qp_max_p self)
      /\ qp_range (qp_max_b self))
  /\ (bitrate_range (bitrate self) /\ bitrate_range (max_bitrate self))
  /\ (0 <= vbv_buffer_size self <= G_MAXUINT)
  /\ (0 <= rc_lookahead self <= 32)
  /\ (0 <= aq_strength self <= 15)
  /\ (SFleb gdouble_zero (const_quality self)
      && SFleb (const_quality self) gdouble_51) = true.

(** ** Class data of a device: [gst_nv_h264_encoder_create_class_data] *)

(** The input formats that the [switch] tells apart. *)
Inductive NV_ENC_BUFFER_FORMAT : Type :=
| NV_ENC_BUFFER_FORMAT_NV12
| NV_ENC_BUFFER_FORMAT_YUV444
| NV_ENC_BUFFER_FORMAT_other (code : Z).

(** [std::to_string] on an [int]. *)
Definition to_string (z : Z) : string := NilZero.string_of_int (Z.to_int z).

(** [(((num) + 15) & ~15)] on a [gint]; a sum that leaves the range of
    [gint], which C leaves undefined, wraps around here. *)
Definition GST_ROUND_UP_16 (num : Z) : Z :=
  Z.land (to_gint (num + 15)) (Z.lnot 15).

(** The body of the loop over [input_formats]. *)
Definition insert_format (yuv444_encode : Z) (formats : StringSet.t)
    (format : NV_ENC_BUFFER_FORMAT) : StringSet.t :=
  match format with
  | NV_ENC_BUFFER_FORMAT_NV12 => StringSet.add "NV12" formats
  | NV_ENC_BUFFER_FORMAT_YUV444 =>
      if negb (yuv444_encode =? 0) then StringSet.add "Y444" formats
      else formats
  | NV_ENC_BUFFER_FORMAT_other _ => formats
  end.

(** The loop over [input_formats]: the format names of the device. *)
Definition device_formats (yuv444_encode : Z)
    (input_formats : list NV_ENC_BUFFER_FORMAT) : StringSet.t :=
  fold_left (insert_format yuv444_encode) input_formats StringSet.empty.

(** The body of the loop over [profile_guids]; a GUID that is none of the
    six compared, like the auto-select one, adds nothing. *)
Definition insert_profile_guid (profiles : StringSet.t) (guid : GUID)
  : StringSet.t :=
  match guid with
  | NV_ENC_H264_PROFILE_BASELINE_GUID =>
      StringSet.add "constrained-baseline" (StringSet.add "baseline" profiles)
  | NV_ENC_H264_PROFILE_MAIN_GUID => StringSet.add "main" profiles
  | NV_ENC_H264_PROFILE_HIGH_GUID => StringSet.add "high" profiles
  | NV_ENC_H264_PROFILE_HIGH_444_GUID => StringSet.add "high-4:4:4" profiles
  | NV_ENC_H264_PROFILE_PROGRESSIVE_HIGH_GUID =>
      StringSet.add "progressive-high" profiles
  | NV_ENC_H264_PROFILE_CONSTRAINED_HIGH_GUID =>
      StringSet.add "constrained-high" profiles
  | NV_ENC_CODEC_PROFILE_AUTOSELECT_GUID => profiles
  end.

(** The loop over [profile_guids]: the profile names of the device. *)
Definition device_profiles (profile_guids : list GUID) : StringSet.t :=
  fold_left insert_profile_guid profile_guids StringSet.empty.

(** [APPEND_STRING (dst, set, str)], on the pair of [dst] and [first]. *)
Definition APPEND_STRING (st : string * bool) (set : StringSet.t)
    (str : string) : string * bool :=
  let '(dst, first) := st in
  if StringSet.mem str set
  then (((if first then dst else dst ++ ", ") ++ str)%string, false)
  else (dst, first).

(** [*(set.begin ())] of a set that is not empty. *)
Definition begin_of (set : StringSet.t) : string :=
  match StringSet.min_elt set with
  | Some s => s
  | None => ""
  end.

Definition format_string (formats : StringSet.t) : string :=
  if Nat.eqb (StringSet.cardinal formats) 1
  then ("format = (string) " ++ begin_of formats)%string
  else
    let st := ("format = (string) { ", true) in
    let st := APPEND_STRING st formats "NV12" in
    let st := APPEND_STRING st formats "Y444" in
    (fst st ++ " }")%string.

Definition profile_string (profiles : StringSet.t) : string :=
  if Nat.eqb (StringSet.cardinal profiles) 1
  then ("profile = (string) " ++ begin_of profiles)%string
  else
    let st := ("profile = (string) { ", true) in
    let st := APPEND_STRING st profiles "main" in
    let st := APPEND_STRING st profiles "high" in
    let st := APPEND_STRING st profiles "progressive-high" in
    let st := APPEND_STRING st profiles "constrained-high" in
    let st := APPEND_STRING st profiles "constrained-baseline" in
    let st := APPEND_STRING st profiles "baseline" in
    let st := APPEND_STRING st profiles "high-4:4:4" in
    (fst st ++ " }")%string.

Definition resolution_string (dev_caps : AllCaps.GstNvH264EncoderDeviceCaps)
  : string :=
  ("width = (int) [ "
   ++ to_string (GST_ROUND_UP_16 (AllCaps.width_min dev_caps))
   ++ ", " ++ to_string (AllCaps.width_max dev_caps) ++ " ]"
   ++ ", height = (int) [ "
   ++ to_string (GST_ROUND_UP_16 (AllCaps.height_min dev_caps))
   ++ ", " ++ to_string (AllCaps.height_max dev_caps) ++ " ]")%string.

(** The build options and the constant of the NVENC headers that the
    function depends on. *)
Section ClassData.

Variable G_OS_WIN32 : bool.
Variable HAVE_NVCODEC_GST_D3D11 : bool.
Variable NV_ENC_PARAMS_RC_VBR : Z.

(** The capabilities of the device, from the answers of
    [NvEncGetEncodeCaps]: [None] stands for a status other than
    [NV_ENC_SUCCESS]. *)
Definition query_device_caps (NvEncGetEncodeCaps : NV_ENC_CAPS -> option Z)
  : AllCaps.GstNvH264EncoderDeviceCaps :=
  let CHECK_CAPS to_query default_val :=
    match NvEncGetEncodeCaps to_query with
    | Some _val => _val
    | None => default_val
    end in
  {| AllCaps.max_bframes := CHECK_CAPS NV_ENC_CAPS_NUM_MAX_BFRAMES 0;
     AllCaps.ratecontrol_modes := CHECK_CAPS NV_ENC_CAPS_SUPPORTED_RATECONTROL_MODES NV_ENC_PARAMS_RC_VBR;
     AllCaps.field_encoding := CHECK_CAPS NV_ENC_CAPS_SUPPORT_FIELD_ENCODING 0;
     AllCaps.monochrome := CHECK_CAPS NV_ENC_CAPS_SUPPORT_MONOCHROME 0;
     AllCaps.fmo := CHECK_CAPS NV_ENC_CAPS_SUPPORT_FMO 0;
     AllCaps.qpelmv := CHECK_CAPS NV_ENC_CAPS_SUPPORT_QPELMV 0;
     AllCaps.bdirect_mode := CHECK_CAPS NV_ENC_CAPS_SUPPORT_BDIRECT_MODE 0;
     AllCaps.cabac := CHECK_CAPS NV_ENC_CAPS_SUPPORT_CABAC 0;
     AllCaps.adaptive_transform := CHECK_CAPS NV_ENC_CAPS_SUPPORT_ADAPTIVE_TRANSFORM 0;
     AllCaps.stereo_mvc := CHECK_CAPS NV_ENC_CAPS_SUPPORT_STEREO_MVC 0;
     AllCaps.temoral_layers := CHECK_CAPS NV_ENC_CAPS_NUM_MAX_TEMPORAL_LAYERS 0;
     AllCaps.hierarchical_pframes := CHECK_CAPS NV_ENC_CAPS_SUPPORT_HIERARCHICAL_PFRAMES 0;
     AllCaps.hierarchical_bframes := CHECK_CAPS NV_ENC_CAPS_SUPPORT_HIERARCHICAL_BFRAMES 0;
     AllCaps.level_max := CHECK_CAPS NV_ENC_CAPS_LEVEL_MAX 0;
     AllCaps.level_min := CHECK_CAPS NV_ENC_CAPS_LEVEL_MIN 0;
     AllCaps.seperate_colour_plane := CHECK_CAPS NV_ENC_CAPS_SEPARATE_COLOUR_PLANE 0;
     AllCaps.width_max := CHECK_CAPS NV_ENC_CAPS_WIDTH_MAX 4096;
     AllCaps.height_max := CHECK_CAPS NV_ENC_CAPS_HEIGHT_MAX 4096;
     AllCaps.temporal_svc := CHECK_CAPS NV_ENC_CAPS_SUPPORT_TEMPORAL_SVC 0;
     AllCaps.dyn_res_change := CHECK_CAPS NV_ENC_CAPS_SUPPORT_DYN_RES_CHANGE 0;
     AllCaps.dyn_bitrate_change := CHECK_CAPS NV_ENC_CAPS_SUPPORT_DYN_BITRATE_CHANGE 0;
     AllCaps.dyn_force_constqp := CHECK_CAPS NV_ENC_CAPS_SUPPORT_DYN_FORCE_CONSTQP 0;
     AllCaps.dyn_rcmode_change := CHECK_CAPS NV_ENC_CAPS_SUPPORT_DYN_RCMODE_CHANGE 0;
     AllCaps.subframe_readback := CHECK_CAPS NV_ENC_CAPS_SUPPORT_SUBFRAME_READBACK 0;
     AllCaps.constrained_encoding := CHECK_CAPS NV_ENC_CAPS_SUPPORT_CONSTRAINED_ENCODING 0;
     AllCaps.intra_refresh := CHECK_CAPS NV_ENC_CAPS_SUPPORT_INTRA_REFRESH 0;
     AllCaps.custom_vbv_buf_size := CHECK_CAPS NV_ENC_CAPS_SUPPORT_CUSTOM_VBV_BUF_SIZE 0;
     AllCaps.dynamic_slice_mode := CHECK_CAPS NV_ENC_CAPS_SUPPORT_DYNAMIC_SLICE_MODE 0;
     AllCaps.ref_pic_invalidation := CHECK_CAPS NV_ENC_CAPS_SUPPORT_REF_PIC_INVALIDATION 0;
     AllCaps.preproc_support := CHECK_CAPS NV_ENC_CAPS_PREPROC_SUPPORT 0;
     AllCaps.async_encoding_support :=
       if G_OS_WIN32 then CHECK_CAPS NV_ENC_CAPS_ASYNC_ENCODE_SUPPORT 0 else 0;
     AllCaps.mb_num_max := CHECK_CAPS NV_ENC_CAPS_MB_NUM_MAX 0;
     AllCaps.mb_per_sec_max := CHECK_CAPS NV_ENC_CAPS_MB_PER_SEC_MAX 0;
     AllCaps.yuv444_encode := CHECK_CAPS NV_ENC_CAPS_SUPPORT_YUV444_ENCODE 0;
     AllCaps.lossless_encode := CHECK_CAPS NV_ENC_CAPS_SUPPORT_LOSSLESS_ENCODE 0;
     AllCaps.meonly_mode := CHECK_CAPS NV_ENC_CAPS_SUPPORT_MEONLY_MODE 0;
     AllCaps.lookahead := CHECK_CAPS NV_ENC_CAPS_SUPPORT_LOOKAHEAD 0;
     AllCaps.temporal_aq := CHECK_CAPS NV_ENC_CAPS_SUPPORT_TEMPORAL_AQ 0;
     AllCaps.supports_10bit_encode := CHECK_CAPS NV_ENC_CAPS_SUPPORT_10BIT_ENCODE 0;
     AllCaps.num_max_ltr_frames := CHECK_CAPS NV_ENC_CAPS_NUM_MAX_LTR_FRAMES 0;
     AllCaps.weighted_prediction := CHECK_CAPS NV_ENC_CAPS_SUPPORT_WEIGHTED_PREDICTION 0;
     AllCaps.bframe_ref_mode := CHECK_CAPS NV_ENC_CAPS_SUPPORT_BFRAME_REF_MODE 0;
     AllCaps.emphasis_level_map := CHECK_CAPS NV_ENC_CAPS_SUPPORT_EMPHASIS_LEVEL_MAP 0;
     AllCaps.width_min := CHECK_CAPS NV_ENC_CAPS_WIDTH_MIN 16;
     AllCaps.height_min := CHECK_CAPS NV_ENC_CAPS_HEIGHT_MIN 16;
     AllCaps.multiple_ref_frames := CHECK_CAPS NV_ENC_CAPS_SUPPORT_MULTIPLE_REF_FRAMES 0 |}.

(** [gst_nv_h264_encoder_create_class_data].  The two lists are the
    answers of [NvEncGetEncodeProfileGUIDs] and [NvEncGetInputFormats],
    [None] for a status other than [NV_ENC_SUCCESS]; [g_object_get] reads
    a property of [device]; the result is [None] where the function
    returns [NULL]. *)
Definition gst_nv_h264_encoder_create_class_data
    (profile_guids : option (list GUID))
    (input_formats : option (list NV_ENC_BUFFER_FORMAT))
    (NvEncGetEncodeCaps : NV_ENC_CAPS -> option Z)
    (g_object_get : string -> Z) (d3d11_mode : bool)
  : option GstNvH264EncoderClassData :=
  match profile_guids, input_formats with
  | Some profile_guids, Some input_formats =>
      if Nat.eqb (List.length profile_guids) 0 then None
      else if Nat.eqb (List.length input_formats) 0 then None
      else
          let dev_caps := query_device_caps NvEncGetEncodeCaps in
          let formats :=
            device_formats (AllCaps.yuv444_encode dev_caps) input_formats in
          if StringSet.is_empty formats then None
          else
            let format_str := format_string formats in
            let profiles := device_profiles profile_guids in
            if StringSet.is_empty profiles then None
            else
              let profile_str := profile_string profiles in
              let resolution_str := resolution_string dev_caps in
              let sink_caps_str :=
                ("video/x-raw, " ++ format_str ++ ", " ++ resolution_str
                 ++ (if (0 <? AllCaps.field_encoding dev_caps)%Z
                     then ", interlace-mode = (string) { interleaved, mixed }"
                     else ", interlace-mode = (string) progressive"))%string in
              let src_caps_str :=
                ("video/x-h264, " ++ resolution_str ++ ", " ++ profile_str
                 ++ ", stream-format = (string) { avc, byte-stream }, alignment = (string) au")%string in
              Some
                {| cdata_sink_caps :=
                     [ (if HAVE_NVCODEC_GST_D3D11 && d3d11_mode
                        then GST_CAPS_FEATURE_MEMORY_D3D11_MEMORY
                        else GST_CAPS_FEATURE_MEMORY_CUDA_MEMORY,
                        sink_caps_str);
                       (GST_CAPS_FEATURE_MEMORY_SYSTEM_MEMORY,
                        sink_caps_str) ];
                   cdata_src_caps := src_caps_str;
                   cdata_cuda_device_id :=
                     if d3d11_mode then 0 else g_object_get "cuda-device-id";
                   cdata_adapter_luid :=
                     if d3d11_mode then g_object_get "adapter-luid" else 0;
                   cdata_d3d11_mode := d3d11_mode;
                   cdata_dev_caps := dev_caps |}
  | _, _ => None
  end.

End ClassData.

(** *** Notions for the statements on the class data *)

Definition is_NV12_format (f : NV_ENC_BUFFER_FORMAT) : bool :=
  match f with NV_ENC_BUFFER_FORMAT_NV12 => true | _ => false end.

Definition is_YUV444_format (f : NV_ENC_BUFFER_FORMAT) : bool :=
  match f with NV_ENC_BUFFER_FORMAT_YUV444 => true | _ => false end.

(** An input format that the element can take on a device with the given
    4:4:4 capability. *)
Definition usable_format (yuv444_encode : Z) (f : NV_ENC_BUFFER_FORMAT)
  : bool :=
  is_NV12_format f || (negb (yuv444_encode =? 0) && is_YUV444_format f).

(** A profile GUID that stands for a profile name. *)
Definition named_profile (guid : GUID) : bool :=
  negb (GUID_eqb guid NV_ENC_CODEC_PROFILE_AUTOSELECT_GUID).


(** The elements of a set of profile names, in the order of the set. *)
Definition canon_profiles (b ch h h4 m ph : bool) : list string :=
  (if b then [ "baseline"; "constrained-baseline" ] else [])
  ++ (if ch then [ "constrained-high" ] else [])
  ++ (if h then [ "high" ] else [])
  ++ (if h4 then [ "high-4:4:4" ] else [])
  ++ (if m then [ "main" ] else [])
  ++ (if ph then [ "progressive-high" ] else []).

Definition canon_formats (nv12 y444 : bool) : list string :=
  (if nv12 then [ "NV12" ] else []) ++ (if y444 then [ "Y444" ] else []).

Definition has_guid (guid : GUID) (guids : list GUID) : bool :=
  existsb (GUID_eqb guid) guids.

(** The condition under which [class_init] installs each property. *)
Definition installs (d3d11_mode : bool)
    (dev_caps : AllCaps.GstNvH264EncoderDeviceCaps) (prop_id : PropId)
  : bool :=
  match prop_id with
  | PROP_0 => false
  | PROP_ADAPTER_LUID => d3d11_mode
  | PROP_CUDA_DEVICE_ID => negb d3d11_mode
  | PROP_WEIGHTED_PRED => negb (AllCaps.weighted_prediction dev_caps =? 0)
  | PROP_B_FRAMES => 0 <? AllCaps.max_bframes dev_caps
  | PROP_VBV_BUFFER_SIZE => negb (AllCaps.custom_vbv_buf_size dev_caps =? 0)
  | PROP_RC_LOOKAHEAD | PROP_I_ADAPT => negb (AllCaps.lookahead dev_caps =? 0)
  | PROP_B_ADAPT =>
      negb (AllCaps.lookahead dev_caps =? 0)
      && (0 <? AllCaps.max_bframes dev_caps)
  | PROP_TEMPORAL_AQ => negb (AllCaps.temporal_aq dev_caps =? 0)
  | PROP_CABAC => negb (AllCaps.cabac dev_caps =? 0)
  | _ => true
  end.

(** Did the device answer the query of the capability that a property
    depends on, with a value that enables it? *)
Definition property_supported (NvEncGetEncodeCaps : NV_ENC_CAPS -> option Z)
    (d3d11_mode : bool) (prop_id : PropId) : bool :=
  let enabled to_query :=
    match NvEncGetEncodeCaps to_query with
    | Some val => negb (val =? 0)
    | None => false
    end in
  let bframes :=
    match NvEncGetEncodeCaps NV_ENC_CAPS_NUM_MAX_BFRAMES with
    | Some val => 0 <? val
    | None => false
    end in
  match prop_id with
  | PROP_0 => false
  | PROP_ADAPTER_LUID => d3d11_mode
  | PROP_CUDA_DEVICE_ID => negb d3d11_mode
  | PROP_WEIGHTED_PRED => enabled NV_ENC_CAPS_SUPPORT_WEIGHTED_PREDICTION
  | PROP_B_FRAMES => bframes
  | PROP_VBV_BUFFER_SIZE => enabled NV_ENC_CAPS_SUPPORT_CUSTOM_VBV_BUF_SIZE
  | PROP_RC_LOOKAHEAD | PROP_I_ADAPT => enabled NV_ENC_CAPS_SUPPORT_LOOKAHEAD
  | PROP_B_ADAPT => enabled NV_ENC_CAPS_SUPPORT_LOOKAHEAD && bframes
  | PROP_TEMPORAL_AQ => enabled NV_ENC_CAPS_SUPPORT_TEMPORAL_AQ
  | PROP_CABAC => enabled NV_ENC_CAPS_SUPPORT_CABAC
  | _ => true
  end.

(** ** Registration: [gst_nv_h264_encoder_register_cuda] and
       [gst_nv_h264_encoder_register_d3d11] *)

(** [g_type_from_name], on the names of the types registered so far. *)
Definition g_type_from_name (types : list string) (name : string) : bool :=
  existsb (String.eqb name) types.

(** The loop [while (g_type_from_name (type_name))] of both functions,
    with the two [g_strdup_printf] formats as functions of [index].
    [fuel] bounds the number of turns; [None] is a loop still running
    when it is used up. *)
Fixpoint type_name_loop (types : list string)
    (type_format feature_format : Z -> string) (fuel : nat) (index : Z)
    (type_name feature_name : string) : option (Z * string * string) :=
  if g_type_from_name types type_name
  then
    match fuel with
    | O => None
    | S fuel' =>
        let index := to_gint (index + 1) in
        type_name_loop types type_format feature_format fuel' index
          (type_format index) (feature_format index)
    end
  else Some (index, type_name, feature_name).

(** What a registration passes to [g_type_register_static] and
    [gst_element_register]. *)
Record Registration : Type := mkRegistration {
  type_name : string;
  feature_name : string;
  element_rank : Z;
  class_data : GstNvH264EncoderClassData
}.

(** The part that the two functions share, from the class data on. *)
Definition register_type (types : list string)
    (base_type base_feature : string)
    (type_format feature_format : Z -> string) (fuel : nat)
    (cdata : GstNvH264EncoderClassData) (rank : Z) : option Registration :=
  match type_name_loop types type_format feature_format fuel 0
          base_type base_feature with
  | None => None
  | Some (index, type_name, feature_name) =>
      Some {| type_name := type_name;
              feature_name := feature_name;
              element_rank :=
                if (0 <? rank) && negb (index =? 0) then rank - 1 else rank;
              class_data := cdata |}
  end.

(** The answers of a device to the queries of [create_class_data]. *)
Record DeviceAnswers : Type := mkDeviceAnswers {
  profile_guids : option (list GUID);
  input_formats : option (list NV_ENC_BUFFER_FORMAT);
  NvEncGetEncodeCaps : NV_ENC_CAPS -> option Z;
  g_object_get : string -> Z
}.

Section Register.

Variable G_OS_WIN32 : bool.
Variable HAVE_NVCODEC_GST_D3D11 : bool.
Variable NV_ENC_PARAMS_RC_VBR : Z.

(** [gst_nv_h264_encoder_register_cuda].  [session] is [None] when
    [NvEncOpenEncodeSessionEx] fails.  The outer [None] is a loop out of
    fuel, the inner one a return without registration. *)
Definition gst_nv_h264_encoder_register_cuda (types : list string)
    (fuel : nat) (session : option DeviceAnswers) (rank : Z)
  : option (option Registration) :=
  match session with
  | None => Some None
  | Some device =>
      match gst_nv_h264_encoder_create_class_data G_OS_WIN32
              HAVE_NVCODEC_GST_D3D11 NV_ENC_PARAMS_RC_VBR
              (profile_guids device) (input_formats device)
              (NvEncGetEncodeCaps device) (g_object_get device) false with
      | None => Some None
      | Some cdata =>
          option_map Some
            (register_type types "GstNvCudaH264Enc" "nvcudah264enc"
               (fun index =>
                  "GstNvCudaH264Device" ++ to_string index ++ "Enc")%string
               (fun index =>
                  "nvcudah264device" ++ to_string index ++ "enc")%string
               fuel cdata rank)
      end
  end.

(** [gst_nv_h264_encoder_register_d3d11], which is compiled with
    [HAVE_NVCODEC_GST_D3D11] only. *)
Definition gst_nv_h264_encoder_register_d3d11 (types : list string)
    (fuel : nat) (session : option DeviceAnswers) (rank : Z)
  : option (option Registration) :=
  match session with
  | None => Some None
  | Some device =>
      match gst_nv_h264_encoder_create_class_data G_OS_WIN32
              HAVE_NVCODEC_GST_D3D11 NV_ENC_PARAMS_RC_VBR
              (profile_guids device) (input_formats device)
              (NvEncGetEncodeCaps device) (g_object_get device) true with
      | None => Some None
      | Some cdata =>
          option_map Some
            (register_type types "GstNvD3D11H264Enc" "nvd3d11h264enc"
               (fun index =>
                  "GstNvD3D11H264Device" ++ to_string index ++ "Enc")%string
               (fun index =>
                  "nvd3d11h264device" ++ to_string index ++ "enc")%string
               fuel cdata rank)
      end
  end.

End Register.

(** *** Notions for the statements on the registration *)

(** The name tried at each turn of the loop: the plain one first, then
    the ones with a device index. *)
Definition candidate (base : string) (format : Z -> string) (index : Z)
  : string :=
  if index =? 0 then base else format index.

(** The type name and the feature name of each mode at a device index. *)
Definition type_name_at (d3d11_mode : bool) (index : Z) : string :=
  if d3d11_mode
  then candidate "GstNvD3D11H264Enc"
         (fun i => "GstNvD3D11H264Device" ++ to_string i ++ "Enc")%string
         index
  else candidate "GstNvCudaH264Enc"
         (fun i => "GstNvCudaH264Device" ++ to_string i ++ "Enc")%string
         index.

Definition feature_name_at (d3d11_mode : bool) (index : Z) : string :=
  if d3d11_mode
  then candidate "nvd3d11h264enc"
         (fun i => "nvd3d11h264device" ++ to_string i ++ "enc")%string index
  else candidate "nvcudah264enc"
         (fun i => "nvcudah264device" ++ to_string i ++ "enc")%string index.

(** A device that lists the main and high profiles and the NV12 format,
    and answers two queries of capabilities: four B-frames and CABAC. *)
Definition example_device : DeviceAnswers :=
  {| profile_guids :=
       Some [ NV_ENC_H264_PROFILE_MAIN_GUID; NV_ENC_H264_PROFILE_HIGH_GUID ];
     input_formats := Some [ NV_ENC_BUFFER_FORMAT_NV12 ];
     NvEncGetEncodeCaps :=
       fun to_query =>
         match to_query with
         | NV_ENC_CAPS_NUM_MAX_BFRAMES => Some 4
         | NV_ENC_CAPS_SUPPORT_CABAC => Some 1
         | _ => None
         end;
     g_object_get := fun _ => 0 |}.

(** * Properties *)

(** ** Setting and reading properties *)

Lemma update_field_same {A} (eqb : A -> A -> bool) get set v level self :
  eqb (get self) v = true ->
  update_field eqb get set v level self = self.
Proof. intros H. unfold update_field. now rewrite H. Qed.

(** The max-QP fields are written nowhere in [set_property]. *)
Lemma set_property_keeps_qp_max prop_id value self :
  let self' := gst_nv_h264_encoder_set_property prop_id value self in
  qp_max_i self' = qp_max_i self
  /\ qp_max_p self' = qp_max_p self
  /\ qp_max_b self' = qp_max_b self.
Proof.
  destruct prop_id; cbn;
    unfold update_boolean, update_int, update_uint, update_double, update_field;
    repeat match goal with
           | |- context [if ?c then _ else _] => destruct c
           end; auto.
Qed.

(** C1 (as the code has it): a write to qp-max-i, qp-max-p or qp-max-b
    lands in the min-QP field of the same frame type; the max-QP field
    keeps its old value, which is what a later read of the property
    returns. *)
Theorem set_property_qp_max_stores_in_qp_min :
  forall (klass : GstNvH264EncoderClass) (self : GstNvH264Encoder) (v : Z),
    let si := gst_nv_h264_encoder_set_property PROP_QP_MAX_I (GInt v) self in
    let sp := gst_nv_h264_encoder_set_property PROP_QP_MAX_P (GInt v) self in
    let sb := gst_nv_h264_encoder_set_property PROP_QP_MAX_B (GInt v) self in
    (qp_min_i si = v /\ qp_max_i si = qp_max_i self
     /\ gst_nv_h264_encoder_get_property klass PROP_QP_MAX_I si
        = Some (GInt (qp_max_i self)))
    /\ (qp_min_p sp = v /\ qp_max_p sp = qp_max_p self
        /\ gst_nv_h264_encoder_get_property klass PROP_QP_MAX_P sp
           = Some (GInt (qp_max_p self)))
    /\ (qp_min_b sb = v /\ qp_max_b sb = qp_max_b self
        /\ gst_nv_h264_encoder_get_property klass PROP_QP_MAX_B sb
           = Some (GInt (qp_max_b self))).
Proof.
  intros klass self v. cbn.
  unfold update_int, update_field; cbn.
  repeat split;
    match goal with
    | |- context [Z.eqb ?a ?b] => destruct (Z.eqb_spec a b)
    end; cbn; congruence.
Qed.

(** The default encoder after [qp-max-p = 30]: the property still reads
    [-1] and the minimum for P frames has become [30]. *)
Example qp_max_p_default_encoder :
  let self :=
    gst_nv_h264_encoder_set_property PROP_QP_MAX_P (GInt 30)
      (gst_nv_h264_encoder_init plain_class) in
  gst_nv_h264_encoder_get_property plain_class PROP_QP_MAX_P self
  = Some (GInt (-1))
  /\ gst_nv_h264_encoder_get_property plain_class PROP_QP_MIN_P self
     = Some (GInt 30).
Proof. split; reflexivity. Qed.

Lemma preset_eqb_refl p : preset_eqb p p = true.
Proof. destruct p; cbn; auto using Nat.eqb_refl. Qed.

Lemma rc_mode_eqb_refl m : rc_mode_eqb m m = true.
Proof. destruct m; cbn; auto using Nat.eqb_refl. Qed.

Lemma gdouble_eqb_refl d : d <> S754_nan -> gdouble_eqb d d = true.
Proof.
  intros Hn. unfold gdouble_eqb, SFeqb.
  destruct d as [s|s| |s m e]; try congruence; destruct s; cbn;
    rewrite ?Z.compare_refl, ?Pos.compare_refl; reflexivity.
Qed.

(** Apart from the three max-QP properties, writing back the value a
    property reads changes nothing, the dirty flags included. *)
Lemma set_property_same_value klass prop_id value self :
  reads_what_it_writes prop_id = true ->
  is_nan value = false ->
  gst_nv_h264_encoder_get_property klass prop_id self = Some value ->
  gst_nv_h264_encoder_set_property prop_id value self = self.
Proof.
  intros Hp Hn Hget.
  destruct prop_id; cbn in Hp; try discriminate; cbn in Hget;
    inversion Hget; subst; cbn;
    rewrite ?preset_eqb_refl, ?rc_mode_eqb_refl; cbn; try reflexivity;
    apply update_field_same;
    auto using Bool.eqb_reflx, Z.eqb_refl.
  apply gdouble_eqb_refl. cbn. intros E. cbn in Hn. rewrite E in Hn.
  discriminate.
Qed.

(** C10 (as the code has it): with [qp-min-p] at 20 and no dirty flag,
    writing to [qp-max-p] the value it reads, [-1], moves [qp-min-p] to
    [-1] and raises the rate-control flag, so the next check asks for a
    full reconfiguration. *)
Theorem set_property_qp_max_same_value_changes_state :
  let self := encoder_with_qp_min_p_20 in
  let self' := gst_nv_h264_encoder_set_property PROP_QP_MAX_P (GInt (-1)) self in
  gst_nv_h264_encoder_get_property plain_class PROP_QP_MAX_P self
  = Some (GInt (-1))
  /\ (init_param_updated self, rc_param_updated self, bitrate_updated self)
     = (false, false, false)
  /\ qp_min_p self = 20
  /\ qp_min_p self' = -1
  /\ rc_param_updated self' = true
  /\ snd (gst_nv_h264_encoder_check_reconfigure plain_class self' zero_config)
     = GST_NV_ENCODER_RECONFIGURE_FULL.
Proof. cbv. repeat split. Qed.

(** ** The reconfiguration check *)

Lemma to_guint_small z : 0 <= z < 2 ^ 32 -> to_guint z = z.
Proof. intros H. unfold to_guint. now apply Z.mod_small. Qed.

Lemma to_gint_small z : - 2 ^ 31 <= z < 2 ^ 31 -> to_gint z = z.
Proof.
  intros H. unfold to_gint. rewrite Z.mod_small; lia.
Qed.

Lemma clear_updated_flags self :
  init_param_updated (clear_updated self) = false
  /\ rc_param_updated (clear_updated self) = false
  /\ bitrate_updated (clear_updated self) = false.
Proof. repeat split. Qed.

(** C3: the reconfiguration check.  A raised init-param or rate-control
    flag gives the full reconfiguration; the bitrate flag alone gives the
    bitrate update on a device that can change the bitrate dynamically,
    with both rates written in bit/sec into the live rate-control
    parameters and nothing else of the configuration touched, and the full
    reconfiguration on a device that cannot; no flag gives no
    reconfiguration.  The three flags are down afterwards on every path. *)
Theorem check_reconfigure_selects :
  forall (klass : GstNvH264EncoderClass) (self : GstNvH264Encoder)
         (config : NV_ENC_CONFIG),
    bitrate_range (bitrate self) ->
    bitrate_range (max_bitrate self) ->
    let '(self', config', reconfig) :=
      gst_nv_h264_encoder_check_reconfigure klass self config in
    (init_param_updated self' = false
     /\ rc_param_updated self' = false
     /\ bitrate_updated self' = false)
    /\ (init_param_updated self = true \/ rc_param_updated self = true ->
        reconfig = GST_NV_ENCODER_RECONFIGURE_FULL /\ config' = config)
    /\ (init_param_updated self = false -> rc_param_updated self = false ->
        bitrate_updated self = true ->
        0 < dev_dyn_bitrate_change (dev_caps klass) ->
        reconfig = GST_NV_ENCODER_RECONFIGURE_BITRATE
        /\ averageBitRate (rcParams config') = bitrate self * 1024
        /\ maxBitRate (rcParams config') = max_bitrate self * 1024
        /\ config' =
           set_rcParams
             (set_maxBitRate (max_bitrate self * 1024)
                (set_averageBitRate (bitrate self * 1024) (rcParams config)))
             config)
    /\ (init_param_updated self = false -> rc_param_updated self = false ->
        bitrate_updated self = true ->
        dev_dyn_bitrate_change (dev_caps klass) <= 0 ->
        reconfig = GST_NV_ENCODER_RECONFIGURE_FULL /\ config' = config)
    /\ (init_param_updated self = false -> rc_param_updated self = false ->
        bitrate_updated self = false ->
        reconfig = GST_NV_ENCODER_RECONFIGURE_NONE /\ config' = config).
Proof.
  intros klass self config Hb Hm.
  unfold bitrate_range in Hb, Hm.
  unfold gst_nv_h264_encoder_check_reconfigure.
  destruct (init_param_updated self) eqn:Hi, (rc_param_updated self) eqn:Hr;
    cbn [orb];
    try (split; [apply clear_updated_flags|];
         repeat split; intros; try discriminate; intuition discriminate).
  destruct (bitrate_updated self) eqn:Hbr.
  - destruct (Z.ltb_spec 0 (dev_dyn_bitrate_change (dev_caps klass))).
    + split; [apply clear_updated_flags|].
      rewrite !to_guint_small by lia.
      repeat split; intros; try discriminate; try lia; intuition discriminate.
    + split; [apply clear_updated_flags|].
      repeat split; intros; try discriminate; try lia; intuition discriminate.
  - split; [apply clear_updated_flags|].
    repeat split; intros; try discriminate; intuition discriminate.
Qed.

(** C3 on the default encoder after [bitrate = 4000], on a device with
    dynamic bitrate change. *)
Lemma check_reconfigure_selects_witness :
  let self :=
    gst_nv_h264_encoder_set_property PROP_BITRATE (GUInt 4000)
      (gst_nv_h264_encoder_init plain_class) in
  bitrate_range (bitrate self)
  /\ bitrate_range (max_bitrate self)
  /\ snd (gst_nv_h264_encoder_check_reconfigure plain_class self zero_config)
     = GST_NV_ENCODER_RECONFIGURE_BITRATE.
Proof.
  intros self.
  assert (Hb : bitrate_range (bitrate self)) by (cbv; split; discriminate).
  assert (Hm : bitrate_range (max_bitrate self)) by (cbv; split; discriminate).
  split; [exact Hb|]. split; [exact Hm|].
  pose proof (check_reconfigure_selects plain_class self zero_config Hb Hm) as H.
  destruct (gst_nv_h264_encoder_check_reconfigure plain_class self zero_config)
    as [[self' config'] reconfig].
  destruct H as (_ & _ & H & _).
  apply H; reflexivity.
Defined.

(** ** The session configuration *)

(** [set_format] once the profile checks pass and the device answers the
    preset query. *)
Lemma set_format_success klass session allowed_caps info self
      ps sel bf presetCfg :
  check_downstream_profiles info (downstream_profiles_of allowed_caps)
  = inr (ps, sel, bf) ->
  session (preset self) = Some presetCfg ->
  exists p,
    let self0 := set_packetized p self in
    let self1 := fst (fst (fst (gop_structure bf self0))) in
    let gl := snd (fst (fst (gop_structure bf self0))) in
    let fip := snd (fst (gop_structure bf self0)) in
    let aborted := snd (gop_structure bf self0) in
    let guid := select_profile sel fip ps in
    let self2 :=
      set_rc_param_updated false
        (set_bitrate_updated false (set_init_param_updated false self1)) in
    gst_nv_h264_encoder_set_format klass session allowed_caps info self
    = (self2,
       inr {| config :=
                {| profileGUID := guid;
                   gopLength := gl;
                   frameIntervalP := fip;
                   rcParams := build_rc_params self1 (rcParams presetCfg);
                   h264Config :=
                     build_h264_config klass self2 guid gl
                       (h264Config presetCfg) |};
              notified := if aborted then ["bframes"] else [] |}).
Proof.
  intros Hc Hs.
  unfold gst_nv_h264_encoder_set_format, downstream_profiles_of in *.
  destruct (gst_nv_h264_encoder_get_downstream_profiles_and_format
              allowed_caps StringSet.empty) as [dp fmt].
  cbn [fst] in Hc. rewrite Hc.
  exists (match fmt with Some p => p | None => false end).
  cbn zeta.
  change (preset (set_packetized match fmt with Some p => p | None => false end
                    self)) with (preset self).
  rewrite Hs.
  destruct (gop_structure bf _) as [[[s1 gl] fip] ab]. reflexivity.
Qed.

Lemma gop_structure_cases bf self :
  let '(self', gl, fip, aborted) := gop_structure bf self in
  (gop_size self < 0 ->
   self' = self /\ gl = NVENC_INFINITE_GOPLENGTH /\ fip = 1 /\ aborted = false)
  /\ (gop_size self = 0 ->
      self' = self /\ gl = 1 /\ fip = 0 /\ aborted = false)
  /\ (0 < gop_size self ->
      gl = to_guint (gop_size self)
      /\ fip = to_gint (to_guint (bframes self' + 1))
      /\ aborted = (0 <? bframes self) && negb bf
      /\ self' = if aborted then set_bframes 0 self else self).
Proof.
  unfold gop_structure.
  destruct (Z.ltb_spec (gop_size self) 0); [|destruct (Z.ltb_spec 0 (gop_size self))];
    repeat split; intros; auto; lia.
Qed.

(** C4: the GOP structure of the built configuration.  A negative GOP size
    gives the infinite GOP length with [frameIntervalP = 1]; zero gives
    [gopLength = 1] with [frameIntervalP = 0]; a positive one gives
    [gopLength] equal to it and [frameIntervalP] one more than the B-frame
    count the encoder holds once the configuration is built. *)
Theorem set_format_gop_structure :
  forall klass session allowed_caps info self ps sel bf presetCfg,
    check_downstream_profiles info (downstream_profiles_of allowed_caps)
    = inr (ps, sel, bf) ->
    session (preset self) = Some presetCfg ->
    - 2 ^ 31 <= gop_size self <= G_MAXINT ->
    0 <= bframes self < G_MAXINT ->
    exists self' cfg,
      gst_nv_h264_encoder_set_format klass session allowed_caps info self
      = (self', inr cfg)
      /\ (gop_size self < 0 ->
          gopLength (config cfg) = NVENC_INFINITE_GOPLENGTH
          /\ frameIntervalP (config cfg) = 1)
      /\ (gop_size self = 0 ->
          gopLength (config cfg) = 1 /\ frameIntervalP (config cfg) = 0)
      /\ (0 < gop_size self ->
          gopLength (config cfg) = gop_size self
          /\ frameIntervalP (config cfg) = bframes self' + 1
          /\ (bframes self' = bframes self \/ bframes self' = 0)).
Proof.
  intros klass session allowed_caps info self ps sel bf presetCfg
         Hc Hs Hg Hb.
  destruct (set_format_success klass session allowed_caps info self
              ps sel bf presetCfg Hc Hs) as [p Heq].
  cbn zeta in Heq. rewrite Heq. clear Heq.
  eexists. eexists. split; [reflexivity|].
  pose proof (gop_structure_cases bf (set_packetized p self)) as H.
  destruct (gop_structure bf (set_packetized p self)) as [[[s1 gl] fip] ab].
  cbn [fst snd config gopLength frameIntervalP].
  change (gop_size (set_packetized p self)) with (gop_size self) in H.
  change (bframes (set_packetized p self)) with (bframes self) in H.
  unfold G_MAXINT in *.
  destruct H as (Hneg & Hzero & Hpos).
  split; [|split].
  - intros Hlt. destruct (Hneg Hlt) as (_ & -> & -> & _). auto.
  - intros Hz. destruct (Hzero Hz) as (_ & -> & -> & _). auto.
  - intros Hgt. destruct (Hpos Hgt) as (-> & -> & Hab & Hs1).
    assert (Hb1 : bframes s1 = bframes self \/ bframes s1 = 0).
    { rewrite Hs1. destruct ab; cbn; auto. }
    change (bframes (set_rc_param_updated false
              (set_bitrate_updated false (set_init_param_updated false s1))))
      with (bframes s1).
    split; [apply to_guint_small; lia|].
    split; [|exact Hb1].
    rewrite to_guint_small by lia. apply to_gint_small. lia.
Qed.

(** C4 on the default encoder (GOP size 75) with three B-frames and "main"
    downstream. *)
Lemma set_format_gop_structure_witness :
  let self :=
    gst_nv_h264_encoder_set_property PROP_B_FRAMES (GUInt 3)
      (gst_nv_h264_encoder_init plain_class) in
  exists self' cfg,
    gst_nv_h264_encoder_set_format plain_class plain_session
      (caps_with_profiles ["main"] "byte-stream") nv12_progressive self
    = (self', inr cfg)
    /\ gopLength (config cfg) = 75
    /\ frameIntervalP (config cfg) = 4.
Proof.
  intros self.
  destruct (set_format_gop_structure plain_class plain_session
              (caps_with_profiles ["main"] "byte-stream") nv12_progressive
              self
              (StringSet.add "main" StringSet.empty)
              NV_ENC_CODEC_PROFILE_AUTOSELECT_GUID true zero_config)
    as (self' & cfg & Heq & _ & _ & Hpos).
  - reflexivity.
  - reflexivity.
  - cbv. split; discriminate.
  - cbv. split; [discriminate | reflexivity].
  - exists self', cfg. split; [exact Heq|].
    destruct Hpos as (Hgl & Hfip & Hbf); [reflexivity|].
    split; [exact Hgl|].
    rewrite Hfip.
    assert (Hself' : bframes self' = 3).
    { pose proof (f_equal fst Heq) as E. cbn in E. rewrite <- E. reflexivity. }
    rewrite Hself'. reflexivity.
Defined.

Lemma fold_left_raise (P : string -> bool) l acc :
  fold_left (fun a x => if P x then true else a) l acc = acc || existsb P l.
Proof.
  revert acc. induction l as [|x l IH]; intros acc; cbn.
  - now rewrite orb_false_r.
  - rewrite IH. destruct (P x), acc; reflexivity.
Qed.

Lemma any_profile_supports_bframe_spec s :
  any_profile_supports_bframe s = true <->
  exists p, StringSet.In p s /\ profile_supports_bframe p = true.
Proof.
  unfold any_profile_supports_bframe.
  rewrite StringSet.fold_spec.
  change (fold_left (Basics.flip
            (fun iter acc => if profile_supports_bframe iter then true else acc))
            (StringSet.elements s) false)
    with (fold_left (fun a x => if profile_supports_bframe x then true else a)
            (StringSet.elements s) false).
  rewrite fold_left_raise. cbn [orb].
  rewrite existsb_exists.
  split; intros (p & Hin & Hp); exists p; split; auto.
  - apply StringSet.elements_spec1. apply InA_alt. now exists p.
  - apply StringSet.elements_spec1 in Hin. apply InA_alt in Hin.
    destruct Hin as (y & -> & Hy). exact Hy.
Qed.

(** Progressive input that is not 4:4:4 passes the profile checks as soon
    as downstream names a profile. *)
Lemma check_downstream_profiles_progressive info dp :
  GST_VIDEO_INFO_IS_INTERLACED info = false ->
  is_Y444 (info_format info) = false ->
  StringSet.is_empty dp = false ->
  check_downstream_profiles info dp
  = inr (dp, NV_ENC_CODEC_PROFILE_AUTOSELECT_GUID,
         any_profile_supports_bframe dp).
Proof.
  intros Hi Hf He. unfold check_downstream_profiles.
  now rewrite He, Hi, Hf.
Qed.

Lemma check_downstream_profiles_not_444 info dp ps sel bf :
  is_Y444 (info_format info) = false ->
  check_downstream_profiles info dp = inr (ps, sel, bf) ->
  sel = NV_ENC_CODEC_PROFILE_AUTOSELECT_GUID
  /\ bf = any_profile_supports_bframe ps.
Proof.
  unfold check_downstream_profiles. intros Hf.
  rewrite Hf.
  destruct (StringSet.is_empty dp); [discriminate|].
  destruct (GST_VIDEO_INFO_IS_INTERLACED info && _); [discriminate|].
  intros H. inversion H. auto.
Qed.

(** C5: B-frames asked for with a positive GOP size while no profile left
    downstream supports them.  The built configuration has
    [frameIntervalP = 1], the encoder's B-frame count is back at 0, which
    is what the property reads afterwards, and the "bframes" property is
    notified. *)
Theorem set_format_resets_bframes :
  forall klass session allowed_caps info self ps sel bf presetCfg,
    check_downstream_profiles info (downstream_profiles_of allowed_caps)
    = inr (ps, sel, bf) ->
    session (preset self) = Some presetCfg ->
    is_Y444 (info_format info) = false ->
    (forall p, StringSet.In p ps -> profile_supports_bframe p = false) ->
    0 < bframes self ->
    0 < gop_size self ->
    exists self' cfg,
      gst_nv_h264_encoder_set_format klass session allowed_caps info self
      = (self', inr cfg)
      /\ bframes self' = 0
      /\ gst_nv_h264_encoder_get_property klass PROP_B_FRAMES self'
         = Some (GUInt 0)
      /\ frameIntervalP (config cfg) = 1
      /\ notified cfg = ["bframes"].
Proof.
  intros klass session allowed_caps info self ps sel bf presetCfg
         Hc Hs Hf Hno Hb Hg.
  assert (Hbf : bf = false).
  { destruct (check_downstream_profiles_not_444 _ _ _ _ _ Hf Hc) as [_ ->].
    destruct (any_profile_supports_bframe ps) eqn:E; [|reflexivity].
    apply any_profile_supports_bframe_spec in E.
    destruct E as (p & Hin & Hp). rewrite (Hno p Hin) in Hp. discriminate. }
  subst bf.
  destruct (set_format_success klass session allowed_caps info self
              ps sel false presetCfg Hc Hs) as [p Heq].
  cbn zeta in Heq. rewrite Heq. clear Heq.
  eexists. eexists. split; [reflexivity|].
  unfold gop_structure.
  change (gop_size (set_packetized p self)) with (gop_size self).
  change (bframes (set_packetized p self)) with (bframes self).
  destruct (Z.ltb_spec (gop_size self) 0); [lia|].
  destruct (Z.ltb_spec 0 (gop_size self)); [|lia].
  destruct (Z.ltb_spec 0 (bframes self)); [|lia].
  cbn. repeat split.
Qed.

(** C5 on the scenario of the spec: two B-frames, GOP size 30, "baseline"
    alone downstream. *)
Lemma set_format_resets_bframes_witness :
  let self :=
    gst_nv_h264_encoder_set_property PROP_GOP_SIZE (GInt 30)
      (gst_nv_h264_encoder_set_property PROP_B_FRAMES (GUInt 2)
         (gst_nv_h264_encoder_init plain_class)) in
  exists self' cfg,
    gst_nv_h264_encoder_set_format plain_class plain_session
      (caps_with_profiles ["baseline"] "byte-stream") nv12_progressive self
    = (self', inr cfg)
    /\ bframes self' = 0
    /\ gst_nv_h264_encoder_get_property plain_class PROP_B_FRAMES self'
       = Some (GUInt 0)
    /\ frameIntervalP (config cfg) = 1
    /\ notified cfg = ["bframes"].
Proof.
  intros self.
  apply (set_format_resets_bframes plain_class plain_session
           (caps_with_profiles ["baseline"] "byte-stream") nv12_progressive
           self (StringSet.add "baseline" StringSet.empty)
           NV_ENC_CODEC_PROFILE_AUTOSELECT_GUID false zero_config).
  - reflexivity.
  - reflexivity.
  - reflexivity.
  - intros p Hin. apply StringSet.add_spec in Hin.
    destruct Hin as [-> | Hin]; [reflexivity|].
    apply StringSet.empty_spec in Hin. contradiction.
  - reflexivity.
  - reflexivity.
Defined.

Lemma qp_cascade_in_range i p b :
  0 <= i -> qp_range i -> qp_range p -> qp_range b ->
  let qp := qp_cascade i p b in
  qpIntra qp = i
  /\ (p = -1 -> qpInterP qp = i)
  /\ (0 <= p -> qpInterP qp = p)
  /\ (b = -1 -> qpInterB qp = qpInterP qp)
  /\ (0 <= b -> qpInterB qp = b).
Proof.
  unfold qp_range, qp_cascade. intros Hi0 Hi Hp Hb. cbn.
  destruct (Z.leb_spec 0 p), (Z.leb_spec 0 b);
    rewrite ?to_guint_small by lia; repeat split; intros; lia.
Qed.

(** C6: the cascading defaults of the quantizer bounds.  When the bound for
    I frames is set, the configuration takes it for I frames; the bound for
    P frames is the property when it is set and the I bound when it is
    [-1]; the bound for B frames is the property when it is set and the
    bound just given to P frames when it is [-1].  The rule is the same
    for the minimum and for the maximum bounds. *)
Theorem set_format_qp_cascade :
  forall klass session allowed_caps info self ps sel bf presetCfg,
    check_downstream_profiles info (downstream_profiles_of allowed_caps)
    = inr (ps, sel, bf) ->
    session (preset self) = Some presetCfg ->
    qp_range (qp_min_i self) -> qp_range (qp_min_p self) ->
    qp_range (qp_min_b self) ->
    qp_range (qp_max_i self) -> qp_range (qp_max_p self) ->
    qp_range (qp_max_b self) ->
    exists self' cfg,
      gst_nv_h264_encoder_set_format klass session allowed_caps info self
      = (self', inr cfg)
      /\ (0 <= qp_min_i self ->
          let rc := rcParams (config cfg) in
          enableMinQP rc = true
          /\ qpIntra (minQP rc) = qp_min_i self
          /\ (qp_min_p self = -1 -> qpInterP (minQP rc) = qp_min_i self)
          /\ (0 <= qp_min_p self -> qpInterP (minQP rc) = qp_min_p self)
          /\ (qp_min_b self = -1 -> qpInterB (minQP rc) = qpInterP (minQP rc))
          /\ (0 <= qp_min_b self -> qpInterB (minQP rc) = qp_min_b self))
      /\ (0 <= qp_max_i self ->
          let rc := rcParams (config cfg) in
          enableMaxQP rc = true
          /\ qpIntra (maxQP rc) = qp_max_i self
          /\ (qp_max_p self = -1 -> qpInterP (maxQP rc) = qp_max_i self)
          /\ (0 <= qp_max_p self -> qpInterP (maxQP rc) = qp_max_p self)
          /\ (qp_max_b self = -1 -> qpInterB (maxQP rc) = qpInterP (maxQP rc))
          /\ (0 <= qp_max_b self -> qpInterB (maxQP rc) = qp_max_b self)).
Proof.
  intros klass session allowed_caps info self ps sel bf presetCfg
         Hc Hs Hmi Hmp Hmb Hxi Hxp Hxb.
  destruct (set_format_success klass session allowed_caps info self
              ps sel bf presetCfg Hc Hs) as [p Heq].
  cbn zeta in Heq. rewrite Heq. clear Heq.
  eexists. eexists. split; [reflexivity|].
  cbn [config rcParams].
  set (s0 := set_packetized p self).
  assert (Hs1 : forall f : GstNvH264Encoder -> Z,
             (forall v s, f (set_bframes v s) = f s) ->
             f (fst (fst (fst (gop_structure bf s0)))) = f s0).
  { intros f Hf. unfold gop_structure.
    destruct (gop_size s0 <? 0); [reflexivity|].
    destruct (0 <? gop_size s0); [|reflexivity].
    cbn [fst]. destruct ((0 <? bframes s0) && negb bf); [apply Hf|];
      reflexivity. }
  set (s1 := fst (fst (fst (gop_structure bf s0)))) in *.
  assert (E1 : qp_min_i s1 = qp_min_i self)
    by (now rewrite (Hs1 qp_min_i)).
  assert (E2 : qp_min_p s1 = qp_min_p self)
    by (now rewrite (Hs1 qp_min_p)).
  assert (E3 : qp_min_b s1 = qp_min_b self)
    by (now rewrite (Hs1 qp_min_b)).
  assert (E4 : qp_max_i s1 = qp_max_i self)
    by (now rewrite (Hs1 qp_max_i)).
  assert (E5 : qp_max_p s1 = qp_max_p self)
    by (now rewrite (Hs1 qp_max_p)).
  assert (E6 : qp_max_b s1 = qp_max_b self)
    by (now rewrite (Hs1 qp_max_b)).
  unfold build_rc_params. cbn [enableMinQP enableMaxQP minQP maxQP].
  rewrite E1, E2, E3, E4, E5, E6.
  split.
  - intros Hi. cbn zeta.
    destruct (Z.leb_spec 0 (qp_min_i self)); [|lia].
    split; [reflexivity|].
    apply qp_cascade_in_range; assumption.
  - intros Hi. cbn zeta.
    destruct (Z.leb_spec 0 (qp_max_i self)); [|lia].
    cbn [orb].
    split; [reflexivity|].
    match goal with
    | |- context [if ?c then _ else _] => destruct c
    end; apply qp_cascade_in_range; assumption.
Qed.

(** C6 with the I bounds alone set: the P and B bounds of both groups take
    the I bound. *)
Lemma set_format_qp_cascade_witness :
  exists self' cfg,
    gst_nv_h264_encoder_set_format plain_class plain_session
      (caps_with_profiles ["main"] "byte-stream") nv12_progressive
      encoder_with_i_bounds
    = (self', inr cfg)
    /\ minQP (rcParams (config cfg))
       = {| qpInterP := 10; qpInterB := 10; qpIntra := 10 |}
    /\ maxQP (rcParams (config cfg))
       = {| qpInterP := 40; qpInterB := 40; qpIntra := 40 |}.
Proof.
  destruct (set_format_qp_cascade plain_class plain_session
              (caps_with_profiles ["main"] "byte-stream") nv12_progressive
              encoder_with_i_bounds
              (StringSet.add "main" StringSet.empty)
              NV_ENC_CODEC_PROFILE_AUTOSELECT_GUID true zero_config)
    as (self' & cfg & Heq & Hmin & Hmax);
    try reflexivity; try (cbv; split; discriminate).
  exists self', cfg. split; [exact Heq|].
  destruct Hmin as (_ & Hi & Hp & _ & Hb & _); [cbv; discriminate|].
  destruct Hmax as (_ & Hi' & Hp' & _ & Hb' & _); [cbv; discriminate|].
  specialize (Hp eq_refl). specialize (Hb eq_refl).
  specialize (Hp' eq_refl). specialize (Hb' eq_refl).
  cbn zeta in *.
  destruct (minQP (rcParams (config cfg))) as [mp mb mi].
  destruct (maxQP (rcParams (config cfg))) as [xp xb xi].
  cbn in *. subst. split; reflexivity.
Defined.

(** ** Profiles *)

Lemma erase_progressive_profiles_spec p s :
  StringSet.In p (erase_progressive_profiles s) <->
  StringSet.In p s
  /\ p <> "progressive-high" /\ p <> "constrained-high"
  /\ p <> "constrained-baseline" /\ p <> "baseline".
Proof.
  unfold erase_progressive_profiles.
  rewrite !StringSet.remove_spec. tauto.
Qed.

Lemma is_empty_false_of_In p s :
  StringSet.In p s -> StringSet.is_empty s = false.
Proof.
  intros Hin. destruct (StringSet.is_empty s) eqn:E; [|reflexivity].
  apply StringSet.is_empty_spec in E. exfalso. exact (E p Hin).
Qed.

Lemma mem_false_iff p s : StringSet.mem p s = false <-> ~ StringSet.In p s.
Proof.
  rewrite <- StringSet.mem_spec. destruct (StringSet.mem p s); split;
    congruence.
Qed.

(** With 4:4:4 input, the profile checks pass exactly when "high-4:4:4" is
    offered. *)
Lemma check_downstream_profiles_444 info dp :
  is_Y444 (info_format info) = true ->
  (StringSet.In "high-4:4:4" dp ->
   exists ps,
     check_downstream_profiles info dp
     = inr (ps, NV_ENC_H264_PROFILE_HIGH_444_GUID, true))
  /\ (~ StringSet.In "high-4:4:4" dp ->
      exists f,
        check_downstream_profiles info dp = inl f
        /\ error_class f = UnsupportedFormat).
Proof.
  intros Hf. unfold check_downstream_profiles. rewrite Hf. split.
  - intros Hin. rewrite (is_empty_false_of_In _ _ Hin).
    destruct (GST_VIDEO_INFO_IS_INTERLACED info); cbn [andb].
    + assert (Hin' : StringSet.In "high-4:4:4" (erase_progressive_profiles dp)).
      { apply erase_progressive_profiles_spec.
        repeat split; [exact Hin | discriminate ..]. }
      rewrite (is_empty_false_of_In _ _ Hin').
      apply StringSet.mem_spec in Hin'. rewrite Hin'. cbn. eauto.
    + apply StringSet.mem_spec in Hin. rewrite Hin. cbn. eauto.
  - intros Hnin.
    destruct (StringSet.is_empty dp); [eexists; split; reflexivity|].
    destruct (GST_VIDEO_INFO_IS_INTERLACED info); cbn [andb].
    + destruct (StringSet.is_empty _); [eexists; split; reflexivity|].
      assert (Hm : StringSet.mem "high-4:4:4" (erase_progressive_profiles dp)
                   = false).
      { apply mem_false_iff. intros H.
        apply erase_progressive_profiles_spec in H. tauto. }
      rewrite Hm. cbn. eexists; split; reflexivity.
    + apply mem_false_iff in Hnin. rewrite Hnin. cbn.
      eexists; split; reflexivity.
Qed.

(** C9: 4:4:4 input, the device answering the preset query.  [set_format]
    succeeds exactly when "high-4:4:4" is offered downstream.  When it is,
    the configuration carries the 4:4:4 profile and downstream counts as
    taking B-frames, so the B-frame count is kept and nothing is notified;
    when it is not, [set_format] fails with an error of the class
    [UnsupportedFormat]. *)
Theorem set_format_y444 :
  forall klass session allowed_caps info self presetCfg,
    info_format info = GST_VIDEO_FORMAT_Y444 ->
    session (preset self) = Some presetCfg ->
    let r :=
      gst_nv_h264_encoder_set_format klass session allowed_caps info self in
    ((exists cfg, snd r = inr cfg) <->
     StringSet.In "high-4:4:4" (downstream_profiles_of allowed_caps))
    /\ (StringSet.In "high-4:4:4" (downstream_profiles_of allowed_caps) ->
        exists cfg,
          snd r = inr cfg
          /\ profileGUID (config cfg) = NV_ENC_H264_PROFILE_HIGH_444_GUID
          /\ (exists ps,
                check_downstream_profiles info
                  (downstream_profiles_of allowed_caps)
                = inr (ps, NV_ENC_H264_PROFILE_HIGH_444_GUID, true))
          /\ bframes (fst r) = bframes self
          /\ notified cfg = [])
    /\ (~ StringSet.In "high-4:4:4" (downstream_profiles_of allowed_caps) ->
        exists f, snd r = inl f /\ error_class f = UnsupportedFormat).
Proof.
  intros klass session allowed_caps info self presetCfg Hf Hs r.
  assert (Hy : is_Y444 (info_format info) = true) by (now rewrite Hf).
  destruct (check_downstream_profiles_444 info
              (downstream_profiles_of allowed_caps) Hy) as [Hyes Hno].
  assert (Hsucc :
            StringSet.In "high-4:4:4" (downstream_profiles_of allowed_caps) ->
            exists cfg,
              snd r = inr cfg
              /\ profileGUID (config cfg) = NV_ENC_H264_PROFILE_HIGH_444_GUID
              /\ (exists ps,
                    check_downstream_profiles info
                      (downstream_profiles_of allowed_caps)
                    = inr (ps, NV_ENC_H264_PROFILE_HIGH_444_GUID, true))
              /\ bframes (fst r) = bframes self
              /\ notified cfg = []).
  { intros Hin. destruct (Hyes Hin) as [ps Hc].
    destruct (set_format_success klass session allowed_caps info self
                ps _ true presetCfg Hc Hs) as [p Heq].
    cbn zeta in Heq. subst r. rewrite Heq. clear Heq.
    eexists. split; [reflexivity|].
    cbn [fst snd config profileGUID notified].
    split; [|split; [eauto|]].
    - unfold select_profile. reflexivity.
    - unfold gop_structure.
      destruct (gop_size _ <? 0); [split; reflexivity|].
      destruct (0 <? gop_size _); [|split; reflexivity].
      cbn [negb]. rewrite andb_false_r. split; reflexivity. }
  assert (Hfail :
            ~ StringSet.In "high-4:4:4" (downstream_profiles_of allowed_caps) ->
            exists f, snd r = inl f /\ error_class f = UnsupportedFormat).
  { intros Hnin. destruct (Hno Hnin) as (f & Hc & Hcls).
    exists f. split; [|exact Hcls].
    subst r. unfold gst_nv_h264_encoder_set_format.
    unfold downstream_profiles_of in Hc.
    destruct (gst_nv_h264_encoder_get_downstream_profiles_and_format
                allowed_caps StringSet.empty) as [dp fmt].
    cbn [fst] in Hc. rewrite Hc. reflexivity. }
  split; [|split; assumption].
  split.
  - intros [cfg Hcfg].
    destruct (StringSet.mem "high-4:4:4"
                (downstream_profiles_of allowed_caps)) eqn:E.
    + now apply StringSet.mem_spec.
    + apply mem_false_iff in E.
      destruct (Hfail E) as (f & Hr & _). congruence.
  - intros Hin. destruct (Hsucc Hin) as (cfg & Hcfg & _). eauto.
Qed.

(** C9 on the two scenarios of the spec: "high-4:4:4" alone downstream,
    then "baseline" alone. *)
Lemma set_format_y444_witness :
  let self := gst_nv_h264_encoder_init plain_class in
  (exists cfg,
      snd (gst_nv_h264_encoder_set_format plain_class plain_session
             (caps_with_profiles ["high-4:4:4"] "byte-stream")
             y444_progressive self)
      = inr cfg
      /\ profileGUID (config cfg) = NV_ENC_H264_PROFILE_HIGH_444_GUID)
  /\ (exists f,
         snd (gst_nv_h264_encoder_set_format plain_class plain_session
                (caps_with_profiles ["baseline"] "byte-stream")
                y444_progressive self)
         = inl f
         /\ error_class f = UnsupportedFormat).
Proof.
  intros self. split.
  - destruct (set_format_y444 plain_class plain_session
                (caps_with_profiles ["high-4:4:4"] "byte-stream")
                y444_progressive self zero_config eq_refl eq_refl)
      as (_ & Hyes & _).
    destruct Hyes as (cfg & Hcfg & Hguid & _).
    + apply StringSet.mem_spec. reflexivity.
    + exists cfg. split; assumption.
  - destruct (set_format_y444 plain_class plain_session
                (caps_with_profiles ["baseline"] "byte-stream")
                y444_progressive self zero_config eq_refl eq_refl)
      as (_ & _ & Hno).
    apply Hno. intros Hin. apply StringSet.mem_spec in Hin. discriminate.
Defined.

(** The profile names the encoder knows, in the order of the set. *)
Example profile_names_in_set_order :
  StringSet.elements
    (fold_right StringSet.add StringSet.empty spec_priority_order)
  = [ "baseline"; "constrained-baseline"; "constrained-high"; "high";
      "high-4:4:4"; "main"; "progressive-high" ].
Proof. reflexivity. Qed.

(** C2 as the spec states it fails: with "main" and "baseline" downstream,
    NV12 input and no B-frames, the order of the spec picks "main", and the
    encoder configures the baseline profile. *)
Lemma set_format_picks_baseline_before_main :
  let caps := caps_with_profiles ["main"; "baseline"] "byte-stream" in
  let r :=
    gst_nv_h264_encoder_set_format plain_class plain_session caps
      nv12_progressive (gst_nv_h264_encoder_init plain_class) in
  spec_priority_pick (downstream_profiles_of caps) = Some "main"
  /\ guid_of_profile_name "main" = NV_ENC_H264_PROFILE_MAIN_GUID
  /\ exists cfg,
       snd r = inr cfg
       /\ frameIntervalP (config cfg) = 1
       /\ profileGUID (config cfg) = NV_ENC_H264_PROFILE_BASELINE_GUID
       /\ profileGUID (config cfg) <> NV_ENC_H264_PROFILE_MAIN_GUID.
Proof.
  cbv zeta. split; [reflexivity|]. split; [reflexivity|].
  eexists. split; [reflexivity|].
  split; [reflexivity|]. split; [reflexivity|]. discriminate.
Qed.

Lemma check_downstream_profiles_nonempty info dp ps sel bf :
  check_downstream_profiles info dp = inr (ps, sel, bf) ->
  StringSet.is_empty ps = false.
Proof.
  unfold check_downstream_profiles.
  destruct (StringSet.is_empty dp) eqn:Edp; [discriminate|].
  destruct (GST_VIDEO_INFO_IS_INTERLACED info); cbn [andb].
  - destruct (StringSet.is_empty (erase_progressive_profiles dp)) eqn:Ef;
      [discriminate|].
    destruct (is_Y444 _); [destruct (negb _); [discriminate|]|];
      intros H; inversion H; subst; assumption.
  - destruct (is_Y444 _); [destruct (negb _); [discriminate|]|];
      intros H; inversion H; subst; assumption.
Qed.

Lemma min_elt_first s :
  StringSet.is_empty s = false ->
  exists first,
    StringSet.min_elt s = Some first
    /\ StringSet.In first s
    /\ (forall p, StringSet.In p s -> p = first \/ String_as_OT.lt first p).
Proof.
  intros Hne. destruct (StringSet.min_elt s) as [first|] eqn:Hmin.
  - exists first. split; [reflexivity|].
    split; [now apply StringSet.min_elt_spec1|].
    intros p Hp.
    pose proof (StringSet.min_elt_spec2 Hmin Hp) as Hnlt.
    destruct (String_as_OT.compare_spec p first) as [Heq|Hlt|Hgt]; auto.
    contradiction.
  - apply StringSet.min_elt_spec3 in Hmin.
    apply StringSet.is_empty_spec in Hmin. congruence.
Qed.

Lemma first_profile_guid_cases first :
  let guid := first_profile_guid NV_ENC_CODEC_PROFILE_AUTOSELECT_GUID first in
  (first = "baseline" \/ first = "constrained-baseline" ->
   guid = NV_ENC_H264_PROFILE_BASELINE_GUID)
  /\ (first = "main" -> guid = NV_ENC_H264_PROFILE_MAIN_GUID)
  /\ (first = "progressive-high" ->
      guid = NV_ENC_H264_PROFILE_PROGRESSIVE_HIGH_GUID)
  /\ (first = "constrained-high" ->
      guid = NV_ENC_H264_PROFILE_CONSTRAINED_HIGH_GUID)
  /\ (first <> "baseline" -> first <> "constrained-baseline" ->
      first <> "main" -> first <> "progressive-high" ->
      first <> "constrained-high" ->
      guid = NV_ENC_CODEC_PROFILE_AUTOSELECT_GUID).
Proof.
  cbv zeta. unfold first_profile_guid.
  repeat split.
  - intros [-> | ->]; reflexivity.
  - intros ->; reflexivity.
  - intros ->; reflexivity.
  - intros ->; reflexivity.
  - intros H1 H2 H3 H4 H5.
    apply String.eqb_neq in H1, H2, H3, H4, H5.
    now rewrite H1, H2, H3, H4, H5.
Qed.

(** C2 (amended): input that is not 4:4:4 and [frameIntervalP] not above 1.
    The profile follows from the first name of the downstream set in the
    order of the set itself, which is the ascending byte-wise order of the
    names: "baseline" or "constrained-baseline" gives the baseline profile,
    "main" the main profile, "progressive-high" and "constrained-high"
    their own profile; with any other first name the profile stays on
    auto-select. *)
Theorem set_format_picks_first_of_set :
  forall klass session allowed_caps info self ps sel bf presetCfg,
    check_downstream_profiles info (downstream_profiles_of allowed_caps)
    = inr (ps, sel, bf) ->
    session (preset self) = Some presetCfg ->
    is_Y444 (info_format info) = false ->
    exists self' cfg first,
      gst_nv_h264_encoder_set_format klass session allowed_caps info self
      = (self', inr cfg)
      /\ StringSet.In first ps
      /\ (forall p, StringSet.In p ps -> p = first \/ String_as_OT.lt first p)
      /\ (frameIntervalP (config cfg) <= 1 ->
          let guid := profileGUID (config cfg) in
          (first = "baseline" \/ first = "constrained-baseline" ->
           guid = NV_ENC_H264_PROFILE_BASELINE_GUID)
          /\ (first = "main" -> guid = NV_ENC_H264_PROFILE_MAIN_GUID)
          /\ (first = "progressive-high" ->
              guid = NV_ENC_H264_PROFILE_PROGRESSIVE_HIGH_GUID)
          /\ (first = "constrained-high" ->
              guid = NV_ENC_H264_PROFILE_CONSTRAINED_HIGH_GUID)
          /\ (first <> "baseline" -> first <> "constrained-baseline" ->
              first <> "main" -> first <> "progressive-high" ->
              first <> "constrained-high" ->
              guid = NV_ENC_CODEC_PROFILE_AUTOSELECT_GUID)).
Proof.
  intros klass session allowed_caps info self ps sel bf presetCfg Hc Hs Hf.
  destruct (check_downstream_profiles_not_444 _ _ _ _ _ Hf Hc) as [-> _].
  destruct (min_elt_first ps (check_downstream_profiles_nonempty _ _ _ _ _ Hc))
    as (first & Hmin & Hin & Hleast).
  destruct (set_format_success klass session allowed_caps info self
              ps _ bf presetCfg Hc Hs) as [p Heq].
  cbn zeta in Heq. rewrite Heq. clear Heq.
  eexists. eexists. exists first. split; [reflexivity|].
  split; [exact Hin|]. split; [exact Hleast|].
  cbn [config frameIntervalP profileGUID]. intros Hfip.
  unfold select_profile.
  destruct (Z.ltb_spec 1 (snd (fst (gop_structure bf (set_packetized p self)))));
    [lia|].
  cbn [GUID_eqb andb]. rewrite Hmin.
  apply first_profile_guid_cases.
Qed.

(** C2 (amended) on "main" and "baseline" downstream: "baseline" is the
    first name of the set and the baseline profile is configured. *)
Lemma set_format_picks_first_of_set_witness :
  exists self' cfg,
    gst_nv_h264_encoder_set_format plain_class plain_session
      (caps_with_profiles ["main"; "baseline"] "byte-stream")
      nv12_progressive (gst_nv_h264_encoder_init plain_class)
    = (self', inr cfg)
    /\ profileGUID (config cfg) = NV_ENC_H264_PROFILE_BASELINE_GUID.
Proof.
  destruct (set_format_picks_first_of_set plain_class plain_session
              (caps_with_profiles ["main"; "baseline"] "byte-stream")
              nv12_progressive (gst_nv_h264_encoder_init plain_class)
              (StringSet.add "baseline" (StringSet.add "main" StringSet.empty))
              NV_ENC_CODEC_PROFILE_AUTOSELECT_GUID true zero_config
              eq_refl eq_refl eq_refl)
    as (self' & cfg & first & Heq & Hin & Hleast & Hguid).
  exists self', cfg. split; [exact Heq|].
  assert (Hfirst : first = "baseline").
  { assert (Hb : StringSet.In "baseline"
                   (StringSet.add "baseline"
                      (StringSet.add "main" StringSet.empty)))
      by (apply StringSet.mem_spec; reflexivity).
    apply StringSet.mem_spec in Hin.
    destruct (Hleast "baseline" Hb) as [E | Hlt]; [now symmetry|].
    apply StringSet.mem_spec in Hin.
    apply StringSet.add_spec in Hin. destruct Hin as [E | Hin]; [exact E|].
    apply StringSet.add_spec in Hin. destruct Hin as [E | Hin].
    - subst first. discriminate Hlt.
    - apply StringSet.empty_spec in Hin. contradiction. }
  apply Hguid.
  - pose proof (f_equal (fun r => match snd r with
                                  | inr c => frameIntervalP (config c)
                                  | inl _ => 0
                                  end) Heq) as E.
    cbn in E. rewrite <- E. lia.
  - left. exact Hfirst.
Defined.

(** ** The constant quality *)

(** *** Multiplication of a double by 256 is exact *)

Lemma iter_pos_nat {A} (f : A -> A) p x :
  iter_pos f p x = Nat.iter (Pos.to_nat p) f x.
Proof.
  revert x. induction p as [p IH|p IH|]; intros x; cbn [iter_pos].
  - rewrite !IH, Pos2Nat.inj_xI. cbn [Nat.iter Nat.mul].
    rewrite Nat.add_0_r, <- Nat.iter_add, <- Nat.iter_succ_r. reflexivity.
  - rewrite !IH, Pos2Nat.inj_xO. cbn [Nat.mul].
    rewrite Nat.add_0_r, <- Nat.iter_add. reflexivity.
  - reflexivity.
Qed.

Lemma iter_shr_1_xO k m :
  Nat.iter k shr_1
    {| shr_m := Z.pos (Nat.iter k xO m); shr_r := false; shr_s := false |}
  = {| shr_m := Z.pos m; shr_r := false; shr_s := false |}.
Proof.
  induction k as [|k IH]; [reflexivity|].
  rewrite Nat.iter_succ_r.
  change (Nat.iter (S k) xO m) with (xO (Nat.iter k xO m)).
  cbn [shr_1 orb]. exact IH.
Qed.

Lemma Zpos_iter_xO k m : Z.pos (Nat.iter k xO m) = Z.pos m * 2 ^ Z.of_nat k.
Proof.
  induction k as [|k IH]; [cbn; lia|].
  change (Nat.iter (S k) xO m) with (xO (Nat.iter k xO m)).
  rewrite Pos2Z.inj_xO, IH, Nat2Z.inj_succ, Z.pow_succ_r by lia.
  ring.
Qed.

Lemma digits2_iter_xO k m :
  Z.pos (digits2_pos (Nat.iter k xO m)) = Z.pos (digits2_pos m) + Z.of_nat k.
Proof.
  induction k as [|k IH]; [cbn; lia|].
  change (Nat.iter (S k) xO m) with (xO (Nat.iter k xO m)).
  cbn [digits2_pos]. rewrite Pos2Z.inj_succ, IH. lia.
Qed.

Lemma mul_pow2_52 m : (m * 2 ^ 52)%positive = Nat.iter 52 xO m.
Proof. rewrite Pos.mul_comm. reflexivity. Qed.

Lemma SFmul_256_exact m e :
  canonical_mantissa prec emax m e = true ->
  e + 8 <= emax - prec ->
  exists m' e',
    gdouble_mul (S754_finite false m e) gdouble_256 = S754_finite false m' e'
    /\ Z.shiftl (Z.pos m') e' = Z.shiftl (Z.pos m) (e + 8).
Proof.
  intros Hc He.
  unfold canonical_mantissa, fexp, emin, prec, emax in Hc.
  apply Z.eqb_eq in Hc.
  unfold prec, emax in He.
  remember (Z.pos (digits2_pos m)) as d eqn:Ed.
  assert (Hd : 0 < d) by lia.
  assert (Hp : exists p, Z.max (d + e - 45) (-1074) - e + 44 = Z.pos p
                         /\ Z.pos p <= 52).
  { destruct (Z.max (d + e - 45) (-1074) - e + 44) as [|p|p] eqn:En;
      try lia. exists p. split; [reflexivity|lia]. }
  destruct Hp as (p & Hp & Hp52).
  set (k := Pos.to_nat p).
  assert (Hk : Z.of_nat k = Z.pos p) by (unfold k; lia).
  set (m' := Nat.iter (52 - k) xO m).
  assert (HM : (m * 2 ^ 52)%positive = Nat.iter k xO m').
  { rewrite mul_pow2_52. unfold m'. rewrite <- Nat.iter_add.
    f_equal. lia. }
  assert (Hdig : Z.pos (digits2_pos (m * 2 ^ 52)) = d + 52).
  { rewrite mul_pow2_52, digits2_iter_xO. lia. }
  assert (Hdig' : Z.pos (digits2_pos m') = d + 52 - Z.pos p).
  { unfold m'. rewrite digits2_iter_xO. lia. }
  exists m', (e - 44 + Z.pos p). split.
  - unfold gdouble_mul, gdouble_256, SFmul. cbn [xorb].
    unfold binary_round_aux.
    assert (H1 : shr_fexp prec emax (Z.pos (m * 2 ^ 52)) (e + -44) loc_Exact
                 = ({| shr_m := Z.pos m'; shr_r := false; shr_s := false |},
                    e - 44 + Z.pos p)).
    { unfold shr_fexp, fexp, emin, prec, emax. cbn [Zdigits2 shr_record_of_loc].
      rewrite Hdig.
      replace (Z.max (d + 52 + (e + -44) - 53) (3 - 1024 - 53) - (e + -44))
        with (Z.pos p) by lia.
      unfold shr. rewrite iter_pos_nat. fold k. rewrite HM, iter_shr_1_xO.
      f_equal; lia. }
    rewrite H1. cbn [shr_m loc_of_shr_record round_nearest_even].
    assert (H2 : shr_fexp prec emax (Z.pos m') (e - 44 + Z.pos p) loc_Exact
                 = ({| shr_m := Z.pos m'; shr_r := false; shr_s := false |},
                    e - 44 + Z.pos p)).
    { unfold shr_fexp, fexp, emin, prec, emax. cbn [Zdigits2 shr_record_of_loc].
      rewrite Hdig'.
      replace (Z.max (d + 52 - Z.pos p + (e - 44 + Z.pos p) - 53) (3 - 1024 - 53)
               - (e - 44 + Z.pos p)) with 0 by lia.
      reflexivity. }
    rewrite H2. cbn [shr_m].
    unfold prec, emax.
    destruct (Z.leb_spec (e - 44 + Z.pos p) (1024 - 53)); [reflexivity|lia].
  - unfold m'. rewrite Zpos_iter_xO.
    rewrite <- Z.shiftl_mul_pow2 by lia.
    rewrite Z.shiftl_shiftl by lia. f_equal. lia.
Qed.

Lemma shiftr_8_shiftl a e : Z.shiftr (Z.shiftl a (e + 8)) 8 = Z.shiftl a e.
Proof.
  destruct (Z.le_gt_cases 0 e) as [H|H].
  - rewrite Z.shiftr_shiftl_l by lia. f_equal. lia.
  - destruct (Z.le_gt_cases 0 (e + 8)) as [H8|H8].
    + rewrite Z.shiftr_shiftl_r by lia.
      rewrite <- (Z.shiftr_opp_r a e). f_equal. lia.
    + rewrite <- (Z.shiftr_opp_r a (e + 8)), <- (Z.shiftr_opp_r a e).
      rewrite Z.shiftr_shiftr by lia. f_equal. lia.
Qed.

(** [scaled] for a double with integer part at most 51: the integer part
    of 256 times its exact value. *)
Lemma const_quality_scaled_exact m e :
  valid_binary prec emax (S754_finite false m e) = true ->
  gdouble_trunc (S754_finite false m e) <= 51 ->
  const_quality_scaled (S754_finite false m e) = Z.shiftl (Z.pos m) (e + 8)
  /\ 0 <= Z.shiftl (Z.pos m) (e + 8) < 52 * 256.
Proof.
  intros Hv Ht. cbn [valid_binary] in Hv. unfold bounded in Hv.
  apply andb_prop in Hv. destruct Hv as [Hc He].
  apply Z.leb_le in He. cbn [gdouble_trunc] in Ht.
  assert (Hpos : 0 <= Z.shiftl (Z.pos m) (e + 8))
    by (apply Z.shiftl_nonneg; lia).
  assert (Hlt : Z.shiftl (Z.pos m) (e + 8) < 52 * 256).
  { pose proof (shiftr_8_shiftl (Z.pos m) e) as Hs.
    rewrite Z.shiftr_div_pow2 in Hs by lia.
    change (2 ^ 8) with 256 in Hs.
    pose proof (Z.mul_div_le (Z.shiftl (Z.pos m) (e + 8)) 256 ltac:(lia)).
    pose proof (Z.mod_pos_bound (Z.shiftl (Z.pos m) (e + 8)) 256 ltac:(lia)).
    pose proof (Z.div_mod (Z.shiftl (Z.pos m) (e + 8)) 256 ltac:(lia)).
    lia. }
  split; [|split; assumption].
  assert (He8 : e + 8 <= emax - prec).
  { unfold emax, prec in *.
    destruct (Z.le_gt_cases e 5) as [|Hbig]; [lia|].
    exfalso.
    assert (Hge : Z.pos m * 2 ^ 6 <= Z.shiftl (Z.pos m) e).
    { rewrite Z.shiftl_mul_pow2 by lia.
      apply Z.mul_le_mono_nonneg_l; [lia|].
      apply Z.pow_le_mono_r; lia. }
    lia. }
  destruct (SFmul_256_exact m e Hc He8) as (m' & e' & Hmul & Hval).
  unfold const_quality_scaled. rewrite Hmul.
  unfold gdouble_to_gint, gdouble_trunc. rewrite Hval.
  destruct (Z.leb_spec (- 2 ^ 31) (Z.shiftl (Z.pos m) (e + 8))); [|lia].
  destruct (Z.ltb_spec (Z.shiftl (Z.pos m) (e + 8)) (2 ^ 31)); [|lia].
  cbn [andb]. apply to_guint_small. lia.
Qed.

Lemma to_guint8_small z : 0 <= z < 2 ^ 8 -> to_guint8 z = z.
Proof. intros H. unfold to_guint8. now apply Z.mod_small. Qed.

(** C8: the constant quality in fixed point.  For a positive double whose
    integer part is at most 51, [scaled] is the integer part of 256 times
    its value (the product is exact in binary64); the configuration holds
    [scaled >> 8], which is the integer part of the quality, and
    [scaled & 0xff]. *)
Theorem set_format_const_quality :
  forall klass session allowed_caps info self ps sel bf presetCfg m e,
    check_downstream_profiles info (downstream_profiles_of allowed_caps)
    = inr (ps, sel, bf) ->
    session (preset self) = Some presetCfg ->
    const_quality self = S754_finite false m e ->
    valid_binary prec emax (const_quality self) = true ->
    gdouble_trunc (const_quality self) <= 51 ->
    exists self' cfg,
      gst_nv_h264_encoder_set_format klass session allowed_caps info self
      = (self', inr cfg)
      /\ let scaled := Z.shiftl (Z.pos m) (e + 8) in
         const_quality_scaled (const_quality self) = scaled
         /\ targetQuality (rcParams (config cfg)) = Z.shiftr scaled 8
         /\ targetQualityLSB (rcParams (config cfg)) = Z.land scaled 0xff
         /\ Z.shiftr scaled 8 = gdouble_trunc (const_quality self).
Proof.
  intros klass session allowed_caps info self ps sel bf presetCfg m e
         Hc Hs Hq Hv Ht.
  destruct (set_format_success klass session allowed_caps info self
              ps sel bf presetCfg Hc Hs) as [p Heq].
  cbn zeta in Heq. rewrite Heq. clear Heq.
  eexists. eexists. split; [reflexivity|].
  cbn [config rcParams].
  assert (Hq1 : const_quality
                  (fst (fst (fst (gop_structure bf (set_packetized p self)))))
                = const_quality self).
  { unfold gop_structure.
    destruct (gop_size _ <? 0); [reflexivity|].
    destruct (0 <? gop_size _); [|reflexivity].
    cbn [fst]. destruct ((0 <? bframes _) && negb bf); reflexivity. }
  unfold build_rc_params. cbn [targetQuality targetQualityLSB].
  rewrite Hq1. rewrite Hq in *.
  destruct (const_quality_scaled_exact m e Hv Ht) as [Hsc Hb].
  rewrite Hsc. cbn zeta.
  change (gdouble_eqb (S754_finite false m e) gdouble_zero) with false.
  cbn [negb].
  assert (Hhi : Z.shiftr (Z.shiftl (Z.pos m) (e + 8)) 8
                = gdouble_trunc (S754_finite false m e))
    by apply shiftr_8_shiftl.
  split; [reflexivity|].
  split; [|split; [|exact Hhi]].
  - apply to_guint8_small. rewrite Hhi. cbn [gdouble_trunc] in *.
    split; [apply Z.shiftl_nonneg|]; lia.
  - apply to_guint8_small.
    change 255 with (Z.ones 8). rewrite Z.land_ones by lia.
    apply Z.mod_pos_bound. lia.
Qed.

(** C8 on the scenario of the spec: a constant quality of 32.5 gives the
    integer byte 32 and the fractional byte 128. *)
Lemma set_format_const_quality_witness :
  exists self' cfg,
    gst_nv_h264_encoder_set_format plain_class plain_session
      (caps_with_profiles ["main"] "byte-stream") nv12_progressive
      (gst_nv_h264_encoder_set_property PROP_CONST_QUALITY
         (GDouble gdouble_32_5) (gst_nv_h264_encoder_init plain_class))
    = (self', inr cfg)
    /\ targetQuality (rcParams (config cfg)) = 32
    /\ targetQualityLSB (rcParams (config cfg)) = 128.
Proof.
  destruct (set_format_const_quality plain_class plain_session
              (caps_with_profiles ["main"] "byte-stream") nv12_progressive
              (gst_nv_h264_encoder_set_property PROP_CONST_QUALITY
                 (GDouble gdouble_32_5) (gst_nv_h264_encoder_init plain_class))
              (StringSet.add "main" StringSet.empty)
              NV_ENC_CODEC_PROFILE_AUTOSELECT_GUID true zero_config
              (65 * 2 ^ 46)%positive (-47)
              eq_refl eq_refl eq_refl eq_refl)
    as (self' & cfg & Heq & _ & Hhi & Hlo & _).
  - vm_compute. discriminate.
  - exists self', cfg. split; [exact Heq|].
    split; [rewrite Hhi | rewrite Hlo]; reflexivity.
Defined.

(** ** Packaging *)

Lemma is_zero_true b : is_zero b = true -> b = x00.
Proof. apply Byte.byte_dec_bl. Qed.

Lemma starts_with_start_code_true l :
  starts_with_start_code l = true -> exists q, l = [x00; x00; x01] ++ q.
Proof.
  destruct l as [|b0 [|b1 [|b2 q]]]; cbn; try discriminate.
  intros H. apply andb_prop in H. destruct H as [H H2].
  apply andb_prop in H. destruct H as [H0 H1].
  apply is_zero_true in H0, H1. apply Byte.byte_dec_bl in H2.
  subst. now exists q.
Qed.

Lemma scan_for_start_codes_bound l n :
  scan_for_start_codes l = Some n -> (n + 3 <= length l)%nat.
Proof.
  revert n. induction l as [|b l IH]; intros n; [discriminate|].
  cbn [scan_for_start_codes].
  destruct (starts_with_start_code (b :: l)) eqn:E.
  - intros H. inversion H. subst.
    apply starts_with_start_code_true in E. destruct E as [q ->].
    cbn. lia.
  - destruct (scan_for_start_codes l) as [k|]; [|discriminate].
    intros H. inversion H. subst. specialize (IH k eq_refl). cbn. lia.
Qed.

Lemma no_start_code_tail b u : no_start_code (b :: u) -> no_start_code u.
Proof. intros H p q E. apply (H (b :: p) q). now rewrite E. Qed.

Lemma scan_start_code zeros r :
  scan_for_start_codes (start_code zeros ++ r) = Some zeros.
Proof.
  unfold start_code. induction zeros as [|k IH]; [reflexivity|].
  cbn [repeat app scan_for_start_codes] in *.
  assert (E : starts_with_start_code
                (x00 :: (repeat x00 k ++ [x00; x00; x01]) ++ r) = false).
  { destruct k as [|[|k]]; reflexivity. }
  rewrite E, IH. reflexivity.
Qed.

Lemma scan_unit u :
  no_start_code u -> scan_for_start_codes u = None.
Proof.
  induction u as [|b u IH]; intros Hn; [reflexivity|].
  cbn [scan_for_start_codes].
  destruct (starts_with_start_code (b :: u)) eqn:E.
  - apply starts_with_start_code_true in E. destruct E as [q E].
    exfalso. apply (Hn [] q). exact E.
  - rewrite IH by (eapply no_start_code_tail; eauto). reflexivity.
Qed.

Lemma starts_with_nonzero_first a l :
  a <> x00 -> starts_with_start_code (a :: l) = false.
Proof.
  intros Ha. destruct (is_zero a) eqn:Ea.
  - apply is_zero_true in Ea. contradiction.
  - destruct l as [|b [|c l]]; cbn; now rewrite ?Ea.
Qed.

Lemma starts_with_nonzero_second a c l :
  c <> x00 -> starts_with_start_code (a :: c :: l) = false.
Proof.
  intros Hc. destruct (is_zero c) eqn:Ec.
  - apply is_zero_true in Ec. contradiction.
  - destruct l as [|d l]; cbn; now rewrite ?Ec, ?andb_false_r.
Qed.

Lemma scan_unit_then_start_code u zeros r :
  no_start_code u -> last u x01 <> x00 ->
  scan_for_start_codes (u ++ start_code zeros ++ r) = Some (length u + zeros)%nat.
Proof.
  induction u as [|a u IH]; intros Hn Hl.
  - apply scan_start_code.
  - cbn [app scan_for_start_codes length].
    assert (E : starts_with_start_code (a :: u ++ start_code zeros ++ r)
                = false).
    { destruct u as [|c [|d u]].
      - cbn in Hl. now apply starts_with_nonzero_first.
      - cbn in Hl. now apply starts_with_nonzero_second.
      - destruct (starts_with_start_code (a :: (c :: d :: u) ++ _)) eqn:E;
          [|reflexivity].
        apply starts_with_start_code_true in E. destruct E as [q E].
        cbn in E. inversion E. subst.
        exfalso. apply (Hn [] u). reflexivity. }
    rewrite E, IH.
    + reflexivity.
    + eapply no_start_code_tail; eauto.
    + destruct u; [cbn; discriminate | exact Hl].
Qed.

Lemma nil_or_snoc {A} (u : list A) : u = [] \/ exists u' b, u = u' ++ [b].
Proof. induction u using rev_ind; [left|right]; eauto. Qed.

Lemma ends_nonzero_last u : ends_nonzero u -> last u x01 <> x00.
Proof.
  intros H. destruct (nil_or_snoc u) as [-> | (u' & b & ->)].
  - cbn. discriminate.
  - rewrite last_last. eapply H; eauto.
Qed.

Lemma elementary_unit_parts u :
  elementary_unit u ->
  no_start_code u /\ ends_nonzero u /\ (Z.of_nat (length u) < 2 ^ 32)%Z.
Proof.
  intros (Hn & (u' & b & -> & Hb) & Hl). repeat split; auto.
  intros u'' b' E. apply app_inj_tail in E. destruct E as [_ <-]. exact Hb.
Qed.

Lemma skipn_app_exact {A} (a b : list A) : skipn (length a) (a ++ b) = b.
Proof.
  rewrite skipn_app, skipn_all, Nat.sub_diag. reflexivity.
Qed.

Lemma firstn_app_exact {A} (a b : list A) : firstn (length a) (a ++ b) = a.
Proof.
  rewrite firstn_app, firstn_all, Nat.sub_diag. cbn. apply app_nil_r.
Qed.

Lemma strip_trailing_zeros_unit pre u zeros rest :
  ends_nonzero u ->
  strip_trailing_zeros (pre ++ u ++ repeat x00 zeros ++ rest)
    (length pre) (length u + zeros)
  = length u.
Proof.
  intros Hu. revert rest. induction zeros as [|k IH]; intros rest.
  - rewrite Nat.add_0_r. cbn [repeat app].
    destruct (nil_or_snoc u) as [-> | (u' & b & ->)]; [reflexivity|].
    rewrite length_app. cbn [length]. rewrite Nat.add_1_r.
    cbn [strip_trailing_zeros].
    rewrite nth_error_app2 by lia.
    replace (length pre + length u' - length pre)%nat with (length u') by lia.
    rewrite <- !app_assoc. rewrite nth_error_app2 by lia.
    rewrite Nat.sub_diag. cbn [app nth_error].
    destruct (is_zero b) eqn:Eb; [|reflexivity].
    apply is_zero_true in Eb. exfalso. eapply Hu; eauto.
  - rewrite Nat.add_succ_r. cbn [strip_trailing_zeros].
    rewrite nth_error_app2 by lia.
    replace (length pre + (length u + k) - length pre)%nat
      with (length u + k)%nat by lia.
    rewrite nth_error_app2 by lia.
    replace (length u + k - length u)%nat with k by lia.
    rewrite nth_error_app1 by (rewrite repeat_length; lia).
    rewrite nth_error_repeat by lia. cbn [is_zero Byte.eqb].
    change (is_zero x00) with true. cbn iota.
    replace (repeat x00 (S k) ++ rest) with (repeat x00 k ++ x00 :: rest).
    + apply IH.
    + change (x00 :: rest) with ([x00] ++ rest). rewrite app_assoc.
      f_equal. change [x00] with (repeat x00 1).
      rewrite <- repeat_app. f_equal. lia.
Qed.

Lemma start_code_length zeros : length (start_code zeros) = (zeros + 3)%nat.
Proof. unfold start_code. rewrite length_app, repeat_length. reflexivity. Qed.

Lemma byte_stream_cons zeros u tl :
  byte_stream ((zeros, u) :: tl) = start_code zeros ++ u ++ byte_stream tl.
Proof. unfold byte_stream. cbn. now rewrite <- app_assoc. Qed.

(** The parser on a stream, from the end of what precedes a unit. *)
Lemma identify_nalu_unit pre zeros u tl :
  no_start_code u -> ends_nonzero u ->
  let data := pre ++ byte_stream ((zeros, u) :: tl) in
  exists rst,
    gst_h264_parser_identify_nalu data (length pre) (length data)
    = (rst, mkNalUnit (length pre + zeros + 3) (length u))
    /\ rst <> GST_H264_PARSER_NO_NAL.
Proof.
  intros Hn He data. subst data.
  unfold gst_h264_parser_identify_nalu. cbv zeta.
  rewrite firstn_all, skipn_app_exact, byte_stream_cons, scan_start_code.
  assert (Hl : length (pre ++ start_code zeros) = (length pre + zeros + 3)%nat).
  { rewrite length_app, start_code_length. lia. }
  rewrite (app_assoc pre (start_code zeros)). rewrite <- Hl.
  rewrite skipn_app_exact.
  destruct tl as [|[zeros' u'] tl].
  - cbn [byte_stream map concat]. rewrite app_nil_r, scan_unit by assumption.
    exists GST_H264_PARSER_NO_NAL_END. split; [|discriminate].
    f_equal. f_equal. rewrite (length_app _ u). lia.
  - rewrite byte_stream_cons, scan_unit_then_start_code
      by auto using ends_nonzero_last.
    exists GST_H264_PARSER_OK. split; [|discriminate].
    f_equal. f_equal.
    unfold start_code at 2. rewrite <- (app_assoc (repeat x00 zeros')).
    apply strip_trailing_zeros_unit. exact He.
Qed.

Lemma byte_stream_length units :
  (length units <= length (byte_stream units))%nat.
Proof.
  induction units as [|[zeros u] tl IH]; [cbn; lia|].
  rewrite byte_stream_cons, !length_app, start_code_length. cbn [length]. lia.
Qed.

(** The loop on a stream of units, entered after the bytes [pre]. *)
Lemma output_loop_units units :
  Forall (fun zu => elementary_unit (snd zu)) units ->
  forall pre buffer fuel,
    (length units < fuel)%nat ->
    let data := pre ++ byte_stream units in
    let '(rst, nalu) :=
      gst_h264_parser_identify_nalu data (length pre) (length data) in
    output_loop fuel data (length data) rst nalu buffer
    = Some (buffer ++ map (fun zu => length_prefixed (snd zu)) units).
Proof.
  induction 1 as [|[zeros u] tl Hu Htl IH]; intros pre buffer fuel Hf.
  - cbv zeta. unfold gst_h264_parser_identify_nalu.
    rewrite firstn_all. cbn [byte_stream map concat].
    rewrite app_nil_r, skipn_all. cbn [scan_for_start_codes].
    destruct fuel; [cbn in Hf; lia|]. cbn. now rewrite app_nil_r.
  - cbn [snd] in Hu. apply elementary_unit_parts in Hu.
    destruct Hu as (Hn & He & Hlen).
    cbv zeta.
    destruct (identify_nalu_unit pre zeros u tl Hn He) as (rst & Hid & Hrst).
    cbv zeta in Hid. rewrite Hid.
    destruct fuel as [|fuel]; [cbn in Hf; lia|].
    cbn [length] in Hf.
    assert (Hmem : nalu_memory (pre ++ byte_stream ((zeros, u) :: tl))
                     {| offset := length pre + zeros + 3; size := length u |}
                   = length_prefixed u).
    { unfold nalu_memory, length_prefixed. cbn [offset size].
      rewrite to_guint_small by lia. f_equal.
      rewrite byte_stream_cons, (app_assoc pre).
      replace (length pre + zeros + 3)%nat
        with (length (pre ++ start_code zeros))
        by (rewrite length_app, start_code_length; lia).
      rewrite skipn_app_exact. apply firstn_app_exact. }
    assert (Hstep :
              output_loop (S fuel) (pre ++ byte_stream ((zeros, u) :: tl))
                (length (pre ++ byte_stream ((zeros, u) :: tl))) rst
                {| offset := length pre + zeros + 3; size := length u |} buffer
              = let '(rst', nalu') :=
                  gst_h264_parser_identify_nalu
                    (pre ++ byte_stream ((zeros, u) :: tl))
                    (length pre + zeros + 3 + length u)
                    (length (pre ++ byte_stream ((zeros, u) :: tl))) in
                output_loop fuel (pre ++ byte_stream ((zeros, u) :: tl))
                  (length (pre ++ byte_stream ((zeros, u) :: tl))) rst' nalu'
                  (buffer ++ [length_prefixed u])).
    { cbn [output_loop offset size]. rewrite Hmem.
      destruct rst; try reflexivity. contradiction. }
    rewrite Hstep.
    specialize (IH (pre ++ start_code zeros ++ u)
                  (buffer ++ [length_prefixed u]) fuel ltac:(lia)).
    cbv zeta in IH.
    replace (length (pre ++ start_code zeros ++ u))
      with (length pre + zeros + 3 + length u)%nat in IH
      by (rewrite !length_app, start_code_length; lia).
    replace ((pre ++ start_code zeros ++ u) ++ byte_stream tl)
      with (pre ++ byte_stream ((zeros, u) :: tl)) in IH
      by (rewrite byte_stream_cons, <- !app_assoc; reflexivity).
    destruct (gst_h264_parser_identify_nalu _ _ _) as [rst' nalu'].
    rewrite IH. cbn [map snd]. rewrite <- app_assoc. reflexivity.
Qed.

Lemma byte_of_Z_to_N z :
  (0 <= z < 256)%Z -> Z.of_N (Byte.to_N (byte_of_Z z)) = z.
Proof.
  intros H. unfold byte_of_Z.
  destruct (Byte.of_N (Z.to_N z)) as [b|] eqn:E.
  - apply Byte.to_of_N in E. rewrite E. apply Z2N.id. exact (proj1 H).
  - apply Byte.of_N_None_iff in E. apply N2Z.inj_lt in E.
    rewrite Z2N.id in E by exact (proj1 H).
    change (Z.of_N 255) with 255%Z in E. destruct H as [_ H]. clear - E H.
    lia.
Qed.

Lemma testbit_byte_of num k i :
  (0 <= k)%Z ->
  Z.testbit (Z.land (Z.shiftr num k) (Z.ones 8)) (i - k)
  = Z.testbit num i && ((k <=? i)%Z && (i <? k + 8)%Z).
Proof.
  intros Hk. destruct (Z.leb_spec k i).
  - rewrite Z.land_spec, Z.shiftr_spec by lia.
    replace (i - k + k)%Z with i by lia.
    destruct (Z.ltb_spec i (k + 8)).
    + rewrite Z.ones_spec_low by lia. reflexivity.
    + rewrite Z.ones_spec_high by lia. reflexivity.
  - rewrite Z.testbit_neg_r by lia. cbn. now rewrite andb_false_r.
Qed.

Lemma GST_READ_WRITE_UINT32_BE num rest :
  (0 <= num < 2 ^ 32)%Z ->
  GST_READ_UINT32_BE (GST_WRITE_UINT32_BE num ++ rest) = num.
Proof.
  intros H. unfold GST_WRITE_UINT32_BE, GST_READ_UINT32_BE. cbn [app].
  assert (Hb : forall x, (0 <= Z.land x 255 < 256)%Z).
  { intros x. change 255%Z with (Z.ones 8). rewrite Z.land_ones by lia.
    apply Z.mod_pos_bound. lia. }
  rewrite !byte_of_Z_to_N by apply Hb.
  apply Z.bits_inj'. intros i Hi.
  assert (Hhigh : (32 <= i)%Z -> Z.testbit num i = false).
  { intros H32. destruct (Z.eq_dec num 0) as [->|Hnz];
      [apply Z.bits_0|].
    apply Z.bits_above_log2; [lia|].
    apply Z.lt_le_trans with 32%Z; [|lia].
    apply Z.log2_lt_pow2; lia. }
  rewrite !Z.lor_spec, !Z.shiftl_spec by lia.
  change 255%Z with (Z.ones 8).
  rewrite !testbit_byte_of by lia.
  replace (Z.testbit (Z.land num (Z.ones 8)) i)
    with (Z.testbit num i && ((0 <=? i)%Z && (i <? 0 + 8)%Z))
    by (rewrite <- (testbit_byte_of num 0 i) by lia;
        rewrite Z.shiftr_0_r; f_equal; lia).
  destruct (Z.testbit num i) eqn:T; cbn [andb orb]; [|reflexivity].
  destruct (Z.lt_ge_cases i 32) as [H32|H32];
    [|discriminate (Hhigh H32)].
  repeat match goal with
         | |- context [(?a <=? ?b)%Z] => destruct (Z.leb_spec a b)
         | |- context [(?a <? ?b)%Z] => destruct (Z.ltb_spec a b)
         end; cbn; try reflexivity; lia.
Qed.

Lemma strip_trailing_zeros_le data base off2 :
  (strip_trailing_zeros data base off2 <= off2)%nat.
Proof.
  induction off2 as [|n IH]; cbn; [lia|].
  destruct (nth_error _ _) as [b|]; [|lia].
  destruct (is_zero b); lia.
Qed.

(** Whatever the bytes, the loop ends within the fuel it is given. *)
Lemma identify_nalu_progress data offset0 size0 rst nalu :
  gst_h264_parser_identify_nalu data offset0 size0 = (rst, nalu) ->
  rst <> GST_H264_PARSER_NO_NAL ->
  (offset0 + 3 <= offset nalu + size nalu <= size0)%nat.
Proof.
  unfold gst_h264_parser_identify_nalu. cbv zeta.
  destruct (scan_for_start_codes (skipn offset0 (firstn size0 data)))
    as [off1|] eqn:E1; [|intros H; inversion H; congruence].
  apply scan_for_start_codes_bound in E1.
  rewrite length_skipn, length_firstn in E1.
  destruct (scan_for_start_codes
              (skipn (offset0 + off1 + 3) (firstn size0 data)))
    as [off2|] eqn:E2; intros H _; inversion H; subst; cbn [offset size].
  - apply scan_for_start_codes_bound in E2.
    rewrite length_skipn, length_firstn in E2.
    pose proof (strip_trailing_zeros_le (firstn size0 data)
                  (offset0 + off1 + 3) off2).
    lia.
  - lia.
Qed.

Lemma output_loop_total data size0 :
  forall fuel offset0 buffer,
    (size0 - offset0 < fuel)%nat ->
    let '(rst, nalu) := gst_h264_parser_identify_nalu data offset0 size0 in
    exists out, output_loop fuel data size0 rst nalu buffer = Some out.
Proof.
  induction fuel as [|fuel IH]; intros offset0 buffer Hf; [lia|].
  destruct (gst_h264_parser_identify_nalu data offset0 size0)
    as [rst nalu] eqn:Hid.
  assert (Hstep :
            rst <> GST_H264_PARSER_NO_NAL ->
            exists out,
              output_loop (S fuel) data size0 rst nalu buffer = Some out).
  { intros Hrst.
    pose proof (identify_nalu_progress _ _ _ _ _ Hid Hrst) as Hp.
    specialize (IH (offset nalu + size nalu)%nat
                  (buffer ++ [nalu_memory data nalu]) ltac:(lia)).
    destruct (gst_h264_parser_identify_nalu data
                (offset nalu + size nalu) size0) as [rst' nalu'] eqn:Hid'.
    destruct IH as [out Hout]. exists out.
    destruct rst; cbn [output_loop]; try contradiction;
      rewrite Hid'; exact Hout. }
  destruct rst; try (apply Hstep; discriminate).
  eexists. reflexivity.
Qed.

(** Packaging always returns a buffer. *)
Lemma create_output_buffer_total self bitstream :
  exists buffer,
    gst_nv_h264_encoder_create_output_buffer self bitstream = Some buffer.
Proof.
  unfold gst_nv_h264_encoder_create_output_buffer.
  destruct (negb (packetized self)); [eexists; reflexivity|].
  pose proof (output_loop_total bitstream (length bitstream)
                (S (length bitstream)) 0%nat [] ltac:(lia)) as H.
  destruct (gst_h264_parser_identify_nalu bitstream 0 (length bitstream)).
  exact H.
Qed.

(** C7: the round trip of packetized packaging.  For a byte stream made of
    units behind their start codes, packetized mode returns a buffer with
    one memory per unit, in order: the length of the unit on four bytes,
    most significant first, then the bytes of the unit.  Taking the four
    bytes off every memory and concatenating what is left gives the bytes
    of the units, that is the stream without its start codes. *)
Theorem create_output_buffer_round_trip :
  forall (self : GstNvH264Encoder) (units : list (nat * list byte)),
    packetized self = true ->
    Forall (fun zu => elementary_unit (snd zu)) units ->
    exists buffer,
      gst_nv_h264_encoder_create_output_buffer self (byte_stream units)
      = Some buffer
      /\ buffer
         = map (fun zu =>
                  GST_WRITE_UINT32_BE (Z.of_nat (length (snd zu))) ++ snd zu)
             units
      /\ Forall2 (fun mem zu =>
                    GST_READ_UINT32_BE mem = Z.of_nat (length (snd zu))
                    /\ skipn 4 mem = snd zu)
           buffer units
      /\ concat (map (skipn 4) buffer) = concat (map snd units).
Proof.
  intros self units Hp Hu.
  exists (map (fun zu => length_prefixed (snd zu)) units).
  split; [|split; [reflexivity|split]].
  - unfold gst_nv_h264_encoder_create_output_buffer. rewrite Hp. cbn [negb].
    pose proof (byte_stream_length units) as Hlen.
    pose proof (output_loop_units units Hu [] []
                  (S (length (byte_stream units))) ltac:(lia)) as H.
    cbn [app length] in H.
    destruct (gst_h264_parser_identify_nalu (byte_stream units) 0
                (length (byte_stream units))).
    exact H.
  - induction Hu as [|[zeros u] tl Hu Htl IH]; cbn [map]; constructor;
      [|exact IH].
    cbn [snd] in Hu |- *. destruct Hu as (_ & _ & Hlen).
    unfold length_prefixed. split.
    + apply (GST_READ_WRITE_UINT32_BE (Z.of_nat (length u)) u). lia.
    + unfold length_prefixed, GST_WRITE_UINT32_BE. cbn [app skipn].
      reflexivity.
  - rewrite map_map. apply f_equal, map_ext. intros [zeros u].
    unfold length_prefixed, GST_WRITE_UINT32_BE. cbn [app skipn snd].
    reflexivity.
Qed.

Lemma scan_finds_start_code p q :
  exists n, scan_for_start_codes (p ++ [x00; x00; x01] ++ q) = Some n.
Proof.
  induction p as [|a p [n IH]]; [exists O; reflexivity|].
  cbn [app scan_for_start_codes] in *.
  destruct (starts_with_start_code _); [eauto|].
  rewrite IH. cbn. eauto.
Qed.

Lemma no_start_code_of_scan u :
  scan_for_start_codes u = None -> no_start_code u.
Proof.
  intros H p q E. subst u.
  destruct (scan_finds_start_code p q) as [n Hn]. congruence.
Qed.

(** Byte-stream mode hands the output of the device on as it is. *)
Lemma create_output_buffer_byte_stream self bitstream :
  packetized self = false ->
  gst_nv_h264_encoder_create_output_buffer self bitstream = Some [bitstream].
Proof.
  intros H. unfold gst_nv_h264_encoder_create_output_buffer. now rewrite H.
Qed.

(** C7 on a stream of two units of four bytes, the first one behind a
    four-byte start code. *)
Lemma create_output_buffer_round_trip_witness :
  let self :=
    set_packetized true (gst_nv_h264_encoder_init plain_class) in
  byte_stream two_units
  = [x00; x00; x00; x01; x67; x42; xc0; x1f; x00; x00; x01; x68; xce; x3c; x80]
  /\ exists buffer,
       gst_nv_h264_encoder_create_output_buffer self (byte_stream two_units)
       = Some buffer
       /\ buffer = [ [x00; x00; x00; x04; x67; x42; xc0; x1f];
                     [x00; x00; x00; x04; x68; xce; x3c; x80] ]
       /\ concat (map (skipn 4) buffer)
          = [x67; x42; xc0; x1f; x68; xce; x3c; x80].
Proof.
  intros self. split; [reflexivity|].
  destruct (create_output_buffer_round_trip self two_units eq_refl)
    as (buffer & Hbuf & Hmap & _ & Hcat).
  - unfold two_units.
    apply Forall_cons; [|apply Forall_cons; [|apply Forall_nil]];
      (split; [apply no_start_code_of_scan; reflexivity
              | split; [|reflexivity]]).
    + exists [x67; x42; xc0], x1f. split; [reflexivity | discriminate].
    + exists [x68; xce; x3c], x80. split; [reflexivity | discriminate].
  - exists buffer. split; [exact Hbuf|]. split.
    + rewrite Hmap. reflexivity.
    + rewrite Hcat. reflexivity.
Defined.

Lemma gdouble_eqb_true a b :
  gdouble_eqb a b = true ->
  a = b \/ exists sa sb, a = S754_zero sa /\ b = S754_zero sb.
Proof.
  unfold gdouble_eqb, SFeqb.
  destruct a as [[]|[]| |[] ma ea], b as [[]|[]| |[] mb eb]; cbn;
    intros H; try discriminate; try (left; reflexivity);
    try (right; eauto; fail);
    destruct (Z.compare_spec ea eb); try discriminate; subst;
    destruct (Pos.compare_cont Eq ma mb) eqn:E; try discriminate;
    apply Pos.compare_eq in E; subst; auto.
Qed.

Lemma update_field_get {A} (eqb : A -> A -> bool) get set v level self :
  (forall a b, eqb a b = true -> a = b) ->
  (forall s, get (mark_updated level (set v s)) = v) ->
  get (update_field eqb get set v level self) = v.
Proof.
  intros Heq Hget. unfold update_field.
  destruct (eqb (get self) v) eqn:E; [now apply Heq | apply Hget].
Qed.

(** X1: writing a property and reading it back.  For every writable
    property but the three max-QP ones, [get_property] after
    [set_property] returns the value written; the one exception is a zero
    written over a zero of the other sign, which compares equal and is not
    stored. *)
Theorem set_property_then_get_property :
  forall klass prop_id value self,
    reads_what_it_writes prop_id = true ->
    value_fits prop_id value = true ->
    exists value',
      gst_nv_h264_encoder_get_property klass prop_id
        (gst_nv_h264_encoder_set_property prop_id value self)
      = Some value'
      /\ (value' = value
          \/ exists s s', value = GDouble (S754_zero s)
                          /\ value' = GDouble (S754_zero s')).
Proof.
  intros klass prop_id value self Hr Hf.
  destruct prop_id; cbn in Hr; try discriminate;
    destruct value; cbn in Hf; try discriminate; cbn;
    eexists; (split; [reflexivity|]);
    unfold update_boolean, update_int, update_uint, update_double;
    cbn [g_value_get_boolean g_value_get_int g_value_get_uint
         g_value_get_double];
    try (left; f_equal; apply update_field_get;
         [ intros x y; first [ apply Bool.eqb_prop | apply Z.eqb_eq ]
         | intros s; reflexivity ]).
  - (* preset *)
    left. f_equal. destruct (preset_eqb p (preset self)) eqn:E; cbn;
      [|reflexivity].
    destruct p, (preset self); cbn in E; try discriminate; auto.
    apply Nat.eqb_eq in E. now subst.
  - (* rc-mode *)
    left. f_equal. destruct (rc_mode_eqb m (rc_mode self)) eqn:E; cbn;
      [|reflexivity].
    destruct m, (rc_mode self); cbn in E; try discriminate; auto.
    apply Nat.eqb_eq in E. now subst.
  - (* const-quality *)
    unfold update_field.
    destruct (gdouble_eqb (const_quality self) d) eqn:E; [|now left].
    destruct (gdouble_eqb_true _ _ E) as [-> | (sa & sb & Ha & ->)];
      [now left|].
    right. rewrite Ha. eauto.
Qed.

(** X1 on the bitrate of the default encoder. *)
Lemma set_property_then_get_property_witness :
  exists value',
    gst_nv_h264_encoder_get_property plain_class PROP_BITRATE
      (gst_nv_h264_encoder_set_property PROP_BITRATE (GUInt 4000)
         (gst_nv_h264_encoder_init plain_class))
    = Some value'
    /\ (value' = GUInt 4000
        \/ exists s s', GUInt 4000 = GDouble (S754_zero s)
                        /\ value' = GDouble (S754_zero s')).
Proof.
  apply (set_property_then_get_property plain_class PROP_BITRATE (GUInt 4000)
           (gst_nv_h264_encoder_init plain_class)); reflexivity.
Defined.

Ltac unfold_updates :=
  unfold update_boolean, update_int, update_uint, update_double, update_field.

(** X2: a write touches one property.  [set_property] on a property leaves
    what [get_property] returns for every other property, except that a
    write to a max-QP property lands in the min-QP property of the same
    frame type. *)
Theorem set_property_keeps_other_properties :
  forall klass prop_id value other self,
    other <> stored_in prop_id ->
    gst_nv_h264_encoder_get_property klass other
      (gst_nv_h264_encoder_set_property prop_id value self)
    = gst_nv_h264_encoder_get_property klass other self.
Proof.
  intros klass prop_id value other self Hne.
  destruct prop_id; cbn [gst_nv_h264_encoder_set_property]; unfold_updates;
    try reflexivity;
    match goal with
    | |- context [if ?c then _ else _] => destruct c
    end; try reflexivity;
    destruct other; try reflexivity; exfalso; apply Hne; reflexivity.
Qed.

(** X2 on a write to the GOP size, read through the bitrate. *)
Lemma set_property_keeps_other_properties_witness :
  gst_nv_h264_encoder_get_property plain_class PROP_BITRATE
    (gst_nv_h264_encoder_set_property PROP_GOP_SIZE (GInt 30)
       (gst_nv_h264_encoder_init plain_class))
  = gst_nv_h264_encoder_get_property plain_class PROP_BITRATE
      (gst_nv_h264_encoder_init plain_class).
Proof.
  apply (set_property_keeps_other_properties plain_class PROP_GOP_SIZE
           (GInt 30) PROP_BITRATE (gst_nv_h264_encoder_init plain_class)).
  discriminate.
Defined.


Lemma set_property_bitrate_level prop_id value self :
  level_of prop_id = Some UPDATE_BITRATE ->
  let self' := gst_nv_h264_encoder_set_property prop_id value self in
  init_param_updated self' = init_param_updated self
  /\ rc_param_updated self' = rc_param_updated self
  /\ (bitrate_updated self' = bitrate_updated self
      /\ bitrate self' = bitrate self
      /\ max_bitrate self' = max_bitrate self
      \/ bitrate_updated self' = true).
Proof.
  intros Hl. cbv zeta.
  destruct prop_id; cbn in Hl; try discriminate;
    cbn [gst_nv_h264_encoder_set_property]; unfold_updates;
    match goal with
    | |- context [if ?c then _ else _] => destruct c
    end; cbn; auto 6.
Qed.

(** X4: live bitrate changes.  On an encoder without a dirty flag, after
    any series of writes to the bitrate and the maximum bitrate, the check
    on a device with dynamic bitrate change never asks for the full
    reconfiguration: it finds nothing to do, the two rates being as
    before, or it asks for the bitrate update with the two rates written
    into the configuration. *)
Theorem bitrate_writes_never_reconfigure_fully :
  forall klass writes self config,
    dirty_flags self = (false, false, false) ->
    Forall (fun w => level_of (fst w) = Some UPDATE_BITRATE) writes ->
    0 < dev_dyn_bitrate_change (dev_caps klass) ->
    let self' := set_properties writes self in
    let '(_, config', reconfig) :=
      gst_nv_h264_encoder_check_reconfigure klass self' config in
    (reconfig = GST_NV_ENCODER_RECONFIGURE_NONE
     /\ config' = config
     /\ bitrate self' = bitrate self
     /\ max_bitrate self' = max_bitrate self)
    \/ (reconfig = GST_NV_ENCODER_RECONFIGURE_BITRATE
        /\ averageBitRate (rcParams config') = to_guint (bitrate self' * 1024)
        /\ maxBitRate (rcParams config')
           = to_guint (max_bitrate self' * 1024)).
Proof.
  intros klass writes self config Hflags Hw Hdyn.
  unfold dirty_flags in Hflags. injection Hflags as Hi Hr Hb.
  assert (Hinv :
            init_param_updated (set_properties writes self) = false
            /\ rc_param_updated (set_properties writes self) = false
            /\ (bitrate_updated (set_properties writes self) = false
                /\ bitrate (set_properties writes self) = bitrate self
                /\ max_bitrate (set_properties writes self) = max_bitrate self
                \/ bitrate_updated (set_properties writes self) = true)).
  { unfold set_properties.
    assert (Hgen : forall s,
               init_param_updated s = false ->
               rc_param_updated s = false ->
               (bitrate_updated s = false /\ bitrate s = bitrate self
                /\ max_bitrate s = max_bitrate self
                \/ bitrate_updated s = true) ->
               let s' :=
                 fold_left
                   (fun s w =>
                      gst_nv_h264_encoder_set_property (fst w) (snd w) s)
                   writes s in
               init_param_updated s' = false
               /\ rc_param_updated s' = false
               /\ (bitrate_updated s' = false /\ bitrate s' = bitrate self
                   /\ max_bitrate s' = max_bitrate self
                   \/ bitrate_updated s' = true)).
    { induction Hw as [|[p v] tl Hp Htl IH]; intros s H1 H2 H3; cbn; auto.
      cbn [fst] in Hp.
      pose proof (set_property_bitrate_level p v s Hp) as Hs.
      cbv zeta in Hs. destruct Hs as (E1 & E2 & E3).
      apply IH; try congruence.
      destruct E3 as [(Eb & Ebr & Emx) | Et]; [|now right].
      destruct H3 as [(Hb0 & Hbr & Hmx) | Ht];
        [left; repeat split; congruence | right; congruence]. }
    apply Hgen; auto. }
  cbv zeta. destruct Hinv as (Hi' & Hr' & Hb').
  unfold gst_nv_h264_encoder_check_reconfigure. rewrite Hi', Hr'. cbn [orb].
  destruct Hb' as [(Hb' & Hbr & Hmx) | Hb']; rewrite Hb'.
  - left. auto.
  - destruct (Z.ltb_spec 0 (dev_dyn_bitrate_change (dev_caps klass))); [|lia].
    right. repeat split.
Qed.

(** X4 on two writes to the default encoder. *)
Lemma bitrate_writes_never_reconfigure_fully_witness :
  snd (gst_nv_h264_encoder_check_reconfigure plain_class
         (set_properties [(PROP_BITRATE, GUInt 4000);
                          (PROP_MAX_BITRATE, GUInt 6000)]
            (gst_nv_h264_encoder_init plain_class))
         zero_config)
  <> GST_NV_ENCODER_RECONFIGURE_FULL.
Proof.
  pose proof (bitrate_writes_never_reconfigure_fully plain_class
                [(PROP_BITRATE, GUInt 4000); (PROP_MAX_BITRATE, GUInt 6000)]
                (gst_nv_h264_encoder_init plain_class) zero_config
                eq_refl) as H.
  cbv zeta in H.
  destruct (gst_nv_h264_encoder_check_reconfigure _ _ _) as [[s c] r].
  cbn [snd].
  destruct H as [(-> & _) | (-> & _)]; try discriminate.
  - repeat constructor.
  - reflexivity.
Defined.

Lemma clear_updated_clean self :
  dirty_flags self = (false, false, false) -> clear_updated self = self.
Proof.
  unfold dirty_flags. intros H. injection H as Hi Hr Hb.
  destruct self. cbn in *. subst. reflexivity.
Qed.

(** X5: the check consumes the flags.  A second check right after a first
    one finds nothing to do and leaves encoder and configuration alone;
    and the check itself never changes what a property reads. *)
Theorem check_reconfigure_twice :
  forall klass self config,
    let '(self1, config1, _) :=
      gst_nv_h264_encoder_check_reconfigure klass self config in
    gst_nv_h264_encoder_check_reconfigure klass self1 config1
    = (self1, config1, GST_NV_ENCODER_RECONFIGURE_NONE)
    /\ forall prop_id,
         gst_nv_h264_encoder_get_property klass prop_id self1
         = gst_nv_h264_encoder_get_property klass prop_id self.
Proof.
  intros klass self config.
  assert (H : forall c,
             gst_nv_h264_encoder_check_reconfigure klass (clear_updated self) c
             = (clear_updated self, c, GST_NV_ENCODER_RECONFIGURE_NONE)).
  { intros c. unfold gst_nv_h264_encoder_check_reconfigure. cbn.
    reflexivity. }
  assert (G : forall prop_id,
             gst_nv_h264_encoder_get_property klass prop_id
               (clear_updated self)
             = gst_nv_h264_encoder_get_property klass prop_id self).
  { intros prop_id. destruct prop_id; reflexivity. }
  unfold gst_nv_h264_encoder_check_reconfigure at 1.
  destruct (init_param_updated self || rc_param_updated self);
    [auto|].
  destruct (bitrate_updated self); [|auto].
  destruct (0 <? dev_dyn_bitrate_change (dev_caps klass)); auto.
Qed.

(** [set_format_success], with the value stored in [packetized]. *)
Lemma set_format_result klass session allowed_caps info self
      ps sel bf presetCfg :
  check_downstream_profiles info (downstream_profiles_of allowed_caps)
  = inr (ps, sel, bf) ->
  session (preset self) = Some presetCfg ->
  let self0 := set_packetized (downstream_packetized allowed_caps) self in
  let self1 := fst (fst (fst (gop_structure bf self0))) in
  let gl := snd (fst (fst (gop_structure bf self0))) in
  let fip := snd (fst (gop_structure bf self0)) in
  let aborted := snd (gop_structure bf self0) in
  let guid := select_profile sel fip ps in
  let self2 :=
    set_rc_param_updated false
      (set_bitrate_updated false (set_init_param_updated false self1)) in
  gst_nv_h264_encoder_set_format klass session allowed_caps info self
  = (self2,
     inr {| config :=
              {| profileGUID := guid;
                 gopLength := gl;
                 frameIntervalP := fip;
                 rcParams := build_rc_params self1 (rcParams presetCfg);
                 h264Config :=
                   build_h264_config klass self2 guid gl
                     (h264Config presetCfg) |};
            notified := if aborted then ["bframes"] else [] |}).
Proof.
  intros Hc Hs.
  unfold gst_nv_h264_encoder_set_format, downstream_profiles_of,
    downstream_packetized in *.
  destruct (gst_nv_h264_encoder_get_downstream_profiles_and_format
              allowed_caps StringSet.empty) as [dp fmt].
  cbn [fst snd] in *. rewrite Hc. cbv zeta.
  change (preset (set_packetized match fmt with Some p => p | None => false end
                    self)) with (preset self).
  rewrite Hs.
  destruct (gop_structure bf _) as [[[s1 gl] fip] ab]. reflexivity.
Qed.

Lemma gop_structure_keeps bf self :
  let s1 := fst (fst (fst (gop_structure bf self))) in
  packetized s1 = packetized self /\ preset s1 = preset self
  /\ gop_size s1 = gop_size self.
Proof.
  unfold gop_structure.
  destruct (gop_size self <? 0); [auto|].
  destruct (0 <? gop_size self); [|auto].
  cbn [fst]. destruct ((0 <? bframes self) && negb bf); auto.
Qed.

(** A successful [set_format] went through the profile checks and the
    preset query. *)
Lemma set_format_inr_inv klass session allowed_caps info self self' cfg :
  gst_nv_h264_encoder_set_format klass session allowed_caps info self
  = (self', inr cfg) ->
  exists ps sel bf presetCfg,
    check_downstream_profiles info (downstream_profiles_of allowed_caps)
    = inr (ps, sel, bf)
    /\ session (preset self) = Some presetCfg.
Proof.
  unfold gst_nv_h264_encoder_set_format, downstream_profiles_of.
  destruct (gst_nv_h264_encoder_get_downstream_profiles_and_format
              allowed_caps StringSet.empty) as [dp fmt].
  cbn [fst].
  destruct (check_downstream_profiles info dp) as [f|[[ps sel] bf]];
    [discriminate|].
  change (preset (set_packetized match fmt with Some p => p | None => false end
                    self)) with (preset self).
  destruct (session (preset self)) as [presetCfg|]; [|discriminate].
  intros _. eauto 6.
Qed.

Lemma gop_structure_flags bf self :
  dirty_flags (fst (fst (fst (gop_structure bf self)))) = dirty_flags self.
Proof.
  unfold gop_structure.
  destruct (gop_size self <? 0); [reflexivity|].
  destruct (0 <? gop_size self); [|reflexivity].
  cbn [fst]. destruct ((0 <? bframes self) && negb bf); reflexivity.
Qed.

(** X6: a successful [set_format] leaves no reconfiguration pending: the
    check that follows finds nothing to do and changes neither the encoder
    nor the configuration it is given. *)
Theorem set_format_then_check_reconfigure :
  forall klass session allowed_caps info self self' cfg config,
    gst_nv_h264_encoder_set_format klass session allowed_caps info self
    = (self', inr cfg) ->
    gst_nv_h264_encoder_check_reconfigure klass self' config
    = (self', config, GST_NV_ENCODER_RECONFIGURE_NONE).
Proof.
  intros klass session allowed_caps info self self' cfg config Heq.
  destruct (set_format_inr_inv _ _ _ _ _ _ _ Heq)
    as (ps & sel & bf & presetCfg & Hc & Hs).
  destruct (set_format_success klass session allowed_caps info self
              ps sel bf presetCfg Hc Hs) as [p Heq'].
  cbv zeta in Heq'. rewrite Heq' in Heq. injection Heq as Hself _.
  assert (Hflags : dirty_flags self' = (false, false, false))
    by (rewrite <- Hself; reflexivity).
  unfold dirty_flags in Hflags. injection Hflags as Hi Hr Hb.
  unfold gst_nv_h264_encoder_check_reconfigure.
  rewrite Hi, Hr, Hb. cbn [orb].
  rewrite clear_updated_clean; [reflexivity|].
  unfold dirty_flags. now rewrite Hi, Hr, Hb.
Qed.

(** X6 on the default encoder with "main" downstream. *)
Lemma set_format_then_check_reconfigure_witness :
  let r :=
    gst_nv_h264_encoder_set_format plain_class plain_session
      (caps_with_profiles ["main"] "byte-stream") nv12_progressive
      (gst_nv_h264_encoder_set_property PROP_GOP_SIZE (GInt 30)
         (gst_nv_h264_encoder_init plain_class)) in
  snd (gst_nv_h264_encoder_check_reconfigure plain_class (fst r) zero_config)
  = GST_NV_ENCODER_RECONFIGURE_NONE.
Proof.
  intros r.
  destruct (snd r) as [f|cfg] eqn:E; [discriminate E|].
  rewrite (set_format_then_check_reconfigure plain_class plain_session
             (caps_with_profiles ["main"] "byte-stream") nv12_progressive
             (gst_nv_h264_encoder_set_property PROP_GOP_SIZE (GInt 30)
                (gst_nv_h264_encoder_init plain_class))
             (fst r) cfg zero_config).
  - reflexivity.
  - rewrite <- E. apply surjective_pairing.
Defined.

(** X7: a failed [set_format] changes nothing but [packetized]: every
    property reads as before and the dirty flags stay as they were, so a
    pending reconfiguration is not lost. *)
Theorem set_format_failure_keeps_encoder :
  forall klass session allowed_caps info self self' f,
    gst_nv_h264_encoder_set_format klass session allowed_caps info self
    = (self', inl f) ->
    dirty_flags self' = dirty_flags self
    /\ forall prop_id,
         gst_nv_h264_encoder_get_property klass prop_id self'
         = gst_nv_h264_encoder_get_property klass prop_id self.
Proof.
  intros klass session allowed_caps info self self' f.
  unfold gst_nv_h264_encoder_set_format.
  destruct (gst_nv_h264_encoder_get_downstream_profiles_and_format
              allowed_caps StringSet.empty) as [dp fmt].
  set (p := match fmt with Some p => p | None => false end).
  assert (H : dirty_flags (set_packetized p self) = dirty_flags self
              /\ forall prop_id,
                   gst_nv_h264_encoder_get_property klass prop_id
                     (set_packetized p self)
                   = gst_nv_h264_encoder_get_property klass prop_id self).
  { split; [reflexivity|]. intros prop_id. destruct prop_id; reflexivity. }
  destruct (check_downstream_profiles info dp) as [f0|[[ps sel] bf]].
  - intros E. injection E as <- _. exact H.
  - destruct (session (preset (set_packetized p self))).
    + destruct (gop_structure bf (set_packetized p self)) as [[[s1 gl] fip] ab].
      discriminate.
    + intros E. injection E as <- _. exact H.
Qed.

(** X7 on 4:4:4 input with "baseline" alone downstream, after a write to
    the GOP size. *)
Lemma set_format_failure_keeps_encoder_witness :
  let self :=
    gst_nv_h264_encoder_set_property PROP_GOP_SIZE (GInt 30)
      (gst_nv_h264_encoder_init plain_class) in
  dirty_flags
    (fst (gst_nv_h264_encoder_set_format plain_class plain_session
            (caps_with_profiles ["baseline"] "byte-stream")
            y444_progressive self))
  = (true, false, false).
Proof.
  intros self.
  destruct (set_format_failure_keeps_encoder plain_class plain_session
              (caps_with_profiles ["baseline"] "byte-stream")
              y444_progressive self
              (fst (gst_nv_h264_encoder_set_format plain_class plain_session
                      (caps_with_profiles ["baseline"] "byte-stream")
                      y444_progressive self))
              DownstreamDoesNotSupport444 eq_refl) as [H _].
  rewrite H. reflexivity.
Defined.

Lemma gop_structure_again bf self :
  let '(s1, gl, fip, ab) := gop_structure bf self in
  forall s2,
    gop_size s2 = gop_size s1 -> bframes s2 = bframes s1 ->
    gop_structure bf s2 = (s2, gl, fip, false).
Proof.
  unfold gop_structure.
  destruct (gop_size self <? 0) eqn:E1.
  - intros s2 Hg Hb. now rewrite Hg, E1.
  - destruct (0 <? gop_size self) eqn:E2.
    + destruct ((0 <? bframes self) && negb bf) eqn:E3; intros s2 Hg Hb.
      * cbn in Hg, Hb. rewrite Hg, E1, E2, Hb. cbn. now rewrite Hb.
      * rewrite Hg, E1, E2, Hb, E3. now rewrite Hb.
    + intros s2 Hg Hb. now rewrite Hg, E1, E2.
Qed.

(** X8: building twice.  [set_format] run again on the encoder it returned,
    with the same caps, video info and device, returns the same encoder
    and the same configuration, and notifies nothing: a forced reset of the
    B-frame count is notified once. *)
Theorem set_format_twice :
  forall klass session allowed_caps info self self' cfg,
    gst_nv_h264_encoder_set_format klass session allowed_caps info self
    = (self', inr cfg) ->
    gst_nv_h264_encoder_set_format klass session allowed_caps info self'
    = (self', inr {| config := config cfg; notified := [] |}).
Proof.
  intros klass session allowed_caps info self self' cfg Heq.
  destruct (set_format_inr_inv _ _ _ _ _ _ _ Heq)
    as (ps & sel & bf & presetCfg & Hc & Hs).
  pose proof (set_format_result klass session allowed_caps info self
                ps sel bf presetCfg Hc Hs) as Heq1.
  cbv zeta in Heq1. rewrite Heq1 in Heq. injection Heq as Hself Hcfg.
  set (p := downstream_packetized allowed_caps) in *.
  pose proof (gop_structure_again bf (set_packetized p self)) as Hag.
  pose proof (gop_structure_keeps bf (set_packetized p self)) as Hk.
  cbv zeta in Hk.
  destruct (gop_structure bf (set_packetized p self)) as [[[s1 gl] fip] ab].
  cbn [fst snd] in Hself, Hcfg, Hk. destruct Hk as (Hp1 & Hpre & _).
  cbn in Hp1, Hpre.
  assert (Hs' : session (preset self') = Some presetCfg).
  { rewrite <- Hself. cbn. now rewrite Hpre. }
  rewrite (set_format_result klass session allowed_caps info self'
             ps sel bf presetCfg Hc Hs').
  fold p.
  assert (Hs2 : set_packetized p self' = self').
  { rewrite <- Hself. destruct s1. cbn in Hp1. subst p. rewrite <- Hp1.
    reflexivity. }
  rewrite Hs2.
  assert (Hgop2 : gop_structure bf self' = (self', gl, fip, false)).
  { apply Hag; rewrite <- Hself; reflexivity. }
  rewrite Hgop2. cbn [fst snd].
  assert (Hclean : set_rc_param_updated false
                     (set_bitrate_updated false
                        (set_init_param_updated false self')) = self').
  { rewrite <- Hself. destruct s1. reflexivity. }
  rewrite Hclean. rewrite <- Hcfg. cbn [config].
  rewrite <- Hself. destruct s1. reflexivity.
Qed.

(** X8 on the scenario of the forced reset: the second run notifies
    nothing. *)
Lemma set_format_twice_witness :
  let self :=
    gst_nv_h264_encoder_set_property PROP_GOP_SIZE (GInt 30)
      (gst_nv_h264_encoder_set_property PROP_B_FRAMES (GUInt 2)
         (gst_nv_h264_encoder_init plain_class)) in
  let r1 :=
    gst_nv_h264_encoder_set_format plain_class plain_session
      (caps_with_profiles ["baseline"] "byte-stream") nv12_progressive self in
  exists cfg1 cfg2,
    snd r1 = inr cfg1 /\ notified cfg1 = ["bframes"]
    /\ gst_nv_h264_encoder_set_format plain_class plain_session
         (caps_with_profiles ["baseline"] "byte-stream") nv12_progressive
         (fst r1)
       = (fst r1, inr cfg2)
    /\ config cfg2 = config cfg1 /\ notified cfg2 = [].
Proof.
  intros self r1.
  destruct (snd r1) as [f|cfg1] eqn:E; [discriminate E|].
  exists cfg1, {| config := config cfg1; notified := [] |}.
  split; [reflexivity|]. split; [injection E as <-; reflexivity|].
  split; [|split; reflexivity].
  apply (set_format_twice plain_class plain_session
           (caps_with_profiles ["baseline"] "byte-stream") nv12_progressive
           self (fst r1) cfg1).
  rewrite <- E. apply surjective_pairing.
Defined.

Lemma check_downstream_profiles_interlaced info dp ps sel bf :
  GST_VIDEO_INFO_IS_INTERLACED info = true ->
  check_downstream_profiles info dp = inr (ps, sel, bf) ->
  ps = erase_progressive_profiles dp
  /\ (sel = NV_ENC_CODEC_PROFILE_AUTOSELECT_GUID
      \/ sel = NV_ENC_H264_PROFILE_HIGH_444_GUID).
Proof.
  intros Hi. unfold check_downstream_profiles. rewrite Hi.
  destruct (StringSet.is_empty dp); [discriminate|].
  cbn [andb].
  destruct (StringSet.is_empty _); [discriminate|].
  destruct (is_Y444 _); [destruct (negb _); [discriminate|]|];
    intros H; injection H as <- <- _; auto.
Qed.

(** X9: interlaced input.  Whatever downstream offers and whatever the
    properties, a configuration built for interlaced input carries the
    main, the high or the 4:4:4 profile, or leaves the profile on
    auto-select: never the baseline, progressive-high or constrained-high
    profile. *)
Theorem set_format_interlaced_profile :
  forall klass session allowed_caps info self self' cfg,
    GST_VIDEO_INFO_IS_INTERLACED info = true ->
    gst_nv_h264_encoder_set_format klass session allowed_caps info self
    = (self', inr cfg) ->
    interlaced_profile (profileGUID (config cfg)) = true.
Proof.
  intros klass session allowed_caps info self self' cfg Hi Heq.
  destruct (set_format_inr_inv _ _ _ _ _ _ _ Heq)
    as (ps & sel & bf & presetCfg & Hc & Hs).
  pose proof (set_format_result klass session allowed_caps info self
                ps sel bf presetCfg Hc Hs) as Heq1.
  cbv zeta in Heq1. rewrite Heq1 in Heq. injection Heq as _ <-.
  cbn [config profileGUID].
  destruct (check_downstream_profiles_interlaced _ _ _ _ _ Hi Hc)
    as [Hps Hsel].
  assert (Hno : forall p,
             StringSet.In p ps ->
             p <> "progressive-high" /\ p <> "constrained-high"
             /\ p <> "constrained-baseline" /\ p <> "baseline").
  { intros p Hp. rewrite Hps in Hp.
    apply erase_progressive_profiles_spec in Hp. tauto. }
  generalize (snd (fst (gop_structure bf
                          (set_packetized (downstream_packetized allowed_caps)
                             self)))).
  intros fip. unfold select_profile.
  destruct Hsel as [-> | ->]; [|reflexivity].
  cbn [GUID_eqb andb].
  assert (Hfirst :
            match StringSet.min_elt ps with
            | Some first =>
                first_profile_guid NV_ENC_CODEC_PROFILE_AUTOSELECT_GUID first
            | None => NV_ENC_CODEC_PROFILE_AUTOSELECT_GUID
            end = NV_ENC_CODEC_PROFILE_AUTOSELECT_GUID
            \/ match StringSet.min_elt ps with
               | Some first =>
                   first_profile_guid NV_ENC_CODEC_PROFILE_AUTOSELECT_GUID
                     first
               | None => NV_ENC_CODEC_PROFILE_AUTOSELECT_GUID
               end = NV_ENC_H264_PROFILE_MAIN_GUID).
  { destruct (StringSet.min_elt ps) as [first|] eqn:Hmin; [|now left].
    apply StringSet.min_elt_spec1 in Hmin.
    destruct (Hno first Hmin) as (H1 & H2 & H3 & H4).
    unfold first_profile_guid.
    apply String.eqb_neq in H1, H2, H3, H4. rewrite H1, H2, H3, H4.
    cbn [orb]. destruct (String.eqb first "main"); auto. }
  assert (Hph : StringSet.mem "progressive-high" ps = false).
  { apply mem_false_iff. intros H. apply Hno in H. tauto. }
  destruct (1 <? fip).
  - destruct (StringSet.mem "main" ps); [reflexivity|].
    destruct (StringSet.mem "high" ps); [reflexivity|].
    rewrite Hph. cbn [GUID_eqb].
    destruct Hfirst as [-> | ->]; reflexivity.
  - cbn [GUID_eqb]. destruct Hfirst as [-> | ->]; reflexivity.
Qed.

(** X9 on interlaced 4:4:4 input with every known profile downstream. *)
Lemma set_format_interlaced_profile_witness :
  exists cfg,
    snd (gst_nv_h264_encoder_set_format plain_class plain_session
           (caps_with_profiles spec_priority_order "byte-stream")
           interlaced_444 (gst_nv_h264_encoder_init plain_class))
    = inr cfg
    /\ interlaced_profile (profileGUID (config cfg)) = true.
Proof.
  eexists. split; [reflexivity|].
  eapply (set_format_interlaced_profile plain_class plain_session
            (caps_with_profiles spec_priority_order "byte-stream")
            interlaced_444 (gst_nv_h264_encoder_init plain_class));
    reflexivity.
Defined.

(** X10: no profile downstream.  [set_format] fails with "Unable to get
    downstream profile" exactly when the allowed caps name no profile at
    all. *)
Theorem set_format_without_downstream_profile :
  forall klass session allowed_caps info self,
    snd (gst_nv_h264_encoder_set_format klass session allowed_caps info self)
    = inl UnableToGetDownstreamProfile
    <-> StringSet.Empty (downstream_profiles_of allowed_caps).
Proof.
  intros klass session allowed_caps info self.
  rewrite <- StringSet.is_empty_spec.
  unfold gst_nv_h264_encoder_set_format, downstream_profiles_of.
  destruct (gst_nv_h264_encoder_get_downstream_profiles_and_format
              allowed_caps StringSet.empty) as [dp fmt].
  cbn [fst]. unfold check_downstream_profiles.
  destruct (StringSet.is_empty dp); [cbn; tauto|].
  split; [|discriminate].
  destruct (GST_VIDEO_INFO_IS_INTERLACED info && _); [discriminate|].
  destruct (is_Y444 _); [destruct (negb _); [discriminate|]|];
    (destruct (session _); [|discriminate];
     destruct (gop_structure _ _) as [[[s1 gl] fip] ab]; discriminate).
Qed.

Lemma insert_profiles_spec name l s :
  StringSet.In name (fold_left (fun acc p => insert_profile p acc) l s)
  <-> StringSet.In name s \/ In (Some name) l.
Proof.
  revert s. induction l as [|p l IH]; intros s; cbn [fold_left In].
  - tauto.
  - rewrite IH. destruct p as [q|]; cbn [insert_profile].
    + rewrite StringSet.add_spec. split.
      * intros [[-> | H] | H]; auto.
      * intros [H | [H | H]]; auto. injection H as ->. auto.
    + split; [tauto|]. intros [H | [H | H]]; auto. discriminate.
Qed.

Lemma insert_structure_profiles_spec name st s :
  StringSet.In name (insert_structure_profiles st s)
  <-> StringSet.In name s \/ structure_offers st name.
Proof.
  unfold insert_structure_profiles, structure_offers.
  destruct (profile st) as [[l|[q|]]|].
  - apply insert_profiles_spec.
  - cbn. rewrite StringSet.add_spec. split.
    + intros [-> | H]; auto.
    + intros [H | H]; auto. injection H as ->. auto.
  - cbn. split; [tauto|]. intros [H | H]; auto. discriminate.
  - tauto.
Qed.

Lemma insert_structures_spec name l s :
  StringSet.In name
    (fold_left (fun acc st => insert_structure_profiles st acc) l s)
  <-> StringSet.In name s \/ exists st, In st l /\ structure_offers st name.
Proof.
  revert s. induction l as [|st l IH]; intros s; cbn [fold_left In].
  - split; [tauto|]. intros [H | (st & [] & _)]. exact H.
  - rewrite IH, insert_structure_profiles_spec. split.
    + intros [[H | H] | (st' & Hin & Ho)]; eauto.
    + intros [H | (st' & [-> | Hin] & Ho)]; eauto.
Qed.

(** X11: the downstream profile set.  A name is in the set read from the
    allowed caps exactly when the caps are a list of structures one of
    which names it, as its "profile" string or in its "profile" list;
    missing caps and ANY caps give the empty set. *)
Theorem downstream_profiles_of_spec :
  forall allowed_caps name,
    StringSet.In name (downstream_profiles_of allowed_caps)
    <-> exists l st,
          allowed_caps = Some (GstCapsStructures l)
          /\ In st l /\ structure_offers st name.
Proof.
  intros allowed_caps name. unfold downstream_profiles_of.
  destruct allowed_caps as [[|[|first l]]|]; cbn [fst
    gst_nv_h264_encoder_get_downstream_profiles_and_format].
  - split; [intros H; now apply StringSet.empty_spec in H|].
    intros (l & st & E & _). discriminate.
  - split; [intros H; now apply StringSet.empty_spec in H|].
    intros (l & st & E & Hin & _). injection E as <-. destruct Hin.
  - rewrite insert_structures_spec. split.
    + intros [H | (st & Hin & Ho)];
        [now apply StringSet.empty_spec in H|eauto].
    + intros (l' & st & E & Hin & Ho). injection E as <-. eauto.
  - split; [intros H; now apply StringSet.empty_spec in H|].
    intros (l & st & E & _). discriminate.
Qed.

Lemma check_downstream_profiles_subset info dp ps sel bf :
  check_downstream_profiles info dp = inr (ps, sel, bf) ->
  forall p, StringSet.In p ps -> StringSet.In p dp.
Proof.
  unfold check_downstream_profiles.
  destruct (StringSet.is_empty dp); [discriminate|].
  destruct (GST_VIDEO_INFO_IS_INTERLACED info); cbn [andb].
  - destruct (StringSet.is_empty _); [discriminate|].
    destruct (is_Y444 _); [destruct (negb _); [discriminate|]|];
      intros H; injection H as <- _ _; intros p Hp;
      apply erase_progressive_profiles_spec in Hp; tauto.
  - destruct (is_Y444 _); [destruct (negb _); [discriminate|]|];
      intros H; injection H as <- _ _; auto.
Qed.

(** X12: baseline-class profiles alone downstream.  When every profile
    offered is "baseline" or "constrained-baseline" and the input is not
    4:4:4, a configuration that is built carries the baseline profile,
    has no B-frames ([frameIntervalP] at most 1) and leaves the entropy
    coding on auto-select, whatever the B-frame count and the CABAC
    property ask for. *)
Theorem set_format_baseline_only :
  forall klass session allowed_caps info self self' cfg,
    gst_nv_h264_encoder_set_format klass session allowed_caps info self
    = (self', inr cfg) ->
    is_Y444 (info_format info) = false ->
    (forall p, StringSet.In p (downstream_profiles_of allowed_caps) ->
               p = "baseline" \/ p = "constrained-baseline") ->
    0 <= bframes self ->
    profileGUID (config cfg) = NV_ENC_H264_PROFILE_BASELINE_GUID
    /\ frameIntervalP (config cfg) <= 1
    /\ entropyCodingMode (h264Config (config cfg))
       = NV_ENC_H264_ENTROPY_CODING_MODE_AUTOSELECT.
Proof.
  intros klass session allowed_caps info self self' cfg Heq Hf Hall Hb.
  destruct (set_format_inr_inv _ _ _ _ _ _ _ Heq)
    as (ps & sel & bf & presetCfg & Hc & Hs).
  pose proof (set_format_result klass session allowed_caps info self
                ps sel bf presetCfg Hc Hs) as Heq1.
  cbv zeta in Heq1. rewrite Heq1 in Heq. injection Heq as _ <-.
  cbn [config profileGUID frameIntervalP h264Config].
  assert (Hps : forall p, StringSet.In p ps ->
                          p = "baseline" \/ p = "constrained-baseline").
  { intros p Hp. apply Hall.
    eapply check_downstream_profiles_subset; eauto. }
  destruct (check_downstream_profiles_not_444 _ _ _ _ _ Hf Hc) as [Hsel0 Hbf].
  assert (Hbf0 : bf = false).
  { rewrite Hbf. destruct (any_profile_supports_bframe ps) eqn:E;
      [|reflexivity].
    apply any_profile_supports_bframe_spec in E. destruct E as (p & Hp & Hs').
    destruct (Hps p Hp) as [-> | ->]; discriminate. }
  clear Hbf. subst bf sel.
  set (s0 := set_packetized (downstream_packetized allowed_caps) self).
  assert (Hfip : snd (fst (gop_structure false s0)) <= 1).
  { unfold gop_structure.
    change (gop_size s0) with (gop_size self).
    change (bframes s0) with (bframes self).
    destruct (gop_size self <? 0); [cbn; lia|].
    destruct (0 <? gop_size self); [|cbn; lia].
    cbn [negb andb fst snd]. rewrite andb_true_r.
    destruct (Z.ltb_spec 0 (bframes self)); cbn [fst snd bframes set_bframes].
    - cbn. lia.
    - change (bframes s0) with (bframes self).
      replace (bframes self) with 0 by lia. cbn. lia. }
  destruct (min_elt_first ps (check_downstream_profiles_nonempty _ _ _ _ _ Hc))
    as (first & Hmin & Hin & _).
  assert (Hsel : select_profile NV_ENC_CODEC_PROFILE_AUTOSELECT_GUID
                   (snd (fst (gop_structure false s0))) ps
                 = NV_ENC_H264_PROFILE_BASELINE_GUID).
  { unfold select_profile.
    destruct (Z.ltb_spec 1 (snd (fst (gop_structure false s0)))); [lia|].
    cbn [GUID_eqb andb]. rewrite Hmin.
    destruct (Hps first Hin) as [-> | ->]; reflexivity. }
  rewrite Hsel. split; [reflexivity|]. split; [exact Hfip|].
  unfold build_h264_config. cbn [entropyCodingMode GUID_eqb negb].
  now rewrite andb_false_r.
Qed.

(** X12 with three B-frames and CABAC asked for, "baseline" and
    "constrained-baseline" downstream. *)
Lemma set_format_baseline_only_witness :
  let r :=
    gst_nv_h264_encoder_set_format plain_class plain_session
      (caps_with_profiles ["constrained-baseline"; "baseline"] "avc")
      nv12_progressive
      (gst_nv_h264_encoder_set_property PROP_B_FRAMES (GUInt 3)
         (gst_nv_h264_encoder_init plain_class)) in
  exists cfg,
    snd r = inr cfg
    /\ profileGUID (config cfg) = NV_ENC_H264_PROFILE_BASELINE_GUID
    /\ frameIntervalP (config cfg) <= 1
    /\ entropyCodingMode (h264Config (config cfg))
       = NV_ENC_H264_ENTROPY_CODING_MODE_AUTOSELECT.
Proof.
  intros r.
  destruct (snd r) as [f|cfg] eqn:E; [discriminate E|].
  exists cfg. split; [reflexivity|].
  apply (set_format_baseline_only plain_class plain_session
           (caps_with_profiles ["constrained-baseline"; "baseline"] "avc")
           nv12_progressive
           (gst_nv_h264_encoder_set_property PROP_B_FRAMES (GUInt 3)
              (gst_nv_h264_encoder_init plain_class))
           (fst r) cfg).
  - rewrite <- E. apply surjective_pairing.
  - reflexivity.
  - intros p Hp. apply StringSet.mem_spec in Hp.
    apply StringSet.mem_spec in Hp.
    apply StringSet.add_spec in Hp. destruct Hp as [-> | Hp]; [now left|].
    apply StringSet.add_spec in Hp. destruct Hp as [-> | Hp]; [now right|].
    apply StringSet.empty_spec in Hp. contradiction.
  - cbv. discriminate.
Defined.

(** X13: the constant QP for P and B frames.  The configuration that
    [set_format] builds, its success or failure, and what it notifies do
    not depend on the [qp-const-p] and [qp-const-b] properties. *)
Theorem set_format_ignores_qp_const_p_b :
  forall klass session allowed_caps info self p b,
    snd (gst_nv_h264_encoder_set_format klass session allowed_caps info
           (set_qp_const_b b (set_qp_const_p p self)))
    = snd (gst_nv_h264_encoder_set_format klass session allowed_caps info
             self).
Proof.
  intros klass session allowed_caps info self p b.
  unfold gst_nv_h264_encoder_set_format.
  destruct (gst_nv_h264_encoder_get_downstream_profiles_and_format
              allowed_caps StringSet.empty) as [dp fmt].
  destruct (check_downstream_profiles info dp) as [f|[[ps sel] bf]];
    [reflexivity|].
  set (pk := match fmt with Some p => p | None => false end).
  change (preset (set_packetized pk (set_qp_const_b b (set_qp_const_p p self))))
    with (preset self).
  change (preset (set_packetized pk self)) with (preset self).
  destruct (session (preset self)) as [presetCfg|]; [|reflexivity].
  unfold gop_structure.
  change (gop_size (set_packetized pk
                      (set_qp_const_b b (set_qp_const_p p self))))
    with (gop_size self).
  change (bframes (set_packetized pk
                     (set_qp_const_b b (set_qp_const_p p self))))
    with (bframes self).
  change (gop_size (set_packetized pk self)) with (gop_size self).
  change (bframes (set_packetized pk self)) with (bframes self).
  destruct (gop_size self <? 0); [reflexivity|].
  destruct (0 <? gop_size self); [|reflexivity].
  destruct ((0 <? bframes self) && negb bf); reflexivity.
Qed.

(** ** The sink caps query *)

Ltac scan_close :=
  solve [ auto
        | congruence
        | left; auto
        | right; left; auto
        | right; right; split; [assumption|];
          eexists; split; [|eassumption]; auto ].

Lemma getcaps_scan_list l b fmts :
  let r :=
    fold_left
      (fun acc iter =>
         let '(profile_support_interlaced, allowed_formats) := acc in
         let profile_support_interlaced :=
           if String.eqb iter "high" || String.eqb iter "main" then true
           else profile_support_interlaced in
         if String.eqb iter "high-4:4:4"
         then (true, StringSet.add "Y444" allowed_formats)
         else (profile_support_interlaced,
               StringSet.add "NV12" allowed_formats))
      l (b, fmts) in
  (fst r = true <->
   b = true \/ In "high" l \/ In "main" l \/ In "high-4:4:4" l)
  /\ forall f,
       StringSet.In f (snd r) <->
       StringSet.In f fmts
       \/ (f = "Y444" /\ In "high-4:4:4" l)
       \/ (f = "NV12" /\ exists p, In p l /\ p <> "high-4:4:4").
Proof.
  revert b fmts. induction l as [|p l IH]; intros b fmts.
  - cbn. split; [tauto|]. intros f. split; [tauto|].
    intros [H | [[_ []] | (_ & q & [] & _)]]. exact H.
  - cbn [fold_left].
    destruct (String.eqb_spec p "high-4:4:4") as [-> | Hne].
    + change (("high-4:4:4" =? "high")%string) with false.
      change (("high-4:4:4" =? "main")%string) with false.
      cbn [orb].
      destruct (IH true (StringSet.add "Y444" fmts)) as [H1 H2].
      cbv zeta in H1, H2 |- *. split.
      * rewrite H1. cbn [In]. tauto.
      * intros f. rewrite H2, StringSet.add_spec. cbn [In]. split.
        -- intros [[Hf | H] | [[Hf H] | (Hf & q & Hq & Hqn)]]; scan_close.
        -- intros [H | [[Hf [_ | H]] | (Hf & q & [Hq | Hq] & Hqn)]];
             scan_close.
    + destruct (IH (if String.eqb p "high" || String.eqb p "main"
                    then true else b)
                  (StringSet.add "NV12" fmts)) as [H1 H2].
      cbv zeta in H1, H2 |- *. split.
      * rewrite H1. cbn [In].
        destruct (String.eqb_spec p "high") as [-> | Hh]; cbn [orb];
          [tauto|].
        destruct (String.eqb_spec p "main") as [-> | Hm]; [tauto|].
        split; [tauto|].
        intros [H | [[H | H] | [[H | H] | [H | H]]]]; auto; congruence.
      * intros f. rewrite H2, StringSet.add_spec. cbn [In]. split.
        -- intros [[Hf | H] | [[Hf H] | (Hf & q & Hq & Hqn)]]; scan_close.
        -- intros [H | [[Hf [H | H]] | (Hf & q & [Hq | Hq] & Hqn)]];
             scan_close.
Qed.

Lemma In_elements p s : In p (StringSet.elements s) <-> StringSet.In p s.
Proof.
  rewrite <- StringSet.elements_spec1, InA_alt. split.
  - intros H. now exists p.
  - intros (y & -> & H). exact H.
Qed.

Lemma getcaps_scan_spec s :
  (fst (getcaps_scan s) = true <->
   StringSet.In "high" s \/ StringSet.In "main" s
   \/ StringSet.In "high-4:4:4" s)
  /\ forall f,
       StringSet.In f (snd (getcaps_scan s)) <->
       (f = "Y444" /\ StringSet.In "high-4:4:4" s)
       \/ (f = "NV12" /\ exists p, StringSet.In p s /\ p <> "high-4:4:4").
Proof.
  unfold getcaps_scan. rewrite StringSet.fold_spec.
  destruct (getcaps_scan_list (StringSet.elements s) false StringSet.empty)
    as [H1 H2].
  cbv zeta in H1, H2. split.
  - etransitivity; [exact H1|]. rewrite !In_elements.
    split; [intros [H|H]; [discriminate|exact H] | auto].
  - intros f. etransitivity; [apply H2|]. rewrite In_elements. split.
    + intros [H | [H | (Hf & p & Hp & Hn)]];
        [now apply StringSet.empty_spec in H | auto |].
      right. split; [exact Hf|]. exists p. now rewrite <- In_elements.
    + intros [H | (Hf & p & Hp & Hn)]; [auto|].
      right. right. split; [exact Hf|]. exists p. now rewrite In_elements.
Qed.

Lemma cardinal_zero_empty s :
  Nat.eqb (StringSet.cardinal s) 0 = StringSet.is_empty s.
Proof.
  destruct (StringSet.is_empty s) eqn:E.
  - apply StringSet.is_empty_spec in E.
    rewrite StringSet.cardinal_spec.
    destruct (StringSet.elements s) as [|x l] eqn:El; [reflexivity|].
    exfalso. apply (E x). apply In_elements. rewrite El. now left.
  - rewrite StringSet.cardinal_spec.
    destruct (StringSet.elements s) as [|x l] eqn:El; [|reflexivity].
    exfalso.
    assert (H : StringSet.is_empty s = true).
    { apply StringSet.is_empty_spec. intros x Hx.
      apply In_elements in Hx. rewrite El in Hx. destruct Hx. }
    congruence.
Qed.

(** X14: the formats of the sink caps.  With no profile downstream,
    [getcaps] restricts nothing.  Otherwise it allows "Y444" exactly when
    "high-4:4:4" is offered and "NV12" exactly when some other profile is
    offered, and no third format; and it keeps interlaced input exactly
    when the device encodes fields and "high", "main" or "high-4:4:4" is
    offered. *)
Theorem getcaps_restriction :
  forall klass allowed_caps,
    let dp := downstream_profiles_of allowed_caps in
    match gst_nv_h264_encoder_getcaps klass allowed_caps with
    | GetcapsProxy => StringSet.Empty dp
    | GetcapsRestricted progressive_only allowed_formats =>
        ~ StringSet.Empty dp
        /\ (forall f,
              StringSet.In f allowed_formats <->
              (f = "Y444" /\ StringSet.In "high-4:4:4" dp)
              \/ (f = "NV12"
                  /\ exists p, StringSet.In p dp /\ p <> "high-4:4:4"))
        /\ (progressive_only = false <->
            dev_field_encoding (dev_caps klass) <> 0
            /\ (StringSet.In "high" dp \/ StringSet.In "main" dp
                \/ StringSet.In "high-4:4:4" dp))
    end.
Proof.
  intros klass allowed_caps dp.
  unfold gst_nv_h264_encoder_getcaps.
  change (fst (gst_nv_h264_encoder_get_downstream_profiles_and_format
                 allowed_caps StringSet.empty)) with dp.
  rewrite cardinal_zero_empty.
  destruct (StringSet.is_empty dp) eqn:E.
  - now apply StringSet.is_empty_spec.
  - destruct (getcaps_scan_spec dp) as [H1 H2].
    destruct (getcaps_scan dp) as [psi fmts]. cbn [fst snd] in H1, H2.
    split; [|split; [exact H2|]].
    + intros H. apply StringSet.is_empty_spec in H. congruence.
    + rewrite <- H1.
      destruct (Z.eqb_spec (dev_field_encoding (dev_caps klass)) 0) as [->|Hn];
        destruct psi; cbn; split; try tauto; try discriminate;
        intros [? ?]; congruence.
Qed.

Lemma getcaps_is_proxy_or_scan klass allowed_caps po fmts :
  gst_nv_h264_encoder_getcaps klass allowed_caps = GetcapsRestricted po fmts ->
  let dp := downstream_profiles_of allowed_caps in
  StringSet.is_empty dp = false
  /\ fmts = snd (getcaps_scan dp)
  /\ po = (dev_field_encoding (dev_caps klass) =? 0)
          || negb (fst (getcaps_scan dp)).
Proof.
  unfold gst_nv_h264_encoder_getcaps, downstream_profiles_of.
  rewrite cardinal_zero_empty.
  destruct (StringSet.is_empty _); [discriminate|].
  destruct (getcaps_scan _) as [psi f]. intros H. injection H as <- <-.
  auto.
Qed.

(** X15: the sink caps and [set_format] agree.  When downstream names a
    profile, a video info that the restriction of [getcaps] lets through,
    by its format and its interlace mode, passes the profile checks of
    [set_format] for the same downstream caps: [set_format] can then only
    fail at the preset query of the device. *)
Theorem getcaps_admits_set_format :
  forall klass session allowed_caps info self f,
    getcaps_admits (gst_nv_h264_encoder_getcaps klass allowed_caps) info ->
    snd (gst_nv_h264_encoder_set_format klass session allowed_caps info self)
    = inl f ->
    f = FailedToGetPresetConfig.
Proof.
  intros klass session allowed_caps info self f Hadm.
  destruct (gst_nv_h264_encoder_getcaps klass allowed_caps)
    as [|po fmts] eqn:Hg; [destruct Hadm|].
  destruct (getcaps_is_proxy_or_scan _ _ _ _ Hg) as (Hne & -> & ->).
  destruct Hadm as [(name & Hname & Hin) Hint].
  destruct (getcaps_scan_spec (downstream_profiles_of allowed_caps))
    as [H1 H2].
  apply H2 in Hin.
  unfold gst_nv_h264_encoder_set_format.
  unfold downstream_profiles_of in *.
  destruct (gst_nv_h264_encoder_get_downstream_profiles_and_format
              allowed_caps StringSet.empty) as [dp fmt].
  cbn [fst] in *.
  assert (Hc : exists ps sel bf,
             check_downstream_profiles info dp = inr (ps, sel, bf)).
  { unfold check_downstream_profiles. rewrite Hne.
    destruct (GST_VIDEO_INFO_IS_INTERLACED info) eqn:Hi; cbn [andb].
    - specialize (Hint eq_refl). apply orb_false_elim in Hint.
      destruct Hint as [_ Hpsi]. apply negb_false_iff in Hpsi.
      apply H1 in Hpsi.
      assert (Hfe : StringSet.is_empty (erase_progressive_profiles dp) = false).
      { destruct Hpsi as [H | [H | H]];
          (eapply is_empty_false_of_In;
           apply erase_progressive_profiles_spec;
           split; [exact H | repeat split; discriminate]). }
      rewrite Hfe.
      destruct (info_format info) as [| |n];
        cbn [is_Y444 video_format_name] in Hname |- *;
        try discriminate; [eauto|].
      injection Hname as <-.
      destruct Hin as [[_ H444] | [Hf _]]; [|discriminate].
      assert (Hm : StringSet.mem "high-4:4:4" (erase_progressive_profiles dp)
                   = true).
      { apply StringSet.mem_spec, erase_progressive_profiles_spec.
        split; [exact H444 | repeat split; discriminate]. }
      rewrite Hm. cbn. eauto.
    - destruct (info_format info) as [| |n];
        cbn [is_Y444 video_format_name] in Hname |- *;
        try discriminate; [eauto|].
      injection Hname as <-.
      destruct Hin as [[_ H444] | [Hf _]]; [|discriminate].
      apply StringSet.mem_spec in H444. rewrite H444. cbn. eauto. }
  destruct Hc as (ps & sel & bf & ->).
  destruct (session _); [|cbn; congruence].
  destruct (gop_structure _ _) as [[[s1 gl] fip] ab]. discriminate.
Qed.

(** X15 on interlaced NV12 input, "main" and "baseline" downstream, on a
    device that encodes fields but whose preset query fails. *)
Lemma getcaps_admits_set_format_witness :
  let caps := caps_with_profiles ["main"; "baseline"] "byte-stream" in
  getcaps_admits (gst_nv_h264_encoder_getcaps field_class caps)
    interlaced_nv12
  /\ snd (gst_nv_h264_encoder_set_format field_class (fun _ => None) caps
            interlaced_nv12 (gst_nv_h264_encoder_init field_class))
     = inl FailedToGetPresetConfig.
Proof.
  intros caps.
  assert (Hadm : getcaps_admits (gst_nv_h264_encoder_getcaps field_class caps)
                   interlaced_nv12).
  { split.
    - exists "NV12". split; [reflexivity|].
      apply StringSet.mem_spec. reflexivity.
    - reflexivity. }
  split; [exact Hadm|].
  destruct (snd (gst_nv_h264_encoder_set_format field_class (fun _ => None)
                   caps interlaced_nv12
                   (gst_nv_h264_encoder_init field_class)))
    as [f|cfg] eqn:E.
  - f_equal.
    exact (getcaps_admits_set_format field_class (fun _ => None) caps
             interlaced_nv12 (gst_nv_h264_encoder_init field_class)
             f Hadm E).
  - discriminate E.
Defined.

(** ** The output state *)

Lemma bytes_at_length data offset0 size0 :
  length (bytes_at data offset0 size0) = size0.
Proof. unfold bytes_at. now rewrite length_map, length_seq. Qed.

Lemma bytes_at_in_bounds data offset0 size0 :
  (offset0 + size0 <= length data)%nat ->
  bytes_at data offset0 size0 = firstn size0 (skipn offset0 data).
Proof.
  revert data offset0. induction size0 as [|n IH]; intros data offset0 H.
  - reflexivity.
  - unfold bytes_at in *. cbn [seq map].
    rewrite (IH data (S offset0)) by lia.
    assert (Hlt : (offset0 < length data)%nat) by lia.
    clear IH H. revert data Hlt.
    induction offset0 as [|k IHk]; intros data Hlt.
    + destruct data as [|b data]; [cbn in Hlt; lia|]. reflexivity.
    + destruct data as [|b data]; [cbn in Hlt; lia|].
      cbn [nth]. cbn [skipn]. apply IHk. cbn in Hlt. lia.
Qed.

Lemma GST_READ_WRITE_UINT16_BE num rest :
  0 <= num < 2 ^ 16 ->
  GST_READ_UINT16_BE (GST_WRITE_UINT16_BE num ++ rest) = num.
Proof.
  intros H. unfold GST_WRITE_UINT16_BE, GST_READ_UINT16_BE. cbn [app].
  assert (Hb : forall x, 0 <= Z.land x 255 < 256).
  { intros x. change 255 with (Z.ones 8). rewrite Z.land_ones by lia.
    apply Z.mod_pos_bound. lia. }
  rewrite !byte_of_Z_to_N by apply Hb.
  apply Z.bits_inj'. intros i Hi.
  assert (Hhigh : 16 <= i -> Z.testbit num i = false).
  { intros H16. destruct (Z.eq_dec num 0) as [->|Hnz]; [apply Z.bits_0|].
    apply Z.bits_above_log2; [lia|].
    apply Z.lt_le_trans with 16; [|lia].
    apply Z.log2_lt_pow2; lia. }
  rewrite !Z.lor_spec, !Z.shiftl_spec by lia.
  change 255 with (Z.ones 8).
  rewrite !testbit_byte_of by lia.
  replace (Z.testbit (Z.land num (Z.ones 8)) i)
    with (Z.testbit num i && ((0 <=? i) && (i <? 0 + 8)))
    by (rewrite <- (testbit_byte_of num 0 i) by lia;
        rewrite Z.shiftr_0_r; f_equal; lia).
  destruct (Z.testbit num i) eqn:T; cbn [andb orb]; [|reflexivity].
  destruct (Z.lt_ge_cases i 16) as [H16|H16];
    [|discriminate (Hhigh H16)].
  repeat match goal with
         | |- context [?a <=? ?b] => destruct (Z.leb_spec a b)
         | |- context [?a <? ?b] => destruct (Z.ltb_spec a b)
         end; cbn; try reflexivity; lia.
Qed.

(** X16: the layout of the codec data.  For two units that lie inside the
    sequence header, the buffer has 11 bytes more than the two units
    together; it begins with the version 1, the three bytes that follow
    the header of the first unit, [0xff] and [0xe1]; the first unit
    follows its length on two bytes at offset 6, and the second one the
    count 1 and its length on two bytes. *)
Theorem make_codec_data_layout :
  forall spspps sps_nalu header_bytes pps_nalu,
    (offset sps_nalu + size sps_nalu <= length spspps)%nat ->
    (offset pps_nalu + size pps_nalu <= length spspps)%nat ->
    (header_bytes + 3 <= size sps_nalu)%nat ->
    Z.of_nat (length spspps) < 2 ^ 16 ->
    let cd := make_codec_data spspps sps_nalu header_bytes pps_nalu in
    let sps := firstn (size sps_nalu) (skipn (offset sps_nalu) spspps) in
    let pps := firstn (size pps_nalu) (skipn (offset pps_nalu) spspps) in
    length cd = (11 + size sps_nalu + size pps_nalu)%nat
    /\ firstn 6 cd
       = [x01] ++ firstn 3 (skipn header_bytes sps) ++ [xff; xe1]
    /\ GST_READ_UINT16_BE (skipn 6 cd) = Z.of_nat (length sps)
    /\ firstn (length sps) (skipn 8 cd) = sps
    /\ nth (8 + length sps) cd x00 = x01
    /\ GST_READ_UINT16_BE (skipn (9 + length sps) cd) = Z.of_nat (length pps)
    /\ skipn (11 + length sps) cd = pps.
Proof.
  intros spspps sps_nalu header_bytes pps_nalu Hs Hp Hh Hl.
  cbv zeta. unfold make_codec_data. cbv zeta.
  rewrite !bytes_at_in_bounds by assumption.
  set (sps := firstn (size sps_nalu) (skipn (offset sps_nalu) spspps)).
  set (pps := firstn (size pps_nalu) (skipn (offset pps_nalu) spspps)).
  assert (Hls : length sps = size sps_nalu).
  { unfold sps. rewrite length_firstn, length_skipn. lia. }
  assert (Hlp : length pps = size pps_nalu).
  { unfold pps. rewrite length_firstn, length_skipn. lia. }
  rewrite !to_guint_small by lia.
  assert (Hhead : firstn 3 (skipn header_bytes sps)
                  = [ nth (offset sps_nalu + header_bytes) spspps x00;
                      nth (offset sps_nalu + header_bytes + 1) spspps x00;
                      nth (offset sps_nalu + header_bytes + 2) spspps x00 ]).
  { unfold sps. rewrite skipn_firstn_comm, skipn_skipn.
    rewrite firstn_firstn. replace (Init.Nat.min 3 (size sps_nalu - header_bytes))
      with 3%nat by lia.
    rewrite <- (bytes_at_in_bounds spspps (header_bytes + offset sps_nalu) 3)
      by lia.
    unfold bytes_at. cbn [seq map].
    assert (Hn : forall i j, i = j -> nth i spspps x00 = nth j spspps x00)
      by (intros i j ->; reflexivity).
    rewrite (Hn (header_bytes + offset sps_nalu)%nat
               (offset sps_nalu + header_bytes)%nat) by lia.
    rewrite (Hn (S (header_bytes + offset sps_nalu))
               (offset sps_nalu + header_bytes + 1)%nat) by lia.
    rewrite (Hn (S (S (header_bytes + offset sps_nalu)))
               (offset sps_nalu + header_bytes + 2)%nat) by lia.
    reflexivity. }
  rewrite Hhead, Hls, Hlp.
  change (byte_of_Z 1) with x01.
  change (byte_of_Z (Z.lor 252 (4 - 1))) with xff.
  change (byte_of_Z (Z.lor 224 1)) with xe1.
  assert (Hbs : 0 <= Z.of_nat (size sps_nalu) < 2 ^ 16) by lia.
  assert (Hbp : 0 <= Z.of_nat (size pps_nalu) < 2 ^ 16) by lia.
  repeat split.
  - rewrite !length_app. unfold GST_WRITE_UINT16_BE. cbn [length].
    rewrite Hls, Hlp. lia.
  - cbn [app skipn]. apply GST_READ_WRITE_UINT16_BE. exact Hbs.
  - unfold GST_WRITE_UINT16_BE. cbn [app skipn]. rewrite <- Hls.
    apply firstn_app_exact.
  - unfold GST_WRITE_UINT16_BE. cbn [app Nat.add nth]. rewrite <- Hls.
    apply nth_middle.
  - unfold GST_WRITE_UINT16_BE at 1. cbn [app Nat.add].
    rewrite !skipn_cons.
    change (S (size sps_nalu)) with (1 + size sps_nalu)%nat.
    rewrite <- skipn_skipn, <- Hls, skipn_app_exact.
    cbn [app skipn]. apply GST_READ_WRITE_UINT16_BE. exact Hbp.
  - unfold GST_WRITE_UINT16_BE. cbn [app Nat.add].
    rewrite !skipn_cons.
    change (S (S (S (size sps_nalu)))) with (3 + size sps_nalu)%nat.
    rewrite <- skipn_skipn, <- Hls, skipn_app_exact.
    reflexivity.
Qed.

(** X16 on a sequence header of two units. *)
Lemma make_codec_data_layout_witness :
  make_codec_data example_spspps (mkNalUnit 4 10) 1 (mkNalUnit 18 4)
  = [ x01; x42; xc0; x1f; xff; xe1;
      x00; x0a; x67; x42; xc0; x1f; xda; x01; x40; x16; xe8; x40;
      x01; x00; x04; x68; xce; x3c; x80 ]
  /\ length (make_codec_data example_spspps (mkNalUnit 4 10) 1
               (mkNalUnit 18 4)) = 25%nat.
Proof.
  split; [reflexivity|].
  apply (make_codec_data_layout example_spspps (mkNalUnit 4 10) 1%nat
           (mkNalUnit 18 4)); cbn; lia.
Defined.

(** X17: the profile of the output caps.  When downstream names profiles,
    the profile written into the output caps is one of them, or no profile
    is written; the only profile written that the sequence header does not
    carry is "baseline", for a "constrained-baseline" stream. *)
Theorem output_caps_profile_offered :
  forall profile_from_sps downstream_profiles p,
    ~ StringSet.Empty downstream_profiles ->
    output_caps_profile profile_from_sps downstream_profiles = Some p ->
    StringSet.In p downstream_profiles
    /\ (profile_from_sps = Some p
        \/ (p = "baseline"
            /\ profile_from_sps = Some "constrained-baseline")).
Proof.
  intros [q|] dp p Hne; [|discriminate]. unfold output_caps_profile.
  destruct (StringSet.is_empty dp) eqn:E.
  { apply StringSet.is_empty_spec in E. contradiction. }
  cbn [negb].
  destruct (StringSet.mem q dp) eqn:Hq.
  - intros H. injection H as <-. apply StringSet.mem_spec in Hq. auto.
  - destruct (StringSet.mem "baseline" dp) eqn:Hb; cbn [andb].
    + destruct (String.eqb_spec q "constrained-baseline") as [-> | Hn].
      * intros H. injection H as <-. apply StringSet.mem_spec in Hb. auto.
      * rewrite andb_false_r. discriminate.
    + destruct (String.eqb_spec q "constrained-baseline") as [-> | Hn].
      * rewrite Hq. discriminate.
      * rewrite andb_false_r. discriminate.
Qed.

(** X17 on a "constrained-baseline" stream with "baseline" and "main"
    downstream. *)
Lemma output_caps_profile_offered_witness :
  let dp := StringSet.add "baseline" (StringSet.add "main" StringSet.empty) in
  output_caps_profile (Some "constrained-baseline") dp = Some "baseline"
  /\ StringSet.In "baseline" dp.
Proof.
  intros dp. split; [reflexivity|].
  apply (output_caps_profile_offered (Some "constrained-baseline") dp
           "baseline").
  - intros H. apply (H "main"). apply StringSet.mem_spec. reflexivity.
  - reflexivity.
Defined.

Lemma string_append_assoc (a b c : string) :
  ((a ++ b) ++ c = a ++ (b ++ c))%string.
Proof. induction a as [|ch a IH]; cbn; [reflexivity | now rewrite IH]. Qed.

Lemma set_format_packetized klass session allowed_caps info self self' cfg :
  gst_nv_h264_encoder_set_format klass session allowed_caps info self
  = (self', inr cfg) ->
  packetized self' = downstream_packetized allowed_caps.
Proof.
  intros Heq.
  destruct (set_format_inr_inv _ _ _ _ _ _ _ Heq)
    as (ps & sel & bf & presetCfg & Hc & Hs).
  pose proof (set_format_result klass session allowed_caps info self
                ps sel bf presetCfg Hc Hs) as Heq1.
  cbv zeta in Heq1. rewrite Heq1 in Heq. injection Heq as Hself _.
  rewrite <- Hself. cbn.
  apply (gop_structure_keeps bf
           (set_packetized (downstream_packetized allowed_caps) self)).
Qed.

(** X18: the stream format of the output state.  After a successful
    [set_format], an output state that [set_output_state] builds for the
    same downstream caps carries codec data and the stream format "avc"
    when the first downstream structure asks for "avc", and no codec data
    and the stream format "byte-stream" otherwise, whatever the parser
    finds in the sequence header. *)
Theorem set_format_then_set_output_state :
  forall identify_nalu identify_nalu_unchecked get_profile
         klass session allowed_caps info self self' cfg seq_params st,
    gst_nv_h264_encoder_set_format klass session allowed_caps info self
    = (self', inr cfg) ->
    gst_nv_h264_encoder_set_output_state identify_nalu
      identify_nalu_unchecked get_profile seq_params allowed_caps self'
    = Some st ->
    if downstream_packetized allowed_caps
    then codec_data st <> None
         /\ exists pre,
              caps_str st
              = (pre ++ ", stream-format = (string) avc")%string
    else codec_data st = None
         /\ exists pre,
              caps_str st
              = (pre ++ ", stream-format = (string) byte-stream")%string.
Proof.
  intros idn idu gp klass session allowed_caps info self self' cfg seq st
         Hfmt.
  apply set_format_packetized in Hfmt.
  unfold gst_nv_h264_encoder_set_output_state.
  destruct seq as [spspps|]; [|discriminate].
  destruct (idn spspps 0%nat (length spspps)) as [[rst sps] hb].
  destruct (negb (is_parser_ok rst)); [discriminate|].
  destruct (size sps <? 4)%nat; [discriminate|].
  destruct (idu spspps (offset sps + size sps)%nat (length spspps))
    as [[rst' pps] hb'].
  rewrite Hfmt.
  destruct (downstream_packetized allowed_caps).
  - destruct (negb (is_parser_ok rst')); [discriminate|].
    cbn [andb]. intros H. injection H as <-. cbn [codec_data caps_str].
    split; [discriminate|]. unfold output_caps_string.
    eexists. symmetry. apply string_append_assoc.
  - rewrite andb_false_r. intros H. injection H as <-.
    cbn [codec_data caps_str].
    split; [reflexivity|]. unfold output_caps_string.
    eexists. symmetry. apply string_append_assoc.
Qed.

(** X18 on the default encoder, with "main" and "avc" downstream and a
    parser that finds the two units of the example header. *)
Lemma set_format_then_set_output_state_witness :
  let caps :=
    Some (GstCapsStructures
            [ {| profile := Some (ProfileSingle (Some "main"));
                 stream_format := Some "avc" |} ]) in
  let r :=
    gst_nv_h264_encoder_set_format plain_class plain_session caps
      nv12_progressive (gst_nv_h264_encoder_init plain_class) in
  let idn := fun (_ : list byte) (_ _ : nat) =>
               (GST_H264_PARSER_OK, mkNalUnit 4 10, 1%nat) in
  let idu := fun (_ : list byte) (_ _ : nat) =>
               (GST_H264_PARSER_OK, mkNalUnit 18 4, 1%nat) in
  let gp := fun (_ : list byte) => Some "main" in
  exists st,
    gst_nv_h264_encoder_set_output_state idn idu gp (Some example_spspps)
      caps (fst r) = Some st
    /\ codec_data st <> None.
Proof.
  intros caps r idn idu gp.
  destruct (snd r) as [f|cfg] eqn:E; [discriminate E|].
  destruct (gst_nv_h264_encoder_set_output_state idn idu gp
              (Some example_spspps) caps (fst r)) as [st|] eqn:Est;
    [|discriminate Est].
  exists st. split; [reflexivity|].
  refine (proj1 (set_format_then_set_output_state idn idu gp plain_class
                   plain_session caps nv12_progressive
                   (gst_nv_h264_encoder_init plain_class) (fst r) cfg
                   (Some example_spspps) st _ Est)).
  rewrite <- E. apply surjective_pairing.
Defined.

(** ** Class initialisation *)

Ltac in_installed H :=
  unfold gst_nv_h264_encoder_class_init in H; cbn [installed] in H;
  unfold install_if in H;
  repeat first
    [ apply in_app_or in H; destruct H as [H|H]
    | match type of H with
      | In _ (if ?c then _ else _) => destruct c eqn:?
      end
    | progress cbn [In] in H
    | destruct H as [H|H]
    | contradiction ];
  try (injection H as <- <-).

Lemma increasing_lt a l :
  increasing (a :: l) = true -> Forall (fun b => a < b) l.
Proof.
  revert a. induction l as [|b l IH]; intros a H; [constructor|].
  cbn [increasing] in H. apply andb_prop in H. destruct H as [Hab Hl].
  apply Z.ltb_lt in Hab. constructor; [exact Hab|].
  specialize (IH b Hl). eapply Forall_impl; [|exact IH].
  intros c Hc. cbv beta in *. lia.
Qed.

Lemma increasing_NoDup l : increasing l = true -> NoDup l.
Proof.
  induction l as [|a l IH]; intros H; [constructor|].
  constructor.
  - intros Hin. pose proof (increasing_lt a l H) as Hlt.
    rewrite Forall_forall in Hlt. specialize (Hlt a Hin). lia.
  - apply IH. destruct l as [|b l]; [reflexivity|].
    cbn [increasing] in H. apply andb_prop in H. exact (proj2 H).
Qed.

Lemma distinct_names_NoDup l : distinct_names l = true -> NoDup l.
Proof.
  induction l as [|a l IH]; intros H; [constructor|].
  cbn [distinct_names] in H. apply andb_prop in H. destruct H as [Ha Hl].
  constructor; [|exact (IH Hl)].
  intros Hin. apply negb_true_iff in Ha.
  assert (Hex : existsb (String.eqb a) l = true).
  { apply existsb_exists. exists a. split; [exact Hin|apply String.eqb_refl]. }
  rewrite Hex in Ha. discriminate Ha.
Qed.

(** X19: the identifiers and names of the installed properties.  Whatever
    the class data, [class_init] installs the properties in the order of
    their identifiers, so none twice and never [PROP_0], and gives every
    property a name of its own. *)
Theorem class_init_properties_distinct :
  forall cdata,
    let props := installed (gst_nv_h264_encoder_class_init cdata) in
    increasing (0 :: map (fun x => prop_number (fst x)) props) = true
    /\ NoDup (map fst props)
    /\ NoDup (map (fun x => spec_name (snd x)) props).
Proof.
  intros cdata props.
  assert (Hinc : increasing (0 :: map (fun x => prop_number (fst x)) props)
                 = true
                 /\ distinct_names (map (fun x => spec_name (snd x)) props)
                    = true).
  { subst props. unfold gst_nv_h264_encoder_class_init. cbn [installed].
    destruct (cdata_d3d11_mode cdata),
      (negb (AllCaps.weighted_prediction (cdata_dev_caps cdata) =? 0)),
      (0 <? AllCaps.max_bframes (cdata_dev_caps cdata)),
      (negb (AllCaps.custom_vbv_buf_size (cdata_dev_caps cdata) =? 0)),
      (negb (AllCaps.lookahead (cdata_dev_caps cdata) =? 0)),
      (negb (AllCaps.temporal_aq (cdata_dev_caps cdata) =? 0)),
      (negb (AllCaps.cabac (cdata_dev_caps cdata) =? 0));
      split; reflexivity. }
  destruct Hinc as [Hinc Hnames]. split; [exact Hinc|]. split.
  - apply (NoDup_map_inv prop_number). rewrite map_map.
    apply increasing_NoDup in Hinc. now inversion Hinc.
  - now apply distinct_names_NoDup.
Qed.

(** X20: defaults.  For every property that [class_init] installs,
    [get_property] on a fresh instance of the class returns the default
    value of the specification installed. *)
Theorem class_init_defaults_are_init_values :
  forall cdata prop_id spec,
    let ci := gst_nv_h264_encoder_class_init cdata in
    In (prop_id, spec) (installed ci) ->
    gst_nv_h264_encoder_get_property (class_of ci) prop_id
      (gst_nv_h264_encoder_init (class_of ci))
    = Some (spec_default spec).
Proof.
  intros cdata prop_id spec ci H. subst ci.
  in_installed H; cbn; try reflexivity.
  match goal with E : negb _ = true |- _ => now rewrite E end.
Qed.

(** X20 on the CABAC property of a device with CABAC. *)
Lemma class_init_defaults_are_init_values_witness :
  let ci := gst_nv_h264_encoder_class_init (featured_class_data false) in
  gst_nv_h264_encoder_get_property (class_of ci) PROP_CABAC
    (gst_nv_h264_encoder_init (class_of ci))
  = Some (GBoolean true).
Proof.
  intros ci.
  apply (class_init_defaults_are_init_values (featured_class_data false)
           PROP_CABAC
           (g_param_spec_boolean "cabac" true conditonal_param_flags)).
  vm_compute. tauto.
Defined.

(** X21: the conditionally available properties.  A property that
    [class_init] installs lacks the flag
    [GST_PARAM_CONDITIONALLY_AVAILABLE] exactly when it is installed for
    every device of the same mode, whatever its capabilities. *)
Theorem class_init_conditional_properties :
  forall cdata prop_id spec,
    In (prop_id, spec)
       (installed (gst_nv_h264_encoder_class_init cdata)) ->
    GST_PARAM_CONDITIONALLY_AVAILABLE (spec_flags spec) = false
    <-> forall cdata',
          cdata_d3d11_mode cdata' = cdata_d3d11_mode cdata ->
          In prop_id
             (map fst (installed (gst_nv_h264_encoder_class_init cdata'))).
Proof.
  intros cdata prop_id spec H.
  assert (Hbare :
            GST_PARAM_CONDITIONALLY_AVAILABLE (spec_flags spec) = true ->
            ~ In prop_id
                (map fst
                   (installed
                      (gst_nv_h264_encoder_class_init
                         (bare_class_data (cdata_d3d11_mode cdata)))))).
  { in_installed H; cbn [spec_flags GST_PARAM_CONDITIONALLY_AVAILABLE
                          readable_param_flags param_flags
                          conditonal_param_flags];
      intros Hf; try discriminate Hf;
      destruct (cdata_d3d11_mode cdata); vm_compute;
      intuition discriminate. }
  split.
  - intros Hf cdata' Hmode.
    in_installed H;
      cbn [spec_flags GST_PARAM_CONDITIONALLY_AVAILABLE
           readable_param_flags param_flags conditonal_param_flags] in Hf;
      try discriminate Hf;
      apply in_map_iff; eexists (_, _); (split; [reflexivity|]);
      unfold gst_nv_h264_encoder_class_init; cbn [installed];
      try rewrite Hmode;
      repeat match goal with
             | E : cdata_d3d11_mode cdata = _ |- _ => rewrite E
             end;
      repeat first
        [ apply in_or_app; left;
          solve [cbn [In]; repeat first [left; reflexivity | right]]
        | apply in_or_app; right ];
      solve [cbn [In]; repeat first [left; reflexivity | right]].
  - intros Hall.
    destruct (GST_PARAM_CONDITIONALLY_AVAILABLE (spec_flags spec)) eqn:E;
      [|reflexivity].
    exfalso. apply (Hbare eq_refl). apply Hall. reflexivity.
Qed.

(** X21 on the GOP size. *)
Lemma class_init_conditional_properties_witness :
  In PROP_GOP_SIZE
     (map fst (installed (gst_nv_h264_encoder_class_init
                            (bare_class_data false)))).
Proof.
  apply (proj1 (class_init_conditional_properties (featured_class_data false)
                  PROP_GOP_SIZE
                  (g_param_spec_int "gop-size" (-1) G_MAXINT DEFAULT_GOP_SIZE
                     param_flags)
                  ltac:(vm_compute; tauto))
               eq_refl (bare_class_data false) eq_refl).
Defined.

Lemma init_members_in_range klass max_bframes :
  members_in_range max_bframes (gst_nv_h264_encoder_init klass).
Proof.
  unfold members_in_range, qp_range, bitrate_range, G_MAXINT, G_MAXUINT.
  pose proof (Z.mod_pos_bound max_bframes (2 ^ 32) eq_refl) as Hm.
  unfold to_guint. cbn -[Z.pow Z.modulo].
  unfold DEFAULT_GOP_SIZE, DEFAULT_B_FRAMES, DEFAULT_QP. intuition lia.
Qed.

Lemma set_property_members_in_range cdata prop_id value self :
  write_admitted (installed (gst_nv_h264_encoder_class_init cdata))
    (prop_id, value) ->
  members_in_range (AllCaps.max_bframes (cdata_dev_caps cdata)) self ->
  members_in_range (AllCaps.max_bframes (cdata_dev_caps cdata))
    (gst_nv_h264_encoder_set_property prop_id value self).
Proof.
  intros (spec & H & Hw & Ha) Hin. cbn [fst snd] in H, Ha.
  unfold members_in_range, qp_range, bitrate_range, G_MAXINT, G_MAXUINT in *.
  in_installed H; cbn in Hw; try discriminate Hw;
    destruct value; cbn in Ha; try discriminate Ha;
    unfold gst_nv_h264_encoder_set_property, update_boolean, update_int,
      update_uint, update_double, update_field;
    cbn [g_value_get_boolean g_value_get_int g_value_get_uint
         g_value_get_double];
    match goal with
    | |- context [if ?c then _ else _] => destruct c
    end; try exact Hin;
    cbn -[to_guint Z.pow SFleb gdouble_51];
    try (apply andb_prop in Ha; destruct Ha as [Ha1 Ha2];
         try apply Z.leb_le in Ha1; try apply Z.leb_le in Ha2);
    try (unfold DEFAULT_QP, G_MAXINT, G_MAXUINT in *; intuition lia).
  rewrite Ha1, Ha2. intuition lia.
Qed.

(** X22: the properties stay within their bounds.  On a fresh instance,
    after any series of writes that GObject lets through (to an installed
    writable property, with a value that the specification admits), every
    installed property reads a value that its own specification admits;
    this holds although a write to a max-QP property lands in the field of
    the min-QP property. *)
Theorem admitted_writes_stay_in_range :
  forall cdata writes prop_id spec,
    let ci := gst_nv_h264_encoder_class_init cdata in
    Forall (write_admitted (installed ci)) writes ->
    In (prop_id, spec) (installed ci) ->
    G_PARAM_WRITABLE (spec_flags spec) = true ->
    exists value,
      gst_nv_h264_encoder_get_property (class_of ci) prop_id
        (set_properties writes (gst_nv_h264_encoder_init (class_of ci)))
      = Some value
      /\ spec_admits spec value = true.
Proof.
  intros cdata writes prop_id spec ci Hw Hin Hwr.
  assert (Hinv : members_in_range (AllCaps.max_bframes (cdata_dev_caps cdata))
                   (set_properties writes
                      (gst_nv_h264_encoder_init (class_of ci)))).
  { unfold set_properties.
    generalize (init_members_in_range (class_of ci)
                  (AllCaps.max_bframes (cdata_dev_caps cdata))).
    generalize (gst_nv_h264_encoder_init (class_of ci)).
    induction Hw as [|[p v] ws Hadm _ IH]; intros s Hs; [exact Hs|].
    cbn [fold_left fst snd]. apply IH.
    now apply set_property_members_in_range. }
  revert Hinv.
  generalize (set_properties writes (gst_nv_h264_encoder_init (class_of ci))).
  intros self Hinv. subst ci.
  unfold members_in_range, qp_range, bitrate_range, G_MAXINT, G_MAXUINT in Hinv.
  in_installed Hin; cbn in Hwr; try discriminate Hwr;
    cbn [gst_nv_h264_encoder_get_property]; eexists;
    (split; [reflexivity|]); cbn [spec_admits]; try reflexivity;
    try (apply andb_true_intro; split; apply Z.leb_le;
         unfold DEFAULT_QP, G_MAXINT, G_MAXUINT in *; intuition lia).
  apply Hinv.
Qed.

(** X22 on [qp-min-i] after writes to the bitrate and to [qp-max-i]. *)
Lemma admitted_writes_stay_in_range_witness :
  let ci := gst_nv_h264_encoder_class_init (featured_class_data false) in
  exists value,
    gst_nv_h264_encoder_get_property (class_of ci) PROP_QP_MIN_I
      (set_properties [ (PROP_BITRATE, GUInt 4000); (PROP_QP_MAX_I, GInt 30) ]
         (gst_nv_h264_encoder_init (class_of ci)))
    = Some value
    /\ spec_admits (g_param_spec_int "qp-min-i" (-1) 51 DEFAULT_QP param_flags)
         value = true.
Proof.
  intros ci.
  apply (admitted_writes_stay_in_range (featured_class_data false)
           [ (PROP_BITRATE, GUInt 4000); (PROP_QP_MAX_I, GInt 30) ]
           PROP_QP_MIN_I
           (g_param_spec_int "qp-min-i" (-1) 51 DEFAULT_QP param_flags)).
  - apply Forall_cons.
    + exists (g_param_spec_uint "bitrate" 0 (2000 * 1024) 0 param_flags).
      vm_compute. tauto.
    + apply Forall_cons; [|apply Forall_nil].
      exists (g_param_spec_int "qp-max-i" (-1) 51 DEFAULT_QP param_flags).
      vm_compute. tauto.
  - vm_compute. tauto.
  - reflexivity.
Defined.

(** ** The class data of a device *)

Lemma elements_add x s :
  StringSet.elements (StringSet.add x s)
  = StringSet.Raw.add x (StringSet.elements s).
Proof. reflexivity. Qed.

Lemma insert_profile_guid_elements s g b ch h h4 m ph :
  StringSet.elements s = canon_profiles b ch h h4 m ph ->
  StringSet.elements (insert_profile_guid s g)
  = canon_profiles
      (b || GUID_eqb NV_ENC_H264_PROFILE_BASELINE_GUID g)
      (ch || GUID_eqb NV_ENC_H264_PROFILE_CONSTRAINED_HIGH_GUID g)
      (h || GUID_eqb NV_ENC_H264_PROFILE_HIGH_GUID g)
      (h4 || GUID_eqb NV_ENC_H264_PROFILE_HIGH_444_GUID g)
      (m || GUID_eqb NV_ENC_H264_PROFILE_MAIN_GUID g)
      (ph || GUID_eqb NV_ENC_H264_PROFILE_PROGRESSIVE_HIGH_GUID g).
Proof.
  intros Hs.
  destruct g; unfold insert_profile_guid; rewrite ?elements_add, Hs;
    destruct b, ch, h, h4, m, ph; reflexivity.
Qed.

Lemma device_profiles_elements guids :
  StringSet.elements (device_profiles guids)
  = canon_profiles
      (has_guid NV_ENC_H264_PROFILE_BASELINE_GUID guids)
      (has_guid NV_ENC_H264_PROFILE_CONSTRAINED_HIGH_GUID guids)
      (has_guid NV_ENC_H264_PROFILE_HIGH_GUID guids)
      (has_guid NV_ENC_H264_PROFILE_HIGH_444_GUID guids)
      (has_guid NV_ENC_H264_PROFILE_MAIN_GUID guids)
      (has_guid NV_ENC_H264_PROFILE_PROGRESSIVE_HIGH_GUID guids).
Proof.
  unfold device_profiles, has_guid.
  assert (H : forall s b ch h h4 m ph,
             StringSet.elements s = canon_profiles b ch h h4 m ph ->
             StringSet.elements (fold_left insert_profile_guid guids s)
             = canon_profiles
                 (b || existsb (GUID_eqb NV_ENC_H264_PROFILE_BASELINE_GUID)
                         guids)
                 (ch || existsb
                          (GUID_eqb NV_ENC_H264_PROFILE_CONSTRAINED_HIGH_GUID)
                          guids)
                 (h || existsb (GUID_eqb NV_ENC_H264_PROFILE_HIGH_GUID) guids)
                 (h4 || existsb (GUID_eqb NV_ENC_H264_PROFILE_HIGH_444_GUID)
                          guids)
                 (m || existsb (GUID_eqb NV_ENC_H264_PROFILE_MAIN_GUID) guids)
                 (ph || existsb
                          (GUID_eqb NV_ENC_H264_PROFILE_PROGRESSIVE_HIGH_GUID)
                          guids)).
  { induction guids as [|g guids IH]; intros s b ch h h4 m ph Hs.
    - cbn [fold_left existsb]. now rewrite !orb_false_r.
    - cbn [fold_left existsb]. rewrite !orb_assoc.
      apply IH. now apply insert_profile_guid_elements. }
  apply (H StringSet.empty false false false false false false).
  reflexivity.
Qed.

Ltac to_elements s :=
  repeat match goal with
         | |- context [StringSet.mem ?x s] =>
             change (StringSet.mem x s)
               with (StringSet.Raw.mem x (StringSet.elements s))
         | |- context [StringSet.cardinal s] =>
             change (StringSet.cardinal s)
               with (List.length (StringSet.elements s))
         | |- context [StringSet.min_elt s] =>
             change (StringSet.min_elt s)
               with (StringSet.Raw.min_elt (StringSet.elements s))
         | |- context [StringSet.is_empty s] =>
             change (StringSet.is_empty s)
               with (StringSet.Raw.is_empty (StringSet.elements s))
         end.


Lemma insert_format_elements yuv s f nv12 y444 :
  StringSet.elements s = canon_formats nv12 y444 ->
  StringSet.elements (insert_format yuv s f)
  = canon_formats (nv12 || is_NV12_format f)
      (y444 || (negb (yuv =? 0) && is_YUV444_format f)).
Proof.
  intros Hs. unfold insert_format.
  destruct f; cbn [is_NV12_format is_YUV444_format];
    try destruct (negb (yuv =? 0)); rewrite ?elements_add, Hs;
    destruct nv12, y444; reflexivity.
Qed.

Lemma device_formats_elements yuv fmts :
  StringSet.elements (device_formats yuv fmts)
  = canon_formats (existsb is_NV12_format fmts)
      (negb (yuv =? 0) && existsb is_YUV444_format fmts).
Proof.
  unfold device_formats.
  assert (H : forall s nv12 y444,
             StringSet.elements s = canon_formats nv12 y444 ->
             StringSet.elements (fold_left (insert_format yuv) fmts s)
             = canon_formats (nv12 || existsb is_NV12_format fmts)
                 (y444 || (negb (yuv =? 0)
                           && existsb is_YUV444_format fmts))).
  { induction fmts as [|f fmts IH]; intros s nv12 y444 Hs.
    - cbn [fold_left existsb]. now rewrite andb_false_r, !orb_false_r.
    - cbn [fold_left existsb].
      rewrite (IH _ _ _ (insert_format_elements yuv s f nv12 y444 Hs)).
      f_equal.
      + now rewrite orb_assoc.
      + destruct (negb (yuv =? 0)); cbn [andb];
          [now rewrite orb_assoc | now rewrite !orb_false_r]. }
  apply (H StringSet.empty false false). reflexivity.
Qed.

(** X24: the formats of the sink caps.  The sink caps offer "NV12" exactly
    when the device lists the NV12 input format, and "Y444" exactly when
    it lists the YUV444 input format and reports the 4:4:4 capability;
    the format field is the one name when there is one and the list
    "{ NV12, Y444 }" when there are both. *)
Theorem format_string_of_device_formats :
  forall yuv444_encode input_formats,
    let formats := device_formats yuv444_encode input_formats in
    let nv12 := existsb is_NV12_format input_formats in
    let y444 :=
      negb (yuv444_encode =? 0) && existsb is_YUV444_format input_formats in
    (forall f,
       StringSet.In f formats
       <-> (f = "NV12" /\ nv12 = true) \/ (f = "Y444" /\ y444 = true))
    /\ format_string formats
       = (if nv12
          then if y444 then "format = (string) { NV12, Y444 }"
               else "format = (string) NV12"
          else if y444 then "format = (string) Y444"
               else "format = (string) {  }").
Proof.
  intros yuv fmts formats nv12 y444.
  pose proof (device_formats_elements yuv fmts) as He.
  fold formats nv12 y444 in He. split.
  - intros f. rewrite <- In_elements, He.
    destruct nv12, y444; cbn; intuition congruence.
  - unfold format_string, APPEND_STRING, begin_of. to_elements formats.
    rewrite He. destruct nv12, y444; reflexivity.
Qed.

Lemma existsb_named_profile guids :
  existsb named_profile guids
  = has_guid NV_ENC_H264_PROFILE_BASELINE_GUID guids
    || has_guid NV_ENC_H264_PROFILE_CONSTRAINED_HIGH_GUID guids
    || has_guid NV_ENC_H264_PROFILE_HIGH_GUID guids
    || has_guid NV_ENC_H264_PROFILE_HIGH_444_GUID guids
    || has_guid NV_ENC_H264_PROFILE_MAIN_GUID guids
    || has_guid NV_ENC_H264_PROFILE_PROGRESSIVE_HIGH_GUID guids.
Proof.
  unfold has_guid. induction guids as [|g guids IH]; [reflexivity|].
  cbn [existsb]. rewrite IH.
  destruct g; cbn [named_profile GUID_eqb negb orb];
    repeat match goal with
           | |- context [existsb ?f guids] => destruct (existsb f guids)
           end; reflexivity.
Qed.

Lemma device_profiles_is_empty guids :
  StringSet.is_empty (device_profiles guids)
  = negb (existsb named_profile guids).
Proof.
  to_elements (device_profiles guids).
  rewrite device_profiles_elements, existsb_named_profile.
  generalize (has_guid NV_ENC_H264_PROFILE_BASELINE_GUID guids),
    (has_guid NV_ENC_H264_PROFILE_CONSTRAINED_HIGH_GUID guids),
    (has_guid NV_ENC_H264_PROFILE_HIGH_GUID guids),
    (has_guid NV_ENC_H264_PROFILE_HIGH_444_GUID guids),
    (has_guid NV_ENC_H264_PROFILE_MAIN_GUID guids),
    (has_guid NV_ENC_H264_PROFILE_PROGRESSIVE_HIGH_GUID guids).
  intros [] [] [] [] [] []; reflexivity.
Qed.

Lemma existsb_usable_format yuv fmts :
  existsb (usable_format yuv) fmts
  = existsb is_NV12_format fmts
    || (negb (yuv =? 0) && existsb is_YUV444_format fmts).
Proof.
  induction fmts as [|f fmts IH]; [now rewrite andb_false_r|].
  cbn [existsb]. rewrite IH. unfold usable_format.
  destruct (is_NV12_format f), (negb (yuv =? 0)), (is_YUV444_format f),
    (existsb is_NV12_format fmts), (existsb is_YUV444_format fmts);
    reflexivity.
Qed.

Lemma device_formats_is_empty yuv fmts :
  StringSet.is_empty (device_formats yuv fmts)
  = negb (existsb (usable_format yuv) fmts).
Proof.
  to_elements (device_formats yuv fmts).
  rewrite device_formats_elements, existsb_usable_format.
  destruct (existsb is_NV12_format fmts),
    (negb (yuv =? 0) && existsb is_YUV444_format fmts); reflexivity.
Qed.

(** X23: when a device gets a class.  [create_class_data] returns class
    data exactly when both queries of the device succeed, one of the
    profile GUIDs listed stands for a profile name, and one of the input
    formats listed is NV12, or YUV444 on a device that reports the 4:4:4
    capability; a failed query of a capability never makes it fail. *)
Theorem create_class_data_succeeds_iff :
  forall G_OS_WIN32 HAVE_NVCODEC_GST_D3D11 NV_ENC_PARAMS_RC_VBR
         profile_guids input_formats NvEncGetEncodeCaps g_object_get
         d3d11_mode,
    (exists cdata,
       gst_nv_h264_encoder_create_class_data G_OS_WIN32
         HAVE_NVCODEC_GST_D3D11 NV_ENC_PARAMS_RC_VBR profile_guids
         input_formats NvEncGetEncodeCaps g_object_get d3d11_mode
       = Some cdata)
    <-> exists guids fmts,
          profile_guids = Some guids
          /\ input_formats = Some fmts
          /\ existsb named_profile guids = true
          /\ existsb
               (usable_format
                  (match NvEncGetEncodeCaps NV_ENC_CAPS_SUPPORT_YUV444_ENCODE
                   with
                   | Some v => v
                   | None => 0
                   end)) fmts = true.
Proof.
  intros win d3d rcvbr pg inf caps gobj d3d11.
  unfold gst_nv_h264_encoder_create_class_data.
  change (AllCaps.yuv444_encode (query_device_caps win rcvbr caps))
    with (match caps NV_ENC_CAPS_SUPPORT_YUV444_ENCODE with
          | Some v => v
          | None => 0
          end).
  set (yuv := match caps NV_ENC_CAPS_SUPPORT_YUV444_ENCODE with
              | Some v => v
              | None => 0
              end).
  destruct pg as [guids|]; [|split; [intros (c & H); discriminate H
                                    |intros (g & f & H & _); discriminate H]].
  destruct inf as [fmts|]; [|split; [intros (c & H); discriminate H
                                    |intros (g & f & _ & H & _);
                                     discriminate H]].
  rewrite device_formats_is_empty, device_profiles_is_empty.
  split.
  - intros (c & H). exists guids, fmts.
    destruct (existsb named_profile guids);
      destruct (existsb (usable_format yuv) fmts); cbn [negb] in H;
      repeat match type of H with
             | (if ?c then _ else _) = _ => destruct c
             end; try discriminate H; auto.
  - intros (g & f & Hg & Hf & Hn & Hu).
    injection Hg as <-. injection Hf as <-. rewrite Hn, Hu. cbn [negb].
    destruct guids as [|g0 guids]; [discriminate Hn|].
    destruct fmts as [|f0 fmts]; [discriminate Hu|].
    cbn [List.length Nat.eqb]. eexists. reflexivity.
Qed.

Lemma GST_ROUND_UP_16_spec num :
  - 2 ^ 31 <= num <= G_MAXINT - 15 ->
  GST_ROUND_UP_16 num = 16 * ((num + 15) / 16).
Proof.
  unfold G_MAXINT. intros H. unfold GST_ROUND_UP_16.
  rewrite to_gint_small by lia.
  rewrite <- Z.ldiff_land. change 15 with (Z.ones 4) at 2.
  rewrite Z.ldiff_ones_r by lia.
  rewrite Z.shiftr_div_pow2, Z.shiftl_mul_pow2 by lia.
  change (2 ^ 4) with 16. lia.
Qed.

(** X26: the smallest frame size of the caps.  For a minimum width and a
    minimum height of the device that leave room for the rounding, the
    caps start the width and height ranges at the smallest multiple of 16
    that is not below the minimum of the device, and end them at its
    maximum. *)
Theorem resolution_string_rounds_up :
  forall dev_caps,
    - 2 ^ 31 <= AllCaps.width_min dev_caps <= G_MAXINT - 15 ->
    - 2 ^ 31 <= AllCaps.height_min dev_caps <= G_MAXINT - 15 ->
    exists w h,
      resolution_string dev_caps
      = ("width = (int) [ " ++ to_string w ++ ", "
         ++ to_string (AllCaps.width_max dev_caps) ++ " ]"
         ++ ", height = (int) [ " ++ to_string h ++ ", "
         ++ to_string (AllCaps.height_max dev_caps) ++ " ]")%string
      /\ (w mod 16 = 0
          /\ AllCaps.width_min dev_caps <= w < AllCaps.width_min dev_caps + 16)
      /\ (h mod 16 = 0
          /\ AllCaps.height_min dev_caps <= h
             < AllCaps.height_min dev_caps + 16).
Proof.
  intros dc Hw Hh.
  exists (GST_ROUND_UP_16 (AllCaps.width_min dc)),
    (GST_ROUND_UP_16 (AllCaps.height_min dc)).
  split; [reflexivity|].
  rewrite !GST_ROUND_UP_16_spec by assumption.
  split.
  - pose proof (Z.div_mod (AllCaps.width_min dc + 15) 16 ltac:(lia)) as E.
    pose proof (Z.mod_pos_bound (AllCaps.width_min dc + 15) 16 ltac:(lia)).
    split; [|lia]. rewrite Z.mul_comm. apply Z.mod_mul. lia.
  - pose proof (Z.div_mod (AllCaps.height_min dc + 15) 16 ltac:(lia)) as E.
    pose proof (Z.mod_pos_bound (AllCaps.height_min dc + 15) 16 ltac:(lia)).
    split; [|lia]. rewrite Z.mul_comm. apply Z.mod_mul. lia.
Qed.

(** X26 on a device of minimum 145 by 49. *)
Lemma resolution_string_rounds_up_witness :
  exists w h,
    resolution_string (cdata_dev_caps (featured_class_data false))
    = ("width = (int) [ " ++ to_string w ++ ", " ++ to_string 4096 ++ " ]"
       ++ ", height = (int) [ " ++ to_string h ++ ", " ++ to_string 4096
       ++ " ]")%string
    /\ (w mod 16 = 0 /\ 145 <= w < 145 + 16)
    /\ (h mod 16 = 0 /\ 49 <= h < 49 + 16).
Proof.
  apply (resolution_string_rounds_up
           (cdata_dev_caps (featured_class_data false)));
    vm_compute; split; discriminate.
Defined.

Lemma create_class_data_members win d3d rcvbr pg inf caps gobj d3d11 cdata :
  gst_nv_h264_encoder_create_class_data win d3d rcvbr pg inf caps gobj d3d11
  = Some cdata ->
  cdata_dev_caps cdata = query_device_caps win rcvbr caps
  /\ cdata_d3d11_mode cdata = d3d11.
Proof.
  unfold gst_nv_h264_encoder_create_class_data.
  destruct pg as [guids|]; [|discriminate].
  destruct inf as [fmts|]; [|discriminate].
  repeat match goal with
         | |- (if ?c then _ else _) = _ -> _ => destruct c; [discriminate|]
         end.
  intros H. injection H as <-. split; reflexivity.
Qed.

Lemma class_init_installs cdata prop_id :
  In prop_id (map fst (installed (gst_nv_h264_encoder_class_init cdata)))
  <-> installs (cdata_d3d11_mode cdata) (cdata_dev_caps cdata) prop_id
      = true.
Proof.
  split.
  - intros H. apply in_map_iff in H. destruct H as ([p spec] & Hp & H).
    cbn [fst] in Hp. subst p.
    in_installed H; cbn [installs]; try reflexivity; try assumption;
      repeat match goal with
             | E : _ = true |- _ => rewrite E
             end; reflexivity.
  - intros H. apply in_map_iff.
    destruct prop_id; cbn [installs] in H; try discriminate H;
      try (apply andb_prop in H; destruct H as [H H']);
      eexists (_, _); (split; [reflexivity|]);
      unfold gst_nv_h264_encoder_class_init; cbn [installed];
      rewrite ?H, ?H';
      try (apply negb_true_iff in H; rewrite H);
      unfold install_if;
      repeat first
        [ apply in_or_app; left;
          solve [cbn [In]; repeat first [left; reflexivity | right]]
        | apply in_or_app; right ];
      solve [cbn [In]; repeat first [left; reflexivity | right]].
Qed.

(** X27: capabilities and properties.  On the class built from the class
    data of a device, a property is installed exactly when the device
    answered the query of its capability, with a value other than zero
    (above zero for the B-frame count); a capability whose query failed
    counts as zero, so its property is not installed. *)
Theorem property_installed_iff_capability :
  forall G_OS_WIN32 HAVE_NVCODEC_GST_D3D11 NV_ENC_PARAMS_RC_VBR
         profile_guids input_formats NvEncGetEncodeCaps g_object_get
         d3d11_mode cdata prop_id,
    gst_nv_h264_encoder_create_class_data G_OS_WIN32
      HAVE_NVCODEC_GST_D3D11 NV_ENC_PARAMS_RC_VBR profile_guids
      input_formats NvEncGetEncodeCaps g_object_get d3d11_mode
    = Some cdata ->
    In prop_id (map fst (installed (gst_nv_h264_encoder_class_init cdata)))
    <-> property_supported NvEncGetEncodeCaps d3d11_mode prop_id = true.
Proof.
  intros win d3d rcvbr pg inf caps gobj d3d11 cdata prop_id H.
  apply create_class_data_members in H. destruct H as [Hc Hm].
  rewrite class_init_installs, Hc, Hm.
  assert (E : installs d3d11 (query_device_caps win rcvbr caps) prop_id
              = property_supported caps d3d11 prop_id).
  { destruct prop_id; cbn; try reflexivity;
      repeat match goal with
             | |- context [caps ?q] => destruct (caps q)
             end; reflexivity. }
  now rewrite E.
Qed.

(** X27 on the CABAC property of a device that answers the query of
    CABAC. *)
Lemma property_installed_iff_capability_witness :
  exists cdata,
    gst_nv_h264_encoder_create_class_data false false 1
      (profile_guids example_device) (input_formats example_device)
      (NvEncGetEncodeCaps example_device) (g_object_get example_device)
      false = Some cdata
    /\ In PROP_CABAC
         (map fst (installed (gst_nv_h264_encoder_class_init cdata))).
Proof.
  destruct (gst_nv_h264_encoder_create_class_data false false 1
              (profile_guids example_device) (input_formats example_device)
              (NvEncGetEncodeCaps example_device)
              (g_object_get example_device) false) as [cdata|] eqn:E;
    [|vm_compute in E; discriminate E].
  exists cdata. split; [reflexivity|].
  apply (proj2 (property_installed_iff_capability false false 1
                  (profile_guids example_device)
                  (input_formats example_device)
                  (NvEncGetEncodeCaps example_device)
                  (g_object_get example_device) false cdata PROP_CABAC E)).
  reflexivity.
Defined.

(** ** Registration *)

Lemma g_type_from_name_In types name :
  g_type_from_name types name = true <-> In name types.
Proof.
  unfold g_type_from_name. rewrite existsb_exists. split.
  - intros (x & Hx & E). apply String.eqb_eq in E. now subst.
  - intros H. exists name. split; [exact H|apply String.eqb_refl].
Qed.

Lemma to_string_inj a b : to_string a = to_string b -> a = b.
Proof.
  unfold to_string. intros H. apply DecimalZ.to_int_inj.
  assert (Hn : forall z, Z.to_int z <> Decimal.Pos Decimal.Nil
                         /\ Z.to_int z <> Decimal.Neg Decimal.Nil).
  { intros [|p|p]; cbn; split; try discriminate;
      intros E; injection E as E;
      exact (DecimalPos.Unsigned.to_uint_nonnil p E). }
  pose proof (NilZero.isi (Z.to_int a) (proj1 (Hn a)) (proj2 (Hn a))) as Ha.
  pose proof (NilZero.isi (Z.to_int b) (proj1 (Hn b)) (proj2 (Hn b))) as Hb.
  rewrite H in Ha. rewrite Ha in Hb. now injection Hb.
Qed.

Lemma string_length_append (a b : string) :
  String.length (a ++ b) = (String.length a + String.length b)%nat.
Proof. induction a as [|c a IH]; cbn; [reflexivity|now rewrite IH]. Qed.

Lemma string_append_inj_l (p a b : string) :
  (p ++ a = p ++ b)%string -> a = b.
Proof.
  induction p as [|c p IH]; cbn; intros H; [exact H|].
  injection H as H. now apply IH.
Qed.

Lemma string_append_inj_r (s a b : string) :
  (a ++ s = b ++ s)%string -> a = b.
Proof.
  revert b. induction a as [|c a IH]; intros [|d b] H.
  - reflexivity.
  - exfalso. apply (f_equal String.length) in H. cbn in H.
    rewrite string_length_append in H. lia.
  - exfalso. apply (f_equal String.length) in H. cbn in H.
    rewrite string_length_append in H. lia.
  - cbn in H. injection H as -> H. f_equal. now apply IH.
Qed.

Lemma device_name_inj (p s : string) i j :
  (p ++ to_string i ++ s = p ++ to_string j ++ s)%string -> i = j.
Proof.
  intros H. apply string_append_inj_l, string_append_inj_r in H.
  now apply to_string_inj.
Qed.

Section TypeNameLoop.

Variable types : list string.
Variables base_type base_feature : string.
Variables type_format feature_format : Z -> string.

Hypothesis type_format_inj :
  forall i j, 0 < i -> 0 < j -> type_format i = type_format j -> i = j.
Hypothesis type_format_not_base :
  forall i, 0 < i -> type_format i <> base_type.

Lemma candidate_inj i j :
  0 <= i -> 0 <= j ->
  candidate base_type type_format i = candidate base_type type_format j ->
  i = j.
Proof.
  unfold candidate. intros Hi Hj.
  destruct (Z.eqb_spec i 0) as [->|Hi0], (Z.eqb_spec j 0) as [->|Hj0];
    intros H.
  - reflexivity.
  - exfalso. apply (type_format_not_base j); [lia|now symmetry].
  - exfalso. apply (type_format_not_base i); [lia|exact H].
  - apply type_format_inj; [lia|lia|exact H].
Qed.

Lemma type_name_loop_finds fuel :
  forall index tested,
    index = Z.of_nat (List.length tested) ->
    Z.of_nat (List.length types) < 2 ^ 31 ->
    NoDup tested -> incl tested types ->
    (forall j, index <= j ->
               ~ In (candidate base_type type_format j) tested) ->
    (List.length types < List.length tested + S fuel)%nat ->
    (forall j, 0 <= j < index ->
               In (candidate base_type type_format j) types) ->
    exists k,
      type_name_loop types type_format feature_format fuel index
        (candidate base_type type_format index)
        (candidate base_feature feature_format index)
      = Some (k, candidate base_type type_format k,
              candidate base_feature feature_format k)
      /\ index <= k <= Z.of_nat (List.length types)
      /\ ~ In (candidate base_type type_format k) types
      /\ forall j, 0 <= j < k ->
                   In (candidate base_type type_format j) types.
Proof.
  induction fuel as [|fuel IH];
    intros index tested Hi Hr Hnd Hincl Hfresh Hlen Hbelow.
  - cbn [type_name_loop].
    destruct (g_type_from_name types (candidate base_type type_format index))
      eqn:E.
    + exfalso. apply g_type_from_name_In in E.
      assert (Hnd' : NoDup (candidate base_type type_format index :: tested)).
      { constructor; [apply Hfresh; lia|exact Hnd]. }
      assert (Hincl' : incl (candidate base_type type_format index :: tested)
                         types).
      { intros x [<-|Hx]; [exact E|now apply Hincl]. }
      pose proof (NoDup_incl_length Hnd' Hincl') as Hl. cbn in Hl. lia.
    + exists index. split; [reflexivity|].
      assert (Hn : ~ In (candidate base_type type_format index) types).
      { intros Hin. apply g_type_from_name_In in Hin. congruence. }
      pose proof (NoDup_incl_length Hnd Hincl) as Hl.
      repeat split; try lia; assumption.
  - cbn [type_name_loop].
    destruct (g_type_from_name types (candidate base_type type_format index))
      eqn:E.
    + apply g_type_from_name_In in E.
      assert (Hnd' : NoDup (candidate base_type type_format index :: tested)).
      { constructor; [apply Hfresh; lia|exact Hnd]. }
      assert (Hincl' : incl (candidate base_type type_format index :: tested)
                         types).
      { intros x [<-|Hx]; [exact E|now apply Hincl]. }
      pose proof (NoDup_incl_length Hnd' Hincl') as Hl. cbn [List.length] in Hl.
      cbv zeta. rewrite to_gint_small by lia.
      assert (Hc : forall base fmt,
                 fmt (index + 1) = candidate base fmt (index + 1)).
      { intros base fmt. unfold candidate.
        destruct (Z.eqb_spec (index + 1) 0); [lia|reflexivity]. }
      rewrite (Hc base_type type_format), (Hc base_feature feature_format).
      destruct (IH (index + 1)
                  (candidate base_type type_format index :: tested))
        as (k & Hk & Hrange & Hfree & Hall).
      * cbn [List.length]. lia.
      * exact Hr.
      * exact Hnd'.
      * exact Hincl'.
      * intros j Hj [Heq|Hin].
        -- apply candidate_inj in Heq; lia.
        -- apply (Hfresh j); [lia|exact Hin].
      * cbn [List.length]. lia.
      * intros j Hj. destruct (Z.eq_dec j index) as [->|Hne];
          [exact E|apply Hbelow; lia].
      * exists k. repeat split; try lia; try assumption.
    + exists index. split; [reflexivity|].
      assert (Hn : ~ In (candidate base_type type_format index) types).
      { intros Hin. apply g_type_from_name_In in Hin. congruence. }
      pose proof (NoDup_incl_length Hnd Hincl) as Hl.
      repeat split; try lia; assumption.
Qed.

Lemma register_type_spec fuel cdata rank :
  Z.of_nat (List.length types) < 2 ^ 31 ->
  (List.length types <= fuel)%nat ->
  exists r,
    register_type types base_type base_feature type_format feature_format
      fuel cdata rank = Some r
    /\ ~ In (type_name r) types
    /\ (type_name r = base_type <-> ~ In base_type types)
    /\ element_rank r
       = (if (0 <? rank) && g_type_from_name types base_type
          then rank - 1 else rank)
    /\ class_data r = cdata
    /\ exists index,
         0 <= index <= Z.of_nat (List.length types)
         /\ type_name r = candidate base_type type_format index
         /\ feature_name r = candidate base_feature feature_format index
         /\ forall j, 0 <= j < index ->
                      In (candidate base_type type_format j) types.
Proof.
  intros Hsize Hfuel. unfold register_type.
  destruct (type_name_loop_finds fuel 0 []) as (k & Hk & Hrange & Hfree & Hall).
  - reflexivity.
  - exact Hsize.
  - constructor.
  - intros x [].
  - intros j _ [].
  - cbn [List.length]. lia.
  - intros j Hj. lia.
  - change (candidate base_type type_format 0) with base_type in Hk.
    change (candidate base_feature feature_format 0) with base_feature in Hk.
    rewrite Hk. eexists. split; [reflexivity|].
    cbn [type_name feature_name element_rank class_data].
    split; [exact Hfree|]. split; [|split; [|split; [reflexivity|]]];
      [| |exists k; repeat split; try lia; try assumption].
    + split.
      * intros E. rewrite <- E. exact Hfree.
      * intros Hb. destruct (Z.eq_dec k 0) as [->|Hne]; [reflexivity|].
        exfalso. apply Hb. apply (Hall 0). lia.
    + destruct (Z.eqb_spec k 0) as [->|Hne].
      * change (candidate base_type type_format 0) with base_type in Hfree.
        destruct (g_type_from_name types base_type) eqn:E.
        -- apply g_type_from_name_In in E. contradiction.
        -- now rewrite !andb_false_r.
      * assert (E : g_type_from_name types base_type = true).
        { apply g_type_from_name_In. apply (Hall 0). lia. }
        now rewrite E.
Qed.

End TypeNameLoop.

Lemma register_spec win d3d rcvbr d3d11 types fuel device rank cdata :
  Z.of_nat (List.length types) < 2 ^ 31 ->
  (List.length types <= fuel)%nat ->
  gst_nv_h264_encoder_create_class_data win d3d rcvbr (profile_guids device)
    (input_formats device) (NvEncGetEncodeCaps device) (g_object_get device)
    d3d11 = Some cdata ->
  exists r,
    (if d3d11
     then gst_nv_h264_encoder_register_d3d11 win d3d rcvbr types fuel
            (Some device) rank
     else gst_nv_h264_encoder_register_cuda win d3d rcvbr types fuel
            (Some device) rank) = Some (Some r)
    /\ ~ In (type_name r) types
    /\ (type_name r = type_name_at d3d11 0
        <-> ~ In (type_name_at d3d11 0) types)
    /\ element_rank r
       = (if (0 <? rank) && g_type_from_name types (type_name_at d3d11 0)
          then rank - 1 else rank)
    /\ class_data r = cdata
    /\ exists index,
         0 <= index <= Z.of_nat (List.length types)
         /\ type_name r = type_name_at d3d11 index
         /\ feature_name r = feature_name_at d3d11 index
         /\ forall j, 0 <= j < index -> In (type_name_at d3d11 j) types.
Proof.
  intros Hsize Hfuel Hc.
  destruct d3d11.
  - unfold gst_nv_h264_encoder_register_d3d11. rewrite Hc.
    destruct (register_type_spec types "GstNvD3D11H264Enc" "nvd3d11h264enc"
                (fun index =>
                   "GstNvD3D11H264Device" ++ to_string index ++ "Enc")%string
                (fun index =>
                   "nvd3d11h264device" ++ to_string index ++ "enc")%string)
      with (fuel := fuel) (cdata := cdata) (rank := rank) as (r & Hr & H).
    + intros i j _ _ H. now apply device_name_inj in H.
    + intros i _ H. cbn in H. discriminate H.
    + exact Hsize.
    + exact Hfuel.
    + exists r. rewrite Hr. split; [reflexivity|exact H].
  - unfold gst_nv_h264_encoder_register_cuda. rewrite Hc.
    destruct (register_type_spec types "GstNvCudaH264Enc" "nvcudah264enc"
                (fun index =>
                   "GstNvCudaH264Device" ++ to_string index ++ "Enc")%string
                (fun index =>
                   "nvcudah264device" ++ to_string index ++ "enc")%string)
      with (fuel := fuel) (cdata := cdata) (rank := rank) as (r & Hr & H).
    + intros i j _ _ H. now apply device_name_inj in H.
    + intros i _ H. cbn in H. discriminate H.
    + exact Hsize.
    + exact Hfuel.
    + exists r. rewrite Hr. split; [reflexivity|exact H].
Qed.

Lemma register_class_data win d3d rcvbr (d3d11 : bool) types fuel device rank
      r :
  (if d3d11
   then gst_nv_h264_encoder_register_d3d11 win d3d rcvbr types fuel
          (Some device) rank
   else gst_nv_h264_encoder_register_cuda win d3d rcvbr types fuel
          (Some device) rank) = Some (Some r) ->
  exists cdata,
    gst_nv_h264_encoder_create_class_data win d3d rcvbr (profile_guids device)
      (input_formats device) (NvEncGetEncodeCaps device)
      (g_object_get device) d3d11 = Some cdata.
Proof.
  intros Hr.
  destruct (gst_nv_h264_encoder_create_class_data win d3d rcvbr
              (profile_guids device) (input_formats device)
              (NvEncGetEncodeCaps device) (g_object_get device) d3d11)
    as [cdata|] eqn:Hc; [now exists cdata|].
  exfalso. destruct d3d11;
    [unfold gst_nv_h264_encoder_register_d3d11 in Hr
    |unfold gst_nv_h264_encoder_register_cuda in Hr];
    rewrite Hc in Hr; discriminate Hr.
Qed.

(** X28: the registration finds a free type name.  For a device that gets
    class data, and with fewer than 2^31 types registered, the loop over
    the type names ends within as many turns as there are registered
    types, and the element is registered, with the class data of the
    device, under a type name that no registered type has. *)
Theorem register_finds_free_type_name :
  forall G_OS_WIN32 HAVE_NVCODEC_GST_D3D11 NV_ENC_PARAMS_RC_VBR d3d11_mode
         types fuel device rank cdata,
    Z.of_nat (List.length types) < 2 ^ 31 ->
    (List.length types <= fuel)%nat ->
    gst_nv_h264_encoder_create_class_data G_OS_WIN32 HAVE_NVCODEC_GST_D3D11
      NV_ENC_PARAMS_RC_VBR (profile_guids device) (input_formats device)
      (NvEncGetEncodeCaps device) (g_object_get device) d3d11_mode
    = Some cdata ->
    exists r,
      (if d3d11_mode
       then gst_nv_h264_encoder_register_d3d11 G_OS_WIN32
              HAVE_NVCODEC_GST_D3D11 NV_ENC_PARAMS_RC_VBR types fuel
              (Some device) rank
       else gst_nv_h264_encoder_register_cuda G_OS_WIN32
              HAVE_NVCODEC_GST_D3D11 NV_ENC_PARAMS_RC_VBR types fuel
              (Some device) rank) = Some (Some r)
      /\ g_type_from_name types (type_name r) = false
      /\ class_data r = cdata.
Proof.
  intros win d3d rcvbr d3d11 types fuel device rank cdata Hsize Hfuel Hc.
  destruct (register_spec win d3d rcvbr d3d11 types fuel device rank cdata
              Hsize Hfuel Hc) as (r & Hr & Hfree & _ & _ & Hcd & _).
  exists r. split; [exact Hr|]. split; [|exact Hcd].
  destruct (g_type_from_name types (type_name r)) eqn:E; [|reflexivity].
  apply g_type_from_name_In in E. contradiction.
Qed.

(** X28 on a second CUDA device. *)
Lemma register_finds_free_type_name_witness :
  exists r,
    gst_nv_h264_encoder_register_cuda false false 1 [ "GstNvCudaH264Enc" ]
      1 (Some example_device) 256 = Some (Some r)
    /\ g_type_from_name [ "GstNvCudaH264Enc" ] (type_name r) = false.
Proof.
  destruct (gst_nv_h264_encoder_create_class_data false false 1
              (profile_guids example_device) (input_formats example_device)
              (NvEncGetEncodeCaps example_device)
              (g_object_get example_device) false) as [cdata|] eqn:E;
    [|vm_compute in E; discriminate E].
  destruct (register_finds_free_type_name false false 1 false
              [ "GstNvCudaH264Enc" ] 1%nat example_device 256 cdata)
    as (r & Hr & Hfree & _).
  - vm_compute. reflexivity.
  - cbn. lia.
  - exact E.
  - exists r. split; [exact Hr|exact Hfree].
Defined.

(** X29: the rank of a second device.  The element of a device keeps the
    plain type name and the rank it is given when the plain name is free;
    when the plain name is taken it gets another name, and a rank above
    zero is lowered by one. *)
Theorem register_second_device_rank :
  forall G_OS_WIN32 HAVE_NVCODEC_GST_D3D11 NV_ENC_PARAMS_RC_VBR
         (d3d11_mode : bool) types fuel device rank r,
    Z.of_nat (List.length types) < 2 ^ 31 ->
    (List.length types <= fuel)%nat ->
    (if d3d11_mode
     then gst_nv_h264_encoder_register_d3d11 G_OS_WIN32
            HAVE_NVCODEC_GST_D3D11 NV_ENC_PARAMS_RC_VBR types fuel
            (Some device) rank
     else gst_nv_h264_encoder_register_cuda G_OS_WIN32
            HAVE_NVCODEC_GST_D3D11 NV_ENC_PARAMS_RC_VBR types fuel
            (Some device) rank) = Some (Some r) ->
    let base := if d3d11_mode then "GstNvD3D11H264Enc"
                else "GstNvCudaH264Enc" in
    if g_type_from_name types base
    then type_name r <> base
         /\ element_rank r = (if 0 <? rank then rank - 1 else rank)
    else type_name r = base /\ element_rank r = rank.
Proof.
  intros win d3d rcvbr d3d11 types fuel device rank r Hsize Hfuel Hr base.
  destruct (register_class_data _ _ _ _ _ _ _ _ _ Hr) as (cdata & Hc).
  destruct (register_spec win d3d rcvbr d3d11 types fuel device rank cdata
              Hsize Hfuel Hc) as (r' & Hr' & Hfree & Hbase & Hrank & _).
  rewrite Hr in Hr'. injection Hr' as <-.
  assert (Eb : type_name_at d3d11 0 = base) by (destruct d3d11; reflexivity).
  rewrite Eb in Hbase, Hrank.
  destruct (g_type_from_name types base) eqn:E.
  - apply g_type_from_name_In in E. rewrite andb_true_r in Hrank.
    split; [|exact Hrank]. intros Heq. apply Hbase in Heq. contradiction.
  - rewrite andb_false_r in Hrank. split; [|exact Hrank].
    apply Hbase. intros Hin. apply g_type_from_name_In in Hin. congruence.
Qed.

(** X29 on a second CUDA device, registered with rank 256. *)
Lemma register_second_device_rank_witness :
  match gst_nv_h264_encoder_register_cuda false false 1
          [ "GstNvCudaH264Enc" ] 1 (Some example_device) 256 with
  | Some (Some r) =>
      type_name r <> "GstNvCudaH264Enc" /\ element_rank r = 255
  | _ => False
  end.
Proof.
  destruct (gst_nv_h264_encoder_register_cuda false false 1
              [ "GstNvCudaH264Enc" ] 1 (Some example_device) 256)
    as [[r|]|] eqn:E;
    [|vm_compute in E; discriminate E|vm_compute in E; discriminate E].
  apply (register_second_device_rank false false 1 false
           [ "GstNvCudaH264Enc" ] 1%nat example_device 256 r).
  - vm_compute. reflexivity.
  - cbn. lia.
  - exact E.
Defined.

(** X30: the device index of the names.  The type name and the feature
    name of a registration carry the same device index, which is the
    smallest one whose type name is free: index 0 stands for the plain
    names, and the type name of every smaller index is registered. *)
Theorem register_uses_least_free_index :
  forall G_OS_WIN32 HAVE_NVCODEC_GST_D3D11 NV_ENC_PARAMS_RC_VBR
         (d3d11_mode : bool) types fuel device rank r,
    Z.of_nat (List.length types) < 2 ^ 31 ->
    (List.length types <= fuel)%nat ->
    (if d3d11_mode
     then gst_nv_h264_encoder_register_d3d11 G_OS_WIN32
            HAVE_NVCODEC_GST_D3D11 NV_ENC_PARAMS_RC_VBR types fuel
            (Some device) rank
     else gst_nv_h264_encoder_register_cuda G_OS_WIN32
            HAVE_NVCODEC_GST_D3D11 NV_ENC_PARAMS_RC_VBR types fuel
            (Some device) rank) = Some (Some r) ->
    exists index,
      0 <= index <= Z.of_nat (List.length types)
      /\ type_name r = type_name_at d3d11_mode index
      /\ feature_name r = feature_name_at d3d11_mode index
      /\ g_type_from_name types (type_name_at d3d11_mode index) = false
      /\ forall j, 0 <= j < index ->
                   g_type_from_name types (type_name_at d3d11_mode j) = true.
Proof.
  intros win d3d rcvbr d3d11 types fuel device rank r Hsize Hfuel Hr.
  destruct (register_class_data _ _ _ _ _ _ _ _ _ Hr) as (cdata & Hc).
  destruct (register_spec win d3d rcvbr d3d11 types fuel device rank cdata
              Hsize Hfuel Hc)
    as (r' & Hr' & Hfree & _ & _ & _ & index & Hi & Ht & Hf & Hall).
  rewrite Hr in Hr'. injection Hr' as <-.
  exists index. split; [exact Hi|]. split; [exact Ht|]. split; [exact Hf|].
  split.
  - rewrite <- Ht.
    destruct (g_type_from_name types (type_name r)) eqn:E; [|reflexivity].
    apply g_type_from_name_In in E. contradiction.
  - intros j Hj. apply g_type_from_name_In. now apply Hall.
Qed.

(** X30 on a third CUDA device. *)
Lemma register_uses_least_free_index_witness :
  match gst_nv_h264_encoder_register_cuda false false 1
          [ "GstNvCudaH264Device1Enc"; "GstNvCudaH264Enc" ] 2
          (Some example_device) 256 with
  | Some (Some r) =>
      exists index,
        0 <= index <= 2
        /\ type_name r = type_name_at false index
        /\ feature_name r = feature_name_at false index
        /\ g_type_from_name
             [ "GstNvCudaH264Device1Enc"; "GstNvCudaH264Enc" ]
             (type_name_at false index) = false
        /\ forall j, 0 <= j < index ->
                     g_type_from_name
                       [ "GstNvCudaH264Device1Enc"; "GstNvCudaH264Enc" ]
                       (type_name_at false j) = true
  | _ => False
  end.
Proof.
  destruct (gst_nv_h264_encoder_register_cuda false false 1
              [ "GstNvCudaH264Device1Enc"; "GstNvCudaH264Enc" ] 2
              (Some example_device) 256)
    as [[r|]|] eqn:E;
    [|vm_compute in E; discriminate E|vm_compute in E; discriminate E].
  apply (register_uses_least_free_index false false 1 false
           [ "GstNvCudaH264Device1Enc"; "GstNvCudaH264Enc" ] 2%nat
           example_device 256 r).
  - vm_compute. reflexivity.
  - cbn. lia.
  - exact E.
Defined.
